(** * The component lifecycle orchestrator of the P4 DPI tool

    A shallow embedding of [scripts/start_dpi.py] (class [DPISystem] and
    [main]) and the properties of its startup sequencing, shutdown,
    delayed export and health snapshots.

    The orchestrator talks to many things it does not own: the compiler, the
    network emulation, worker processes, threads, the clock, the file system.
    All of them are gathered in a [world] that answers every external call,
    possibly depending on everything that happened before; every answer is
    either a returned value or a raised Python exception.  The orchestrator's
    methods are computations over the instance's fields and the history of
    events, and preserve what happened even when they end by an exception.

    The signal handler of the script only exits: a signal shows as
    [SystemExit] raised by whatever call the main thread is in.  The bodies
    of the threads the orchestrator owns (the monitoring loop, the delayed
    export) are computations of their own on the same instance; those of its
    collaborators are behind the world.

    In the program as embedded first, [print] and the logger always
    return.  The logging library swallows what its handlers raise; a
    [print] can raise, and the vocabulary has [start_system] and [run] once
    more with a console that may fail, for the properties that depend on it.

    The file has three parts: the program; the vocabulary of its
    properties; the proofs. *)

From Stdlib Require Import String List ZArith QArith Bool Lia RelationClasses.
Import ListNotations.
Open Scope string_scope.
Open Scope Z_scope.

Set Implicit Arguments.
Set Warnings "-register-all".

(** ** Python values read from the configuration file *)

(** A Python float: a finite value (floats are rationals), an infinity or
    not-a-number.  YAML has literals for all three. *)
Inductive pyfloat :=
| FFinite (q : Q)
| FInf (negative : bool)
| FNan.

(** What [yaml.safe_load] builds from the core of YAML: null, booleans,
    numbers, texts, sequences and mappings.  Binary scalars, timestamps and
    sets, which a file can hold too, are left out: the properties speak of
    configurations made of the values below.  Mapping keys are the strings
    the program looks up; a mapping lists each key once. *)
Inductive yaml :=
| YNull
| YBool (b : bool)
| YInt (z : Z)
| YFloat (f : pyfloat)
| YStr (s : string)
| YList (l : list yaml)
| YMap (m : list (string * yaml)).

(** ** Exceptions and results *)

(** [PyException] stands for every subclass of [Exception], with its class
    name and message.  [KeyboardInterrupt] and [SystemExit] derive from
    [BaseException] only: [except Exception] lets them through, a bare
    [except:] catches them.  The collaborators of the orchestrator are
    taken to be true when tested by [if], as objects are unless their
    class says otherwise. *)
Inductive exn :=
| PyException (cls msg : string)
| KeyboardInterrupt
| SystemExit.

Definition is_Exception (e : exn) : bool :=
  match e with PyException _ _ => true | _ => false end.

(** The text of [str(e)], as interpolated in the log lines. *)
Definition exn_text (e : exn) : string :=
  match e with
  | PyException _ msg => msg
  | KeyboardInterrupt => EmptyString
  | SystemExit => "0"
  end.

Inductive res (A : Type) :=
| Ret (a : A)
| Exc (e : exn).
Arguments Ret {A} a.
Arguments Exc {A} e.

Definition AttributeError (msg : string) : exn := PyException "AttributeError" msg.
Definition TypeError (msg : string) : exn := PyException "TypeError" msg.
Definition ValueError (msg : string) : exn := PyException "ValueError" msg.
Definition OverflowError (msg : string) : exn := PyException "OverflowError" msg.

(** ** Operations of Python on configuration values *)

Fixpoint assoc (key : string) (m : list (string * yaml)) : option yaml :=
  match m with
  | [] => None
  | (k, v) :: rest => if String.eqb k key then Some v else assoc key rest
  end.

(** [d.get(key, default)]: only a mapping has the method. *)
Definition dict_get (d : yaml) (key : string) (default : yaml) : res yaml :=
  match d with
  | YMap m => match assoc key m with
              | Some v => Ret v
              | None => Ret default
              end
  | _ => Exc (AttributeError "object has no attribute 'get'")
  end.

Definition float_truthy (f : pyfloat) : bool :=
  match f with
  | FFinite q => negb (Qeq_bool q 0)
  | _ => true
  end.

(** Truth value of a configuration value, as [if not switches] tests it. *)
Definition py_truthy (v : yaml) : bool :=
  match v with
  | YNull => false
  | YBool b => b
  | YInt z => negb (z =? 0)
  | YFloat f => float_truthy f
  | YStr s => negb (String.eqb s EmptyString)
  | YList l => match l with [] => false | _ => true end
  | YMap m => match m with [] => false | _ => true end
  end.

Fixpoint chars (s : string) : list yaml :=
  match s with
  | EmptyString => []
  | String c rest => YStr (String c EmptyString) :: chars rest
  end.

(** [for sw in v]: a list gives its elements, a mapping its keys, a string
    its characters; nothing else can be iterated. *)
Definition py_iter (v : yaml) : res (list yaml) :=
  match v with
  | YList l => Ret l
  | YMap m => Ret (map (fun kv => YStr (fst kv)) m)
  | YStr s => Ret (chars s)
  | _ => Exc (TypeError "object is not iterable")
  end.

(** Truncation toward zero, what [int] does to a finite float. *)
Definition Qtrunc (q : Q) : Z := Z.quot (Qnum q) (Z.pos (Qden q)).

(** [int(v)].  Reading an integer out of a text is Python's business, not
    this program's: it is the parameter [int_of_text]. *)
Definition py_int (int_of_text : string -> option Z) (v : yaml) : res Z :=
  match v with
  | YInt z => Ret z
  | YBool b => Ret (if b then 1 else 0)
  | YFloat (FFinite q) => Ret (Qtrunc q)
  | YFloat (FInf _) => Exc (OverflowError "cannot convert float infinity to integer")
  | YFloat FNan => Exc (ValueError "cannot convert float NaN to integer")
  | YStr s => match int_of_text s with
              | Some z => Ret z
              | None => Exc (ValueError "invalid literal for int() with base 10")
              end
  | _ => Exc (TypeError "int() argument must be a string, a bytes-like object or a real number")
  end.

(** ** Handles, external calls and events *)

(** An element of a command line: a text, or [str(v)] of a configuration
    value that is not a text already. *)
Inductive arg :=
| Lit (s : string)
| StrOf (v : yaml).

Definition str_arg (v : yaml) : arg :=
  match v with YStr s => Lit s | _ => StrOf v end.

(** What a background thread runs. *)
Inductive thread_target :=
| TgtCreateTopology (topology : Z)
| TgtTrafficGeneration (generator : Z)
| TgtMonitor
| TgtExport (delay db_file : yaml).

Record thread := { target : thread_target; ident : Z }.

(** A [subprocess.Popen] object, by the identity the launch returned. *)
Definition process := Z.

Record health_status := {
  timestamp : Z;
  components : list (string * string)
}.

(** Every call that leaves the orchestrator. *)
Inductive call :=
| CallSignal (name : string)
| CallMakedirs (path : string)
| CallLoggingSetup (level format file : yaml)
| CallNow
| CallP4cVersion
| CallP4cCompile (cmd : list string)
| CallPathExists (path : string)
| CallMove (src dst : string)
| CallNewTopology
| CallThreadStart (tgt : thread_target)
| CallSleep (secs : yaml)
| CallTopologyStartTraffic (topology : Z)
| CallPopen (cmd : list arg)
| CallNewPacketLogger
| CallNewTrafficGenerator
| CallWriteHealth (status : health_status)
| CallGetStats (controller : Z)
| CallStopTraffic (generator : Z)
| CallControllerStop (controller : Z)
| CallLoggerClose (logger : Z)
| CallTopologyStop (topology : Z)
| CallTerminate (p : process)
| CallWait (p : process) (timeout : Z)
| CallKill (p : process)
| CallJoin (t : thread) (timeout : Z)
| CallExport (cmd : list arg).

Inductive outcome :=
| Returned (v : Z)
| Raised (e : exn).

Inductive level := Info | Warning | Error.

Inductive event :=
| EvCall (c : call) (o : outcome)
| EvLog (lvl : level) (msg : string)
| EvPrint (msg : string)
| EvSetRunning (b : bool).

Definition trace := list event.

(** What reading the configuration file gives. *)
Inductive load_outcome :=
| Loaded (y : yaml)
| FileNotFound
| LoadError (e : exn).

Record world := {
  respond : trace -> call -> outcome;
  read_yaml : string -> load_outcome;
  int_of_text : string -> option Z
}.

(** ** The orchestrator instance *)

Record DPISystem := {
  config : yaml;
  running : bool;
  run_id : Z;
  controller : option Z;
  traffic_generator : option Z;
  topology : option Z;
  logger_component : option Z;   (* [None]: the attribute does not exist *)
  threads : list thread;
  processes : list (string * process)
}.

Record machine := { obj : DPISystem; hist : trace }.

Definition add_event (e : event) (m : machine) : machine :=
  {| obj := obj m; hist := (hist m ++ [e])%list |}.

Definition upd (f : DPISystem -> DPISystem) (m : machine) : machine :=
  {| obj := f (obj m); hist := hist m |}.

Definition with_running (b : bool) (o : DPISystem) : DPISystem :=
  {| config := config o; running := b; run_id := run_id o;
     controller := controller o; traffic_generator := traffic_generator o;
     topology := topology o; logger_component := logger_component o;
     threads := threads o; processes := processes o |}.

Definition with_traffic_generator (g : Z) (o : DPISystem) : DPISystem :=
  {| config := config o; running := running o; run_id := run_id o;
     controller := controller o; traffic_generator := Some g;
     topology := topology o; logger_component := logger_component o;
     threads := threads o; processes := processes o |}.

Definition with_topology (t : Z) (o : DPISystem) : DPISystem :=
  {| config := config o; running := running o; run_id := run_id o;
     controller := controller o; traffic_generator := traffic_generator o;
     topology := Some t; logger_component := logger_component o;
     threads := threads o; processes := processes o |}.

Definition with_logger_component (l : Z) (o : DPISystem) : DPISystem :=
  {| config := config o; running := running o; run_id := run_id o;
     controller := controller o; traffic_generator := traffic_generator o;
     topology := topology o; logger_component := Some l;
     threads := threads o; processes := processes o |}.

(** [self.threads.append(t)] *)
Definition append_thread (t : thread) (o : DPISystem) : DPISystem :=
  {| config := config o; running := running o; run_id := run_id o;
     controller := controller o; traffic_generator := traffic_generator o;
     topology := topology o; logger_component := logger_component o;
     threads := (threads o ++ [t])%list; processes := processes o |}.

(** Assignment to a key of a Python dict: an existing key keeps its place
    and takes the new value, a new key goes last. *)
Fixpoint dict_set {V} (key : string) (v : V) (d : list (string * V))
  : list (string * V) :=
  match d with
  | [] => [(key, v)]
  | (k, v0) :: rest =>
      if String.eqb k key then (k, v) :: rest else (k, v0) :: dict_set key v rest
  end.

(** [self.processes[key] = p] *)
Definition set_process (key : string) (p : process) (o : DPISystem) : DPISystem :=
  {| config := config o; running := running o; run_id := run_id o;
     controller := controller o; traffic_generator := traffic_generator o;
     topology := topology o; logger_component := logger_component o;
     threads := threads o; processes := dict_set key p (processes o) |}.

(** ** Computations *)

Definition M (A : Type) : Type := world -> machine -> res A * machine.

Definition ret {A} (a : A) : M A := fun _ m => (Ret a, m).

Definition raise {A} (e : exn) : M A := fun _ m => (Exc e, m).

Definition bind {A B} (c : M A) (f : A -> M B) : M B :=
  fun w m =>
    match c w m with
    | (Ret a, m') => f a w m'
    | (Exc e, m') => (Exc e, m')
    end.

Declare Scope orch_scope.
Delimit Scope orch_scope with orch.
Notation "x <- c ;; k" := (bind c (fun x => k))
  (at level 100, c at next level, right associativity) : orch_scope.
Notation "c ;; k" := (bind c (fun _ => k))
  (at level 100, right associativity) : orch_scope.
Open Scope orch_scope.

(** A pure Python operation that may raise. *)
Definition lift {A} (r : res A) : M A := fun _ m => (r, m).

Definition emit (e : event) : M unit := fun _ m => (Ret tt, add_event e m).

Definition log (lvl : level) (msg : string) : M unit := emit (EvLog lvl msg).

(** [print(msg, flush=True)] on a console that takes every text. *)
Definition print (msg : string) : M unit := emit (EvPrint msg).

(** An external call: the world answers knowing the history, the call and
    its answer are recorded, and a raised exception propagates. *)
Definition ext (c : call) : M Z :=
  fun w m =>
    let o := respond w (hist m) c in
    let m' := add_event (EvCall c o) m in
    match o with
    | Returned v => (Ret v, m')
    | Raised e => (Exc e, m')
    end.

Definition get_obj : M DPISystem := fun _ m => (Ret (obj m), m).

Definition update (f : DPISystem -> DPISystem) : M unit :=
  fun _ m => (Ret tt, upd f m).

(** [self.running = b]; the write is recorded, it is what the background
    loops observe. *)
Definition set_running (b : bool) : M unit :=
  update (with_running b) ;; emit (EvSetRunning b).

(** [try: body / except Exception as e: handler e] *)
Definition try_except {A} (body : M A) (handler : exn -> M A) : M A :=
  fun w m =>
    match body w m with
    | (Exc e, m') => if is_Exception e then handler e w m' else (Exc e, m')
    | r => r
    end.

(** [try: body / except: handler] *)
Definition try_bare {A} (body : M A) (handler : M A) : M A :=
  fun w m =>
    match body w m with
    | (Exc _, m') => handler w m'
    | r => r
    end.

(** [try: body / finally: fin] *)
Definition try_finally {A} (body : M A) (fin : M unit) : M A :=
  fun w m =>
    match body w m with
    | (r, m') =>
        match fin w m' with
        | (Ret _, m'') => (r, m'')
        | (Exc e, m'') => (Exc e, m'')
        end
    end.

(** [for x in l: body x] *)
Fixpoint for_each {A} (l : list A) (body : A -> M unit) : M unit :=
  match l with
  | [] => ret tt
  | x :: rest => body x ;; for_each rest body
  end.

(** ** Construction of the instance *)

(** While [__init__] runs, the instance has only the attributes assigned so
    far.  [load_config] reads [self.logger], so the state of that attribute
    is its argument. *)
Inductive logger_attr :=
| LoggerUnset      (* no such attribute yet *)
| LoggerNone       (* [self.logger = None] *)
| LoggerReady.     (* the logger of [setup_logging] *)

(** Computations of the constructor: no instance yet, only the history. *)
Definition K (A : Type) : Type := world -> trace -> res A * trace.

Definition kbind {A B} (c : K A) (f : A -> K B) : K B :=
  fun w h =>
    match c w h with
    | (Ret a, h') => f a w h'
    | (Exc e, h') => (Exc e, h')
    end.

Definition klift {A} (r : res A) : K A := fun _ h => (r, h).

Definition kemit (e : event) : K unit := fun _ h => (Ret tt, (h ++ [e])%list).

Definition kext (c : call) : K Z :=
  fun w h =>
    let o := respond w h c in
    match o with
    | Returned v => (Ret v, (h ++ [EvCall c o])%list)
    | Raised e => (Exc e, (h ++ [EvCall c o])%list)
    end.

(** [DPISystem.load_config]: the handler of [FileNotFoundError] logs through
    [self.logger] and then returns the empty configuration. *)
Definition load_config (lg : logger_attr) (config_file : string) : K yaml :=
  fun w h =>
    match read_yaml w config_file with
    | Loaded y => (Ret y, h)
    | LoadError e => (Exc e, h)
    | FileNotFound =>
        match lg with
        | LoggerUnset =>
            (Exc (AttributeError "'DPISystem' object has no attribute 'logger'"), h)
        | LoggerNone =>
            (Exc (AttributeError "'NoneType' object has no attribute 'error'"), h)
        | LoggerReady =>
            (Ret (YMap []),
             (h ++ [EvLog Error ("Configuration file not found: " ++ config_file)])%list)
        end
    end.

(** [DPISystem.setup_logging]; the handlers and the level name are checked
    by the logging library, inside the one call. *)
Definition setup_logging (cfg : yaml) : K unit :=
  kbind (klift (dict_get cfg "logging" (YMap []))) (fun log_config =>
  kbind (kext (CallMakedirs "logs")) (fun _ =>
  kbind (klift (dict_get log_config "level" (YStr "INFO"))) (fun lvl =>
  kbind (klift (dict_get log_config "format"
           (YStr "%(asctime)s - %(name)s - %(levelname)s - %(message)s"))) (fun fmt =>
  kbind (klift (dict_get log_config "file" (YStr "logs/dpi_system.log"))) (fun file =>
  kbind (kext (CallLoggingSetup lvl fmt file)) (fun _ =>
  kemit (EvLog Info "DPI System initialized"))))))).

(** [DPISystem.__init__].  The run identifier is the clock reading it is
    formatted from. *)
Definition DPISystem_init (config_file : string) : K DPISystem :=
  kbind (load_config LoggerUnset config_file) (fun cfg =>
  kbind (setup_logging cfg) (fun _ =>
  kbind (kemit (EvSetRunning false)) (fun _ =>
  kbind (kext CallNow) (fun now =>
  klift (Ret {| config := cfg; running := false; run_id := now;
                controller := None; traffic_generator := None;
                topology := None; logger_component := None;
                threads := []; processes := [] |}))))).

(** ** Startup actions *)

Definition p4_file := "p4_programs/dpi_l2_l4.p4".
Definition p4info_file := "p4_programs/dpi_l2_l4.p4info.txt".
Definition json_file := "p4_programs/dpi_l2_l4.json".

Definition compile_cmd : list string :=
  ["p4c"; "--target"; "bmv2"; "--arch"; "v1model";
   "--p4runtime-files"; p4info_file; "--std"; "p4_16"; p4_file].

(** [DPISystem.compile_p4_program] *)
Definition compile_p4_program : M bool :=
  log Info "Compiling P4 program..." ;;
  try_except
    (rc <- ext CallP4cVersion ;;
     if negb (rc =? 0) then
       log Error "P4 compiler not found. Please install P4 tools." ;;
       ret false
     else
       rc' <- ext (CallP4cCompile compile_cmd) ;;
       if negb (rc' =? 0) then
         (* the line ends by the compiler's error output *)
         log Error "P4 compilation failed: " ;;
         ret false
       else
         found <- ext (CallPathExists "dpi_l2_l4.json") ;;
         (if negb (found =? 0)
          then (ext (CallMove "dpi_l2_l4.json" json_file) ;; ret tt)
          else ret tt) ;;
         log Info "P4 program compiled successfully" ;;
         ret true)
    (fun e =>
       log Error ("Error compiling P4 program: " ++ exn_text e) ;;
       ret false).

(** [DPISystem.start_mininet_topology] *)
Definition start_mininet_topology : M bool :=
  log Info "Starting Mininet topology..." ;;
  try_except
    (topo <- ext CallNewTopology ;;
     update (with_topology topo) ;;
     tid <- ext (CallThreadStart (TgtCreateTopology topo)) ;;
     update (append_thread {| target := TgtCreateTopology topo; ident := tid |}) ;;
     ext (CallSleep (YInt 10)) ;;
     try_except
       (ext (CallTopologyStartTraffic topo) ;; ret tt)
       (fun e =>
          log Warning ("Could not start built-in Mininet traffic: " ++ exn_text e)) ;;
     log Info "Mininet topology started" ;;
     ret true)
    (fun e =>
       log Error ("Error starting Mininet topology: " ++ exn_text e) ;;
       ret false).

(** One round of the loop of [start_p4_controller]: the worker of one
    switch.  [name], [p4info] and [json_path] reach [Popen] as the
    configuration has them, and of the values above [Popen] takes texts
    only: for any other it raises before it starts a process. *)
Definition launch_worker (sw : yaml) : M unit :=
  name <- lift (dict_get sw "name" (YStr "s1")) ;;
  device_id <- lift (dict_get sw "device_id" (YInt 1)) ;;
  grpc_port <- lift (dict_get sw "grpc_port" (YInt 50051)) ;;
  p4info <- lift (dict_get sw "p4info_file" (YStr p4info_file)) ;;
  json_path <- lift (dict_get sw "runtime_json_file" (YStr json_file)) ;;
  match name, p4info, json_path with
  | YStr n, YStr p, YStr j =>
      proc <- ext (CallPopen
                [Lit "python3"; Lit "scripts/p4_controller_worker.py";
                 Lit "--name"; Lit n;
                 Lit "--device-id"; str_arg device_id;
                 Lit "--grpc-port"; str_arg grpc_port;
                 Lit "--p4info"; Lit p;
                 Lit "--json"; Lit j]) ;;
      update (set_process ("p4c_" ++ n) proc) ;;
      (* the line goes on with the process id *)
      log Info ("Launched controller worker for " ++ n)
  | _, _, _ => raise (TypeError "expected str, bytes or os.PathLike object")
  end.

(** [DPISystem.start_p4_controller] *)
Definition start_p4_controller : M bool :=
  log Info "Starting P4 controllers (one per switch)..." ;;
  try_except
    (o <- get_obj ;;
     switches <- lift (dict_get (config o) "switches" (YList [])) ;;
     if negb (py_truthy switches) then
       log Warning "No switches defined in config" ;;
       ret true
     else
       sws <- lift (py_iter switches) ;;
       for_each sws launch_worker ;;
       ext (CallSleep (YInt 3)) ;;
       log Info "All P4 controller workers launched" ;;
       ret true)
    (fun e =>
       log Error ("Error starting P4 controller workers: " ++ exn_text e) ;;
       ret false).

(** [DPISystem.start_packet_logger] *)
Definition start_packet_logger : M bool :=
  log Info "Starting packet logger..." ;;
  try_except
    (l <- ext CallNewPacketLogger ;;
     update (with_logger_component l) ;;
     log Info "Packet logger started" ;;
     ret true)
    (fun e =>
       log Error ("Error starting packet logger: " ++ exn_text e) ;;
       ret false).

(** [DPISystem.start_traffic_generator] *)
Definition start_traffic_generator : M bool :=
  log Info "Starting traffic generator..." ;;
  try_except
    (g <- ext CallNewTrafficGenerator ;;
     update (with_traffic_generator g) ;;
     tid <- ext (CallThreadStart (TgtTrafficGeneration g)) ;;
     update (append_thread {| target := TgtTrafficGeneration g; ident := tid |}) ;;
     log Info "Traffic generator started" ;;
     ret true)
    (fun e =>
       log Error ("Error starting traffic generator: " ++ exn_text e) ;;
       ret false).

(** [DPISystem.start_web_interface] *)
Definition start_web_interface : M bool :=
  log Info "Starting Flask API server..." ;;
  try_except
    (proc <- ext (CallPopen [Lit "python3"; Lit "scripts/flask_api.py";
                             Lit "--host"; Lit "0.0.0.0";
                             Lit "--port"; Lit "5000"]) ;;
     update (set_process "flask_api" proc) ;;
     log Info "Flask API server started" ;;
     ret true)
    (fun e =>
       log Error ("Error starting Flask API: " ++ exn_text e) ;;
       ret false).

(** [DPISystem.start_monitoring] *)
Definition start_monitoring : M bool :=
  log Info "Starting monitoring..." ;;
  try_except
    (tid <- ext (CallThreadStart TgtMonitor) ;;
     update (append_thread {| target := TgtMonitor; ident := tid |}) ;;
     log Info "Monitoring started" ;;
     ret true)
    (fun e =>
       log Error ("Error starting monitoring: " ++ exn_text e) ;;
       ret false).

(** ** Monitoring *)

(** The status written for a collaborator reference. *)
Definition status_of {A} (ref : option A) : string :=
  match ref with Some _ => "running" | None => "stopped" end.

(** The [components] dictionary of [check_system_health], filled key by key. *)
Definition health_components (o : DPISystem) : list (string * string) :=
  dict_set "topology" (status_of (topology o))
    (dict_set "traffic_generator" (status_of (traffic_generator o))
       (dict_set "logger" (status_of (logger_component o))
          (dict_set "controller" (status_of (controller o)) []))).

(** [DPISystem.check_system_health]: the snapshot replaces the file. *)
Definition check_system_health : M unit :=
  now <- ext CallNow ;;
  o <- get_obj ;;
  ext (CallWriteHealth {| timestamp := now; components := health_components o |}) ;;
  ret tt.

(** [DPISystem.log_statistics]; the line it logs ends by the statistics. *)
Definition log_statistics : M unit :=
  o <- get_obj ;;
  match controller o with
  | Some c => ext (CallGetStats c) ;; log Info "System statistics"
  | None => ret tt
  end.

(** The body of the loop of [monitor_system]. *)
Definition monitor_tick : M unit :=
  try_except
    (check_system_health ;;
     log_statistics ;;
     o <- get_obj ;;
     monitoring <- lift (dict_get (config o) "monitoring" (YMap [])) ;;
     interval <- lift (dict_get monitoring "stats_interval" (YInt 10)) ;;
     ext (CallSleep interval) ;;
     ret tt)
    (fun e => log Error ("Error in monitoring: " ++ exn_text e)).

(** [DPISystem.monitor_system], observed for at most [ticks] rounds. *)
Fixpoint monitor_system (ticks : nat) : M unit :=
  match ticks with
  | O => ret tt
  | S n =>
      o <- get_obj ;;
      if running o then monitor_tick ;; monitor_system n else ret tt
  end.

(** ** The delayed export *)

Definition ask_int (v : yaml) : M Z :=
  fun w m => (py_int (int_of_text w) v, m).

(** [_export_after_delay], the body of the export thread. *)
Definition export_after_delay (delay db_file : yaml) : M unit :=
  try_except
    (d <- ask_int delay ;;
     ext (CallSleep (YInt (Z.max 1 d))) ;;
     match db_file with
     | YStr f =>
         ext (CallExport [Lit "python3"; Lit "scripts/export_db.py";
                          Lit "--db"; Lit f; Lit "--out"; Lit "logs"]) ;;
         log Info "Initial run export completed"
     | _ => raise (TypeError "expected str, bytes or os.PathLike object")
     end)
    (fun e => log Error ("Initial export failed: " ++ exn_text e)).

(** [DPISystem.schedule_initial_export]; the thread is started and not kept
    in [self.threads]. *)
Definition schedule_initial_export : M unit :=
  o <- get_obj ;;
  export <- lift (dict_get (config o) "export" (YMap [])) ;;
  delay <- lift (dict_get export "initial_delay_seconds" (YInt 20)) ;;
  performance <- lift (dict_get (config o) "performance" (YMap [])) ;;
  database <- lift (dict_get performance "database" (YMap [])) ;;
  db_file <- lift (dict_get database "file" (YStr "logs/packets.db")) ;;
  ext (CallThreadStart (TgtExport delay db_file)) ;;
  ret tt.

(** ** Start *)

(** The loop of [start_system] over the component list.  [Some b] is the
    [return b] that leaves [start_system] from inside the loop, [None] the
    end of the list. *)
Fixpoint run_components (cs : list (string * M bool)) : M (option bool) :=
  match cs with
  | [] => ret None
  | (name, start_func) :: rest =>
      print ("DEBUG: Starting " ++ name ++ "...") ;;
      log Info ("Starting " ++ name ++ "...") ;;
      ok <- start_func ;;
      if negb ok then
        print ("DEBUG: " ++ name ++ " failed") ;;
        log Error ("Failed to start " ++ name) ;;
        ret (Some false)
      else
        print ("DEBUG: " ++ name ++ " OK") ;;
        ext (CallSleep (YInt 2)) ;;
        run_components rest
  end.

Definition component_list : list (string * M bool) :=
  [("Mininet Topology", start_mininet_topology);
   ("P4 Controller", start_p4_controller);
   ("Packet Logger", start_packet_logger);
   ("Traffic Generator", start_traffic_generator);
   ("Web Interface", start_web_interface);
   ("Monitoring", start_monitoring)].

(** [DPISystem.start_system] *)
Definition start_system : M bool :=
  print "DEBUG: start_system called" ;;
  log Info "Starting P4 DPI System..." ;;
  set_running true ;;
  try_except
    (print "DEBUG: compiling P4..." ;;
     compiled <- compile_p4_program ;;
     if negb compiled then
       print "DEBUG: compile failed" ;;
       log Error "Failed to compile P4 program" ;;
       ret false
     else
       print "DEBUG: compile OK" ;;
       left <- run_components component_list ;;
       match left with
       | Some b => ret b
       | None =>
           try_except schedule_initial_export
             (fun e =>
                log Warning ("Failed to schedule initial export: " ++ exn_text e)) ;;
           print "DEBUG: All components started" ;;
           log Info "P4 DPI System started successfully" ;;
           ret true
       end)
    (fun e =>
       print ("DEBUG: Exception in start_system: " ++ exn_text e) ;;
       log Error ("Error starting system: " ++ exn_text e) ;;
       ret false).

(** ** Stop *)

(** One round of the loop over [self.processes]. *)
Definition stop_process (entry : string * process) : M unit :=
  let p := snd entry in
  try_bare
    (ext (CallTerminate p) ;; ext (CallWait p 5) ;; ret tt)
    (ext (CallKill p) ;; ret tt).

Definition join_thread (t : thread) : M unit :=
  ext (CallJoin t 5) ;; ret tt.

(** [if ref: call] on a collaborator reference. *)
Definition when_present (ref : option Z) (c : Z -> call) : M unit :=
  match ref with
  | Some r => ext (c r) ;; ret tt
  | None => ret tt
  end.

(** The body of the [try] of [stop_system]. *)
Definition shutdown_steps : M unit :=
  o <- get_obj ;;
  when_present (traffic_generator o) CallStopTraffic ;;
  when_present (controller o) CallControllerStop ;;
  when_present (logger_component o) CallLoggerClose ;;
  when_present (topology o) CallTopologyStop ;;
  for_each (processes o) stop_process ;;
  for_each (threads o) join_thread ;;
  log Info "P4 DPI System stopped".

(** [DPISystem.stop_system] *)
Definition stop_system : M unit :=
  log Info "Stopping P4 DPI System..." ;;
  set_running false ;;
  try_except shutdown_steps
    (fun e => log Error ("Error stopping system: " ++ exn_text e)).

(** ** Run and main *)

(** [try: body / except KeyboardInterrupt: ... / except Exception as e: ...] *)
Definition try_interrupt {A} (body : M A) (on_interrupt : M A)
    (on_exception : exn -> M A) : M A :=
  fun w m =>
    match body w m with
    | (Exc KeyboardInterrupt, m') => on_interrupt w m'
    | (Exc (PyException c t), m') => on_exception (PyException c t) w m'
    | r => r
    end.

Definition flag_text (b : bool) : string := if b then "True" else "False".

(** [DPISystem.run].  Its loop, [while self.running: time.sleep(360); break],
    runs its body at most once. *)
Definition run : M unit :=
  print "DEBUG: run() called" ;;
  try_finally
    (try_interrupt
       (print "DEBUG: calling start_system" ;;
        started <- start_system ;;
        if started then
          o <- get_obj ;;
          print ("DEBUG: start_system returned True, running=" ++ flag_text (running o)) ;;
          o1 <- get_obj ;;
          (if running o1 then (ext (CallSleep (YInt 360)) ;; ret tt) else ret tt) ;;
          o2 <- get_obj ;;
          print ("DEBUG: exited run loop, running=" ++ flag_text (running o2))
        else
          print "DEBUG: start_system returned False" ;;
          log Error "Failed to start system")
       (print "DEBUG: KeyboardInterrupt" ;;
        log Info "Received interrupt signal")
       (fun e =>
          print ("DEBUG: Exception in run: " ++ exn_text e) ;;
          log Error ("Error in main loop: " ++ exn_text e)))
    (print "DEBUG: run() finally block" ;;
     stop_system).

Inductive mode := ModeStart | ModeStop | ModeRestart.

(** The dispatch of [main] on [--mode]. *)
Definition dispatch (md : mode) : M unit :=
  match md with
  | ModeStart => run
  | ModeStop => stop_system
  | ModeRestart => stop_system ;; ext (CallSleep (YInt 2)) ;; run
  end.

(** [main], from the parsed arguments on, in a process with no history.  It
    gives the result and everything that happened. *)
Definition main (config_file : string) (md : mode) (w : world) : res unit * trace :=
  kbind (kext (CallSignal "SIGINT")) (fun _ =>
  kbind (kext (CallSignal "SIGTERM")) (fun _ =>
  kbind (DPISystem_init config_file) (fun o =>
    fun w h =>
      let r := dispatch md w {| obj := o; hist := h |} in
      (fst r, hist (snd r))))) w [].

(** ** What a history shows *)

(** The console transcript: the texts of the [print] calls, in order. *)
Definition prints (t : trace) : list string :=
  flat_map (fun e => match e with EvPrint s => [s] | _ => [] end) t.

(** The values written to [self.running], in order. *)
Definition flag_writes (t : trace) : list bool :=
  flat_map (fun e => match e with EvSetRunning b => [b] | _ => [] end) t.

(** The external calls issued, in order. *)
Definition calls (t : trace) : list call :=
  flat_map (fun e => match e with EvCall c _ => [c] | _ => [] end) t.

(** What a computation added to the history [before] it. *)
Definition emitted (before after : machine) : trace :=
  skipn (length (hist before)) (hist after).

(** * The vocabulary of the properties

    What the properties below speak of: observations of a history, the ways
    a method can end, hypotheses on the world, and sample worlds and
    instances to run the program on. *)

Open Scope list_scope.
Unset Implicit Arguments.

(** ** Relations a computation can respect *)

(** [respects R c]: whatever the world answers and however [c] ends, it
    moves the machine along [R]. *)
Definition respects (R : machine -> machine -> Prop) {A} (c : M A) : Prop :=
  forall w m, R m (snd (c w m)).

(** [kept f]: an observation [f] of the machine is left as it was. *)
Definition kept {X} (f : machine -> X) : machine -> machine -> Prop :=
  fun m m' => f m' = f m.

(** [adds P]: the history only grows, and by events satisfying [P]. *)
Definition adds (P : event -> Prop) : machine -> machine -> Prop :=
  fun m m' => exists d, hist m' = (hist m ++ d)%list /\ Forall P d.

(** ** The console transcript of the startup sequence *)

(** What has been printed so far. *)
Definition console (m : machine) : list string := prints (hist m).

(** The lines [start_system] prints around the call of a startup action. *)
Definition started (name : string) : string := "DEBUG: Starting " ++ name ++ "...".
Definition succeeded (name : string) : string := "DEBUG: " ++ name ++ " OK".
Definition failed (name : string) : string := "DEBUG: " ++ name ++ " failed".

(** The lines of the actions that were invoked and answered success. *)
Definition ok_prints (names : list string) : list string :=
  flat_map (fun n => [started n; succeeded n]) names.

(** How the loop over the components can end. *)
Inductive loop_end :=
| AllStarted                         (* the list is exhausted *)
| FailedAt (k : nat)                 (* action [k] answered failure *)
| RaisedIn (k : nat) (e : exn)       (* action [k] raised *)
| RaisedAfter (k : nat) (e : exn).   (* the pause after action [k] raised *)

(** The index of a way to end is one of the [n] components. *)
Definition loop_end_ok (n : nat) (l : loop_end) : Prop :=
  match l with
  | AllStarted => True
  | FailedAt k | RaisedIn k _ | RaisedAfter k _ => (k < n)%nat
  end.

(** What the loop gives when it ends that way. *)
Definition loop_result (l : loop_end) : res (option bool) :=
  match l with
  | AllStarted => Ret None
  | FailedAt _ => Ret (Some false)
  | RaisedIn _ e | RaisedAfter _ e => Exc e
  end.

(** What the loop has printed when it ends that way. *)
Definition loop_transcript (names : list string) (l : loop_end) : list string :=
  match l with
  | AllStarted => ok_prints names
  | FailedAt k =>
      ok_prints (firstn k names) ++ [started (nth k names EmptyString); failed (nth k names EmptyString)]
  | RaisedIn k _ => ok_prints (firstn k names) ++ [started (nth k names EmptyString)]
  | RaisedAfter k _ => ok_prints (firstn (S k) names)
  end.

(** The same end, one component later. *)
Definition later (l : loop_end) : loop_end :=
  match l with
  | AllStarted => AllStarted
  | FailedAt k => FailedAt (S k)
  | RaisedIn k e => RaisedIn (S k) e
  | RaisedAfter k e => RaisedAfter (S k) e
  end.

(** The names of the six components, in the order of the code. *)
Definition component_names : list string := map fst component_list.

(** How [start_system] can end. *)
Inductive start_end :=
| CompileRaised (e : exn)      (* the compilation step raised *)
| CompileFailed                (* the compilation step answered failure *)
| InLoop (l : loop_end)        (* the loop over the components was entered *)
| ScheduleRaised (e : exn).    (* scheduling the export raised past its handler *)

Definition start_end_ok (s : start_end) : Prop :=
  match s with
  | InLoop l => loop_end_ok (length component_list) l
  | _ => True
  end.

(** What the outer [except Exception] of [start_system] makes of [e]. *)
Definition caught (e : exn) : res bool :=
  if is_Exception e then Ret false else Exc e.

(** The line the outer handler of [start_system] prints for [e]. *)
Definition exception_line (e : exn) : list string :=
  if is_Exception e
  then [("DEBUG: Exception in start_system: " ++ exn_text e)%string]
  else [].

(** What [start_system] returns when it ends that way. *)
Definition start_result (s : start_end) : res bool :=
  match s with
  | CompileRaised e => caught e
  | CompileFailed => Ret false
  | InLoop AllStarted => Ret true
  | InLoop (FailedAt _) => Ret false
  | InLoop (RaisedIn _ e) | InLoop (RaisedAfter _ e) => caught e
  | ScheduleRaised e => caught e
  end.

(** What [start_system] has printed when it ends that way. *)
Definition start_transcript (s : start_end) : list string :=
  ["DEBUG: start_system called"; "DEBUG: compiling P4..."] ++
  match s with
  | CompileRaised e => exception_line e
  | CompileFailed => ["DEBUG: compile failed"]
  | InLoop l =>
      "DEBUG: compile OK" :: loop_transcript component_names l ++
      match l with
      | AllStarted => ["DEBUG: All components started"]
      | FailedAt _ => []
      | RaisedIn _ e | RaisedAfter _ e => exception_line e
      end
  | ScheduleRaised e =>
      "DEBUG: compile OK" :: ok_prints component_names ++ exception_line e
  end.

(** ** The rounds of the loop over the components *)

(** The machine on which the loop calls the action of the component
    [name]: the two opening lines of the round are out. *)
Definition entering (name : string) (m : machine) : machine :=
  add_event (EvLog Info ("Starting " ++ name ++ "..."))
    (add_event (EvPrint (started name)) m).

(** The machine the loop leaves when that action has answered failure and
    left [m']: the two lines that report the component are out, and
    nothing else. *)
Definition failing (name : string) (m' : machine) : machine :=
  add_event (EvLog Error ("Failed to start " ++ name))
    (add_event (EvPrint (failed name)) m').

(** The machine after the rounds of [cs], when each of them went well: its
    action, called in its turn, returned success, and the pause after it
    returned.  [None] when a round did not. *)
Fixpoint after_successes (cs : list (string * M bool)) (w : world) (m : machine)
  : option machine :=
  match cs with
  | [] => Some m
  | (name, act) :: rest =>
      match act w (entering name m) with
      | (Ret true, m1) =>
          let m2 := add_event (EvPrint (succeeded name)) m1 in
          match respond w (hist m2) (CallSleep (YInt 2)) with
          | Returned v =>
              after_successes rest w
                (add_event (EvCall (CallSleep (YInt 2)) (Returned v)) m2)
          | Raised _ => None
          end
      | _ => None
      end
  end.

(** The machine on which [start_system] calls the compilation step. *)
Definition compiling (m : machine) : machine :=
  add_event (EvPrint "DEBUG: compiling P4...")
    (add_event (EvSetRunning true)
       (upd (with_running true)
          (add_event (EvLog Info "Starting P4 DPI System...")
             (add_event (EvPrint "DEBUG: start_system called") m)))).

(** The machine on which [start_system] enters the loop, the compilation
    having left [m0]. *)
Definition compiled (m0 : machine) : machine :=
  add_event (EvPrint "DEBUG: compile OK") m0.

(** No condition on an event. *)
Definition any_event (e : event) : Prop := True.

(** ** Sample worlds and instances *)

(** An instance as [__init__] leaves it, for a given configuration. *)
Definition fresh (cfg : yaml) : DPISystem :=
  {| config := cfg; running := false; run_id := 0;
     controller := None; traffic_generator := None; topology := None;
     logger_component := None; threads := []; processes := [] |}.

(** That instance in a process where nothing has happened yet. *)
Definition fresh_machine (cfg : yaml) : machine := {| obj := fresh cfg; hist := [] |}.

(** A world where every call returns [v] except those [fails] selects. *)
Definition world_failing (fails : call -> bool) (e : exn) (v : Z) : world :=
  {| respond := fun _ c => if fails c then Raised e else Returned v;
     read_yaml := fun _ => Loaded (YMap []);
     int_of_text := fun _ => None |}.

(** A world where nothing raises. *)
Definition calm_world : world := world_failing (fun _ => false) SystemExit 0.

(** A world where the packet logger cannot be built. *)
Definition no_packet_logger : world :=
  world_failing (fun c => match c with CallNewPacketLogger => true | _ => false end)
    (PyException "OSError" "cannot open capture") 0.

(** ** The compiler *)

(** The compiler binary is absent: the probe [p4c --version] cannot be
    launched ([FileNotFoundError]), or, the case the code tests for, it
    comes back with a non-zero code. *)
Inductive probe_fails : outcome -> Prop :=
| probe_missing msg : probe_fails (Raised (PyException "FileNotFoundError" msg))
| probe_nonzero rc : rc <> 0 -> probe_fails (Returned rc).

(** The probe fails whenever it is made. *)
Definition compiler_absent (w : world) : Prop :=
  forall h, probe_fails (respond w h CallP4cVersion).

(** A world without the compiler binary. *)
Definition no_compiler : world :=
  world_failing (fun c => match c with CallP4cVersion => true | _ => false end)
    (PyException "FileNotFoundError" "[Errno 2] No such file or directory: 'p4c'") 0.

(** ** The running flag *)

(** Any event but a write of the flag. *)
Definition no_flag_write (e : event) : Prop :=
  match e with EvSetRunning _ => False | _ => True end.

(** The flag of the instance. *)
Definition flag (m : machine) : bool := running (obj m).

(** What [start_system] does after it has set the flag. *)
Definition start_body : M bool :=
  try_except
    (print "DEBUG: compiling P4..." ;;
     compiled <- compile_p4_program ;;
     if negb compiled then
       print "DEBUG: compile failed" ;;
       log Error "Failed to compile P4 program" ;;
       ret false
     else
       print "DEBUG: compile OK" ;;
       left <- run_components component_list ;;
       match left with
       | Some b => ret b
       | None =>
           try_except schedule_initial_export
             (fun e =>
                log Warning ("Failed to schedule initial export: " ++ exn_text e)) ;;
           print "DEBUG: All components started" ;;
           log Info "P4 DPI System started successfully" ;;
           ret true
       end)
    (fun e =>
       print ("DEBUG: Exception in start_system: " ++ exn_text e) ;;
       log Error ("Error starting system: " ++ exn_text e) ;;
       ret false).

(** ** Shutdown *)

(** What [stop_system] does after it has cleared the flag. *)
Definition stop_body : M unit :=
  try_except shutdown_steps
    (fun e => log Error ("Error stopping system: " ++ exn_text e)).

(** The process a call of the inner [try] of the process loop acts on. *)
Definition victim (c : call) : option process :=
  match c with
  | CallTerminate p | CallWait p _ => Some p
  | _ => None
  end.

(** The shape of what the steps of the shutdown add to the history, ending
    by the exception [x] or normally: after a raising [terminate] or [wait]
    comes the [kill] of the same process; any other raising call comes last
    and its exception is the one the steps end by. *)
Fixpoint orderly (d : trace) (x : option exn) : Prop :=
  match d with
  | [] => True
  | EvCall c (Raised e) :: rest =>
      match victim c with
      | Some p => (exists o rest', rest = EvCall (CallKill p) o :: rest') /\ orderly rest x
      | None => rest = [] /\ x = Some e
      end
  | _ :: rest => orderly rest x
  end.

(** The exception a result ends by, if any. *)
Definition raised {A} (r : res A) : option exn :=
  match r with Ret _ => None | Exc e => Some e end.

(** A computation that only grows the history, and in an orderly way. *)
Definition proceeds {A} (c : M A) : Prop :=
  forall w m, exists d,
    hist (snd (c w m)) = hist m ++ d /\ orderly d (raised (fst (c w m))).

(** The line the handler of [stop_system] logs for the exception the steps
    ended by, if it is one the handler catches. *)
Definition error_line (x : option exn) : trace :=
  match x with
  | Some e =>
      if is_Exception e
      then [EvLog Error ("Error stopping system: " ++ exn_text e)]
      else []
  | None => []
  end.

(** The world never raises on a call of the kind [P]. *)
Definition answers (w : world) (P : call -> bool) : Prop :=
  forall h c, P c = true -> exists v, respond w h c = Returned v.

(** The kinds of calls of the shutdown. *)
Definition is_collaborator_stop (c : call) : bool :=
  match c with
  | CallStopTraffic _ | CallControllerStop _ | CallLoggerClose _ | CallTopologyStop _ => true
  | _ => false
  end.

Definition is_kill (c : call) : bool :=
  match c with CallKill _ => true | _ => false end.

Definition is_join (c : call) : bool :=
  match c with CallJoin _ _ => true | _ => false end.

(** The stop of a collaborator, when the reference holds one. *)
Definition stop_call (ref : option Z) (c : Z -> call) : list call :=
  match ref with Some r => [c r] | None => [] end.

(** The stops of the collaborators the instance holds, in the order of the
    code. *)
Definition collaborator_stops (o : DPISystem) : list call :=
  stop_call (traffic_generator o) CallStopTraffic ++
  stop_call (controller o) CallControllerStop ++
  stop_call (logger_component o) CallLoggerClose ++
  stop_call (topology o) CallTopologyStop.

(** Every step [stop_system] has to take for an instance. *)
Definition planned_steps (o : DPISystem) : list call :=
  collaborator_stops o ++
  map (fun entry => CallTerminate (snd entry)) (processes o) ++
  map (fun t => CallJoin t 5) (threads o).

(** A process was dealt with: its [terminate] and its [wait] returned
    (it ended within the timeout), or its [kill] returned. *)
Definition handled (p : process) (d : trace) : Prop :=
  (exists v v', In (EvCall (CallTerminate p) (Returned v)) d /\
                In (EvCall (CallWait p 5) (Returned v')) d) \/
  (exists v, In (EvCall (CallKill p) (Returned v)) d).

(** The machine [m] after the events [d]. *)
Definition extend (m : machine) (d : trace) : machine :=
  {| obj := obj m; hist := hist m ++ d |}.

(** The end of [stop_system]: the joins, the closing line, and the handler
    around them. *)
Definition stop_tail (ts : list thread) : M unit :=
  try_except
    (for_each ts join_thread ;; log Info "P4 DPI System stopped")
    (fun e => log Error ("Error stopping system: " ++ exn_text e)).

(** ** A started instance to stop, and its worlds *)

(** A world where the compiler succeeds and every other call returns a
    number of its own. *)
Definition numbering : world :=
  {| respond := fun h c =>
       match c with
       | CallP4cVersion | CallP4cCompile _ | CallPathExists _ => Returned 0
       | _ => Returned (Z.of_nat (length h))
       end;
     read_yaml := fun _ => Loaded (YMap []);
     int_of_text := fun _ => None |}.

(** The same world, except that the traffic generator refuses to stop. *)
Definition stuck_generator : world :=
  {| respond := fun h c =>
       match c with
       | CallStopTraffic _ => Raised (PyException "RuntimeError" "generator is stuck")
       | _ => Returned (Z.of_nat (length h))
       end;
     read_yaml := fun _ => Loaded (YMap []);
     int_of_text := fun _ => None |}.

(** A configuration with two switches. *)
Definition two_switches : yaml :=
  YMap [("switches",
         YList [YMap [("name", YStr "s1"); ("device_id", YInt 1);
                      ("grpc_port", YInt 50051)];
                YMap [("name", YStr "s2"); ("device_id", YInt 2);
                      ("grpc_port", YInt 50052)]])].

(** The instance after a successful [start_system]: three collaborators,
    three processes, three threads. *)
Definition started_instance : machine :=
  Eval vm_compute in snd (start_system numbering (fresh_machine two_switches)).

(** ** The claims about the shutdown, as the specification has them *)

Definition is_terminate (c : call) : bool :=
  match c with CallTerminate _ => true | _ => false end.

(** A call that tells a process or a collaborator to end. *)
Definition is_termination_signal (c : call) : bool :=
  is_terminate c || is_kill c || is_collaborator_stop c.

(** C1 as the specification has it: after two calls of [stop_system] in a
    row the flag is false and both registries are empty, and the second
    call sent no termination signal. *)
Definition second_stop_is_noop (w : world) (m : machine) : Prop :=
  let m1 := snd (stop_system w m) in
  let m2 := snd (stop_system w m1) in
  running (obj m2) = false /\
  processes (obj m2) = [] /\
  threads (obj m2) = [] /\
  forall c, In c (calls (emitted m1 m2)) -> is_termination_signal c = false.

(** C2 as the specification has it: whatever raises, every step of the
    shutdown is attempted. *)
Definition every_step_attempted (w : world) (m : machine) : Prop :=
  forall c, In c (planned_steps (obj m)) ->
            In c (calls (emitted m (snd (stop_system w m)))).

(** C4 as the specification has it: whatever happens, every process of the
    registry is dealt with. *)
Definition every_process_handled (w : world) (m : machine) : Prop :=
  forall name p, In (name, p) (processes (obj m)) ->
                 handled p (emitted m (snd (stop_system w m))).

(** ** Construction *)

(** A world where the configuration file does not exist. *)
Definition empty_disk : world :=
  {| respond := fun _ _ => Returned 0;
     read_yaml := fun _ => FileNotFound;
     int_of_text := fun _ => None |}.

(** ** The operations on an instance, and the controller reference *)

(** Everything that can be run on an instance: the methods of [DPISystem]
    and the body of the export thread. *)
Inductive op :=
| OpCompile
| OpStartTopology
| OpStartController
| OpStartPacketLogger
| OpStartTrafficGenerator
| OpStartWebInterface
| OpStartMonitoring
| OpMonitor (ticks : nat)
| OpCheckHealth
| OpLogStatistics
| OpStartSystem
| OpStopSystem
| OpRun
| OpScheduleExport
| OpExportThread (delay db_file : yaml).

(** Running an operation, its result dropped. *)
Definition perform (o : op) : M unit :=
  match o with
  | OpCompile => compile_p4_program ;; ret tt
  | OpStartTopology => start_mininet_topology ;; ret tt
  | OpStartController => start_p4_controller ;; ret tt
  | OpStartPacketLogger => start_packet_logger ;; ret tt
  | OpStartTrafficGenerator => start_traffic_generator ;; ret tt
  | OpStartWebInterface => start_web_interface ;; ret tt
  | OpStartMonitoring => start_monitoring ;; ret tt
  | OpMonitor ticks => monitor_system ticks
  | OpCheckHealth => check_system_health
  | OpLogStatistics => log_statistics
  | OpStartSystem => start_system ;; ret tt
  | OpStopSystem => stop_system
  | OpRun => run
  | OpScheduleExport => schedule_initial_export
  | OpExportThread delay db_file => export_after_delay delay db_file
  end.

(** The operations one after the other, in any order and whatever each
    ends by; the threads of the instance take their turns among them. *)
Fixpoint perform_all (ops : list op) (w : world) (m : machine) : machine :=
  match ops with
  | [] => m
  | o :: rest => perform_all rest w (snd (perform o w m))
  end.

(** A snapshot that has the four keys and reports the controller stopped. *)
Definition controller_stopped (s : health_status) : Prop :=
  map fst (components s) = ["controller"; "logger"; "traffic_generator"; "topology"] /\
  In ("controller", "stopped") (components s).

(** An event that does not involve a controller. *)
Definition controller_free (e : event) : Prop :=
  match e with
  | EvCall (CallWriteHealth s) _ => controller_stopped s
  | EvCall (CallGetStats _) _ => False
  | _ => True
  end.

(** From a machine without a controller: still none, and only events that
    involve none. *)
Definition without_controller (m m' : machine) : Prop :=
  controller (obj m) = None ->
  controller (obj m') = None /\ adds controller_free m m'.

(** The instance [__init__] builds in the numbering world. *)
Definition built_instance : machine :=
  Eval vm_compute in
    match DPISystem_init "config/dpi_config.yaml" numbering [] with
    | (Ret o, h) => {| obj := o; hist := h |}
    | (Exc _, h) => {| obj := fresh YNull; hist := h |}
    end.

(** ** The history of the running flag *)

(** The values written to the flag so far. *)
Definition flags (m : machine) : list bool := flag_writes (hist m).

(** A computation that writes the flag exactly as [l] says, whatever the
    world answers and however it ends. *)
Definition writes {A} (l : list bool) (c : M A) : Prop :=
  forall w m, flags (snd (c w m)) = flags m ++ l.

(** The flag is first false, then true, then false, each for any number
    of writes. *)
Definition settles (h : list bool) : Prop :=
  exists a b c, h = repeat false a ++ repeat true b ++ repeat false c.

(** The number of times the flag goes from true to false. *)
Fixpoint falls (h : list bool) : nat :=
  match h with
  | [] => O
  | x :: rest =>
      match x, rest with
      | true, false :: _ => S (falls rest)
      | _, _ => falls rest
      end
  end.

(** ** The delayed export *)

(** The export threads started, with the delay and the database each was
    given. *)
Definition export_starts (t : trace) : list (yaml * yaml) :=
  flat_map (fun e => match e with
                     | EvCall (CallThreadStart (TgtExport delay db_file)) _ =>
                         [(delay, db_file)]
                     | _ => []
                     end) t.

(** An invocation of the export command. *)
Definition is_export (c : call) : bool :=
  match c with CallExport _ => true | _ => false end.

(** The seconds of completed sleep before the export command is invoked;
    [None] when it is not invoked. *)
Fixpoint slept_before_export (d : trace) : option Z :=
  match d with
  | [] => None
  | EvCall (CallExport _) _ :: _ => Some 0
  | EvCall (CallSleep (YInt s)) (Returned _) :: rest =>
      option_map (Z.add s) (slept_before_export rest)
  | _ :: rest => slept_before_export rest
  end.

(** The delay and the database path [schedule_initial_export] reads. *)
Definition export_settings (cfg : yaml) : res (yaml * yaml) :=
  match dict_get cfg "export" (YMap []) with
  | Exc e => Exc e
  | Ret export =>
  match dict_get export "initial_delay_seconds" (YInt 20) with
  | Exc e => Exc e
  | Ret delay =>
  match dict_get cfg "performance" (YMap []) with
  | Exc e => Exc e
  | Ret performance =>
  match dict_get performance "database" (YMap []) with
  | Exc e => Exc e
  | Ret database =>
  match dict_get database "file" (YStr "logs/packets.db") with
  | Exc e => Exc e
  | Ret db_file => Ret (delay, db_file)
  end end end end end.

(** The configured delay as a number of seconds, when it is a number. *)
Definition delay_seconds (v : yaml) : option Q :=
  match v with
  | YInt z => Some (inject_Z z)
  | YBool b => Some (if b then 1%Q else 0%Q)
  | YFloat (FFinite q) => Some q
  | _ => None
  end.

(** What the steps before the scheduling leave alone: the export threads
    asked for so far, and the configuration. *)
Definition export_view (m : machine) : list (yaml * yaml) * yaml :=
  (export_starts (hist m), config (obj m)).

(** C6 as the specification has it, for the thread: the export command is
    not invoked before [max(1, configuredDelay)] seconds have passed. *)
Definition export_never_early (w : world) (m : machine) (delay db_file : yaml) : Prop :=
  forall q s,
    delay_seconds delay = Some q ->
    slept_before_export (emitted m (snd (export_after_delay delay db_file w m))) = Some s ->
    (1 <= s)%Z /\ (q <= inject_Z s)%Q.

(** ** Exceptions that stay inside a method *)

(** No subclass of [Exception] leaves the computation. *)
Definition contained {A} (c : M A) : Prop :=
  forall w m cls msg, fst (c w m) <> Exc (PyException cls msg).

(** ** A console that can fail: [print(..., flush=True)] raises when the
    console is gone or cannot take the text, and an interrupt can arrive
    while it writes.  In the program above a print always returns.  Here
    are [start_system] and [run] once more, line by line, with a console
    that may fail; with the console that never does they are the methods
    above. *)

(** What the console does with a text after a history: it takes it
    ([None]), or the print raises. *)
Definition console_io : Type := trace -> string -> option exn.

(** The console that takes everything. *)
Definition quiet : console_io := fun _ _ => None.

(** [print(msg, flush=True)] on such a console; a print that raises leaves
    no line. *)
Definition print_io (con : console_io) (msg : string) : M unit :=
  fun w m =>
    match con (hist m) msg with
    | None => (Ret tt, add_event (EvPrint msg) m)
    | Some e => (Exc e, m)
    end.

(** The loop of [start_system] over the component list. *)
Fixpoint run_components_io (con : console_io) (cs : list (string * M bool))
  : M (option bool) :=
  match cs with
  | [] => ret None
  | (name, start_func) :: rest =>
      print_io con ("DEBUG: Starting " ++ name ++ "...") ;;
      log Info ("Starting " ++ name ++ "...") ;;
      ok <- start_func ;;
      if negb ok then
        print_io con ("DEBUG: " ++ name ++ " failed") ;;
        log Error ("Failed to start " ++ name) ;;
        ret (Some false)
      else
        print_io con ("DEBUG: " ++ name ++ " OK") ;;
        ext (CallSleep (YInt 2)) ;;
        run_components_io con rest
  end.

(** [DPISystem.start_system] *)
Definition start_system_io (con : console_io) : M bool :=
  print_io con "DEBUG: start_system called" ;;
  log Info "Starting P4 DPI System..." ;;
  set_running true ;;
  try_except
    (print_io con "DEBUG: compiling P4..." ;;
     compiled <- compile_p4_program ;;
     if negb compiled then
       print_io con "DEBUG: compile failed" ;;
       log Error "Failed to compile P4 program" ;;
       ret false
     else
       print_io con "DEBUG: compile OK" ;;
       left <- run_components_io con component_list ;;
       match left with
       | Some b => ret b
       | None =>
           try_except schedule_initial_export
             (fun e =>
                log Warning ("Failed to schedule initial export: " ++ exn_text e)) ;;
           print_io con "DEBUG: All components started" ;;
           log Info "P4 DPI System started successfully" ;;
           ret true
       end)
    (fun e =>
       print_io con ("DEBUG: Exception in start_system: " ++ exn_text e) ;;
       log Error ("Error starting system: " ++ exn_text e) ;;
       ret false).

(** What [run] does inside its [try], with its two handlers. *)
Definition run_body_io (con : console_io) : M unit :=
  try_interrupt
    (print_io con "DEBUG: calling start_system" ;;
     started <- start_system_io con ;;
     if started then
       o <- get_obj ;;
       print_io con ("DEBUG: start_system returned True, running="
                     ++ flag_text (running o)) ;;
       o1 <- get_obj ;;
       (if running o1 then (ext (CallSleep (YInt 360)) ;; ret tt) else ret tt) ;;
       o2 <- get_obj ;;
       print_io con ("DEBUG: exited run loop, running=" ++ flag_text (running o2))
     else
       print_io con "DEBUG: start_system returned False" ;;
       log Error "Failed to start system")
    (print_io con "DEBUG: KeyboardInterrupt" ;;
     log Info "Received interrupt signal")
    (fun e =>
       print_io con ("DEBUG: Exception in run: " ++ exn_text e) ;;
       log Error ("Error in main loop: " ++ exn_text e)).

(** [DPISystem.run] *)
Definition run_io (con : console_io) : M unit :=
  print_io con "DEBUG: run() called" ;;
  try_finally (run_body_io con)
    (print_io con "DEBUG: run() finally block" ;;
     stop_system).

(** The prints of [start_system] that no handler covers: its first line,
    and the line of its own handler. *)
Definition start_system_prints (s : string) : Prop :=
  s = "DEBUG: start_system called" \/
  exists e, s = ("DEBUG: Exception in start_system: " ++ exn_text e)%string.

(** The prints of [run] that no handler covers: its first line, the lines
    of its two handlers, and the line of its [finally]. *)
Definition run_prints (s : string) : Prop :=
  s = "DEBUG: run() called" \/
  s = "DEBUG: KeyboardInterrupt" \/
  (exists e, s = ("DEBUG: Exception in run: " ++ exn_text e)%string) \/
  s = "DEBUG: run() finally block".

(** An exception of the class [Exception] leaves the computation only out
    of a print of a text of [P], which the console refused with it. *)
Definition leaks (con : console_io) (P : string -> Prop) {A} (c : M A) : Prop :=
  forall w m cls msg,
    fst (c w m) = Exc (PyException cls msg) ->
    exists h s, P s /\ con h s = Some (PyException cls msg).

(** A console that is gone from the start. *)
Definition broken_pipe : console_io :=
  fun _ _ => Some (PyException "BrokenPipeError" "[Errno 32] Broken pipe").

(** ** Dictionaries and the controller workers *)

(** The value a dictionary holds for a key. *)
Fixpoint lookup {V} (key : string) (d : list (string * V)) : option V :=
  match d with
  | [] => None
  | (k, v) :: rest => if String.eqb k key then Some v else lookup key rest
  end.

(** Assignments to a dictionary, one after the other. *)
Definition dict_set_all {V} (pairs : list (string * V)) (d : list (string * V))
  : list (string * V) :=
  fold_left (fun acc kv => dict_set (fst kv) (snd kv) acc) pairs d.

(** The name of the worker of a switch entry and the command line it is
    launched with, when the entry is a mapping whose name and file paths
    are texts. *)
Definition worker_of (sw : yaml) : option (string * list arg) :=
  match dict_get sw "name" (YStr "s1"),
        dict_get sw "device_id" (YInt 1),
        dict_get sw "grpc_port" (YInt 50051),
        dict_get sw "p4info_file" (YStr p4info_file),
        dict_get sw "runtime_json_file" (YStr json_file) with
  | Ret (YStr n), Ret device_id, Ret grpc_port, Ret (YStr p), Ret (YStr j) =>
      Some (n, [Lit "python3"; Lit "scripts/p4_controller_worker.py";
                Lit "--name"; Lit n;
                Lit "--device-id"; str_arg device_id;
                Lit "--grpc-port"; str_arg grpc_port;
                Lit "--p4info"; Lit p;
                Lit "--json"; Lit j])
  | _, _, _, _, _ => None
  end.

(** The key of the registry for a worker. *)
Definition worker_key (nc : string * list arg) : string := "p4c_" ++ fst nc.

(** The processes launched, with the command line of each. *)
Definition launches (t : trace) : list (list arg * process) :=
  flat_map (fun e => match e with
                     | EvCall (CallPopen cmd) (Returned p) => [(cmd, p)]
                     | _ => []
                     end) t.

Definition is_popen (c : call) : bool :=
  match c with CallPopen _ => true | _ => false end.

Definition is_sleep (c : call) : bool :=
  match c with CallSleep _ => true | _ => false end.

(** The instance with another registry of processes. *)
Definition with_processes (ps : list (string * process)) (o : DPISystem) : DPISystem :=
  {| config := config o; running := running o; run_id := run_id o;
     controller := controller o; traffic_generator := traffic_generator o;
     topology := topology o; logger_component := logger_component o;
     threads := threads o; processes := ps |}.

(** The workers of the well-formed entries of a list of switches. *)
Definition workers (sws : list yaml) : list (string * list arg) :=
  flat_map (fun sw => match worker_of sw with Some nc => [nc] | None => [] end) sws.

Definition well_formed (sw : yaml) : Prop := worker_of sw <> None.

(** ** Switch entries that cannot give a worker *)

(** A value [Popen] refuses as an element of its command line: null, a
    boolean, a number, a list or a mapping.  A text it takes.  (It takes a
    binary scalar too; the configuration as modelled has none, and the
    property below does not speak of one.) *)
Definition refused_as_argument (v : yaml) : Prop :=
  match v with
  | YNull | YBool _ | YInt _ | YFloat _ | YList _ | YMap _ => True
  | YStr _ => False
  end.

(** A switch entry that cannot give a worker: it is not a mapping, so that
    it has no [get]; or it is one, and its name, its p4info path or its
    JSON path is a value [Popen] refuses. *)
Definition malformed (sw : yaml) : Prop :=
  match sw with
  | YNull | YBool _ | YInt _ | YFloat _ | YStr _ | YList _ => True
  | YMap _ =>
      match dict_get sw "name" (YStr "s1"),
            dict_get sw "p4info_file" (YStr p4info_file),
            dict_get sw "runtime_json_file" (YStr json_file) with
      | Ret n, Ret p, Ret j =>
          refused_as_argument n \/ refused_as_argument p \/ refused_as_argument j
      | _, _, _ => False
      end
  end.

(** ** The handles the shutdown acts on *)

(** A call of the shutdown that acts on a handle the instance [o] holds: a
    process of its registry, a thread of its list, or the collaborator a
    reference holds. *)
Definition stop_target (o : DPISystem) (c : call) : Prop :=
  match c with
  | CallTerminate p | CallWait p _ | CallKill p =>
      exists name, In (name, p) (processes o)
  | CallJoin t _ => In t (threads o)
  | CallStopTraffic g => traffic_generator o = Some g
  | CallControllerStop x => controller o = Some x
  | CallLoggerClose l => logger_component o = Some l
  | CallTopologyStop t => topology o = Some t
  | _ => False
  end.

(** An event that is no call, or such a call. *)
Definition on_target (o : DPISystem) (e : event) : Prop :=
  match e with
  | EvCall c _ => stop_target o c
  | _ => True
  end.

(** ** What the instance holds *)

(** From [o] to [o']: the configuration and the run identifier are the
    same, every key of the registry is still one, the threads recorded are
    still recorded, in their places, and a reference that held a
    collaborator still holds one. *)
Definition grows (o o' : DPISystem) : Prop :=
  config o' = config o /\
  run_id o' = run_id o /\
  (forall key, In key (map fst (processes o)) -> In key (map fst (processes o'))) /\
  (exists ts, threads o' = threads o ++ ts) /\
  controller o' = controller o /\
  (topology o <> None -> topology o' <> None) /\
  (logger_component o <> None -> logger_component o' <> None) /\
  (traffic_generator o <> None -> traffic_generator o' <> None).

(** The instance moves along [Q]. *)
Definition on_obj (Q : DPISystem -> DPISystem -> Prop) : machine -> machine -> Prop :=
  fun m m' => Q (obj m) (obj m').

(** The components a snapshot of the health reports as running. *)
Definition reported_running (o : DPISystem) (name : string) : Prop :=
  In (name, "running") (health_components o).

(** ** The rounds of the monitoring loop *)

(** The pause a round of the monitoring loop is configured to make. *)
Definition stats_interval (cfg : yaml) : res yaml :=
  match dict_get cfg "monitoring" (YMap []) with
  | Ret monitoring => dict_get monitoring "stats_interval" (YInt 10)
  | Exc e => Exc e
  end.

(** The reading of the clock a health snapshot starts by. *)
Definition is_now (c : call) : bool :=
  match c with CallNow => true | _ => false end.

(** The number of health snapshots begun in a history. *)
Definition snapshots_begun (t : trace) : nat := length (filter is_now (calls t)).

(** ** The instance as built *)

(** The instance [__init__] builds for a configuration and a reading of the
    clock. *)
Definition built (cfg : yaml) (now : Z) : DPISystem :=
  {| config := cfg; running := false; run_id := now;
     controller := None; traffic_generator := None; topology := None;
     logger_component := None; threads := []; processes := [] |}.

(** The three settings [setup_logging] reads from the logging section. *)
Definition logging_settings (lc : yaml) : res (yaml * yaml * yaml) :=
  match dict_get lc "level" (YStr "INFO") with
  | Exc e => Exc e
  | Ret lvl =>
  match dict_get lc "format"
          (YStr "%(asctime)s - %(name)s - %(levelname)s - %(message)s") with
  | Exc e => Exc e
  | Ret fmt =>
  match dict_get lc "file" (YStr "logs/dpi_system.log") with
  | Exc e => Exc e
  | Ret file => Ret (lvl, fmt, file)
  end end end.

(** A call of the construction of the instance or of the installation of
    the signal handlers. *)
Definition is_setup (c : call) : bool :=
  match c with
  | CallSignal _ | CallMakedirs _ | CallLoggingSetup _ _ _ | CallNow => true
  | _ => false
  end.

(** A world where the configuration file is empty. *)
Definition empty_file : world :=
  {| respond := fun _ _ => Returned 0;
     read_yaml := fun _ => Loaded YNull;
     int_of_text := fun _ => None |}.

(** ** What the console does to [run] *)

(** The console takes a text whenever it is printed. *)
Definition takes (con : console_io) (s : string) : Prop :=
  forall h, con h s = None.

(** The console refuses a text whenever it is printed. *)
Definition refuses (con : console_io) (s : string) : Prop :=
  forall h, con h s <> None.

(** The machine on which [run] calls [stop_system], when the console has
    taken its first line and takes the line of its [finally]. *)
Definition before_stop (con : console_io) (w : world) (m : machine) : machine :=
  add_event (EvPrint "DEBUG: run() finally block")
    (snd (run_body_io con w (add_event (EvPrint "DEBUG: run() called") m))).

(** A console that takes the lines of [run] and of [start_system] but
    refuses those of the loop over the components. *)
Definition deaf_to_components : console_io :=
  fun _ s =>
    if String.prefix "DEBUG: Starting " s
    then Some (PyException "BrokenPipeError" "[Errno 32] Broken pipe")
    else None.

(** ** What a startup records *)

(** A thread of the list runs a target of the kind [P]. *)
Definition has_thread (P : thread_target -> bool) (o : DPISystem) : Prop :=
  exists t, In t (threads o) /\ P (target t) = true.

Definition is_topology_thread (t : thread_target) : bool :=
  match t with TgtCreateTopology _ => true | _ => false end.

Definition is_traffic_thread (t : thread_target) : bool :=
  match t with TgtTrafficGeneration _ => true | _ => false end.

Definition is_monitor_thread (t : thread_target) : bool :=
  match t with TgtMonitor => true | _ => false end.

(** The instance holds the three collaborators, the process of the web
    interface and the three threads. *)
Definition all_recorded (o : DPISystem) : Prop :=
  topology o <> None /\
  logger_component o <> None /\
  traffic_generator o <> None /\
  In "flask_api" (map fst (processes o)) /\
  has_thread is_topology_thread o /\
  has_thread is_traffic_thread o /\
  has_thread is_monitor_thread o.

(** ** The threads of the list *)

Definition is_export_thread (t : thread_target) : bool :=
  match t with TgtExport _ _ => true | _ => false end.

(** No thread of the list is an export thread. *)
Definition no_export_thread (m : machine) : Prop :=
  forall t, In t (threads (obj m)) -> is_export_thread (target t) = false.

(** Any event but the join of an export thread. *)
Definition no_export_join (e : event) : Prop :=
  match e with
  | EvCall (CallJoin t _) _ => is_export_thread (target t) = false
  | _ => True
  end.

(** From a list of threads without an export thread: still none in the
    list, and none was joined. *)
Definition export_apart (m m' : machine) : Prop :=
  no_export_thread m -> no_export_thread m' /\ adds no_export_join m m'.

(** ** The sleep of [run] and its shutdown *)

(** The sleep of the loop of [run]. *)
Definition is_run_sleep (c : call) : bool :=
  match c with CallSleep (YInt 360) => true | _ => false end.

(** Any event but the sleep of the loop of [run]. *)
Definition no_run_sleep (e : event) : Prop :=
  match e with
  | EvCall c _ => is_run_sleep c = false
  | _ => True
  end.

(** The computation only adds to the history, and makes the sleep of the
    loop of [run] at most [n] times. *)
Definition sleeps_at_most (n : nat) {A} (c : M A) : Prop :=
  forall w m, exists d,
    hist (snd (c w m)) = hist m ++ d /\
    (length (filter is_run_sleep (calls d)) <= n)%nat.

(** A call of the shutdown. *)
Definition is_shutdown_call (c : call) : bool :=
  match c with
  | CallStopTraffic _ | CallControllerStop _ | CallLoggerClose _
  | CallTopologyStop _ | CallTerminate _ | CallWait _ _ | CallKill _
  | CallJoin _ _ => true
  | _ => false
  end.

(** Any event but one of the shutdown: its opening line, the write of
    false to the flag, one of its calls. *)
Definition no_shutdown (e : event) : Prop :=
  match e with
  | EvLog Info s => s <> "Stopping P4 DPI System..."
  | EvSetRunning b => b = true
  | EvCall c _ => is_shutdown_call c = false
  | _ => True
  end.

(** The console is gone when [run] comes to its [finally]: the system has
    been started and is left running. *)
Definition lost_at_finally : console_io :=
  fun _ s =>
    if String.eqb s "DEBUG: run() finally block"
    then Some (PyException "BrokenPipeError" "[Errno 32] Broken pipe")
    else None.

(** ** The web interface *)

(** The command line of the web interface. *)
Definition flask_cmd : list arg :=
  [Lit "python3"; Lit "scripts/flask_api.py";
   Lit "--host"; Lit "0.0.0.0"; Lit "--port"; Lit "5000"].

(** * Reasoning about computations *)

(** ** Computations that respect a preorder on machines

    Most properties of the orchestrator are of one kind: whatever the world
    answers, a method moves the machine along some reflexive and transitive
    relation (it does not touch a field, it only adds events of some kind).
    Such a property follows the structure of the code. *)

Section Respects.
Variable R : machine -> machine -> Prop.
Context {R_pre : PreOrder R}.

Lemma respects_ret {A} (a : A) : respects R (ret a).
Proof. intros w m. reflexivity. Qed.

Lemma respects_raise {A} (e : exn) : respects R (@raise A e).
Proof. intros w m. reflexivity. Qed.

Lemma respects_lift {A} (r : res A) : respects R (lift r).
Proof. intros w m. reflexivity. Qed.

Lemma respects_get_obj : respects R get_obj.
Proof. intros w m. reflexivity. Qed.

Lemma respects_ask_int v : respects R (ask_int v).
Proof. intros w m. reflexivity. Qed.

Lemma respects_bind {A B} (c : M A) (f : A -> M B) :
  respects R c -> (forall a, respects R (f a)) -> respects R (bind c f).
Proof.
  intros Hc Hf w m. unfold bind.
  specialize (Hc w m). destruct (c w m) as [[a | e] m1]; simpl in *.
  - etransitivity; [exact Hc | apply Hf].
  - exact Hc.
Qed.

Lemma respects_try_except {A} (body : M A) handler :
  respects R body -> (forall e, respects R (handler e)) ->
  respects R (try_except body handler).
Proof.
  intros Hb Hh w m. unfold try_except.
  specialize (Hb w m). destruct (body w m) as [[a | e] m1]; simpl in *.
  - exact Hb.
  - destruct (is_Exception e); simpl.
    + etransitivity; [exact Hb | apply Hh].
    + exact Hb.
Qed.

Lemma respects_try_bare {A} (body handler : M A) :
  respects R body -> respects R handler -> respects R (try_bare body handler).
Proof.
  intros Hb Hh w m. unfold try_bare.
  specialize (Hb w m). destruct (body w m) as [[a | e] m1]; simpl in *.
  - exact Hb.
  - etransitivity; [exact Hb | apply Hh].
Qed.

Lemma respects_try_finally {A} (body : M A) fin :
  respects R body -> respects R fin -> respects R (try_finally body fin).
Proof.
  intros Hb Hf w m. unfold try_finally.
  specialize (Hb w m). destruct (body w m) as [r m1]; simpl in *.
  specialize (Hf w m1). destruct (fin w m1) as [[u | e] m2]; simpl in *;
    etransitivity; eauto.
Qed.

Lemma respects_try_interrupt {A} (body on_interrupt : M A) on_exception :
  respects R body -> respects R on_interrupt ->
  (forall e, respects R (on_exception e)) ->
  respects R (try_interrupt body on_interrupt on_exception).
Proof.
  intros Hb Hi He w m. unfold try_interrupt.
  specialize (Hb w m). destruct (body w m) as [[a | [c t | | ]] m1]; simpl in *.
  - exact Hb.
  - etransitivity; [exact Hb | apply He].
  - etransitivity; [exact Hb | apply Hi].
  - exact Hb.
Qed.

Lemma respects_for_each {A} (l : list A) body :
  (forall x, respects R (body x)) -> respects R (for_each l body).
Proof.
  intros Hb. induction l as [| x rest IH]; simpl.
  - apply respects_ret.
  - apply respects_bind; auto.
Qed.

Lemma respects_emit e :
  (forall m, R m (add_event e m)) -> respects R (emit e).
Proof. intros H w m. apply H. Qed.

Lemma respects_ext c :
  (forall m o, R m (add_event (EvCall c o) m)) -> respects R (ext c).
Proof.
  intros H w m. unfold ext.
  destruct (respond w (hist m) c); simpl; apply H.
Qed.

Lemma respects_update f :
  (forall m, R m (upd f m)) -> respects R (update f).
Proof. intros H w m. apply H. Qed.

Lemma respects_monitor_system ticks :
  respects R monitor_tick -> respects R (monitor_system ticks).
Proof.
  intros Ht. induction ticks as [| n IH]; simpl.
  - apply respects_ret.
  - apply respects_bind; [apply respects_get_obj |].
    intros o. destruct (running o).
    + apply respects_bind; auto.
    + apply respects_ret.
Qed.
End Respects.

Create HintDb orchestrator.

#[global] Hint Unfold compile_p4_program start_mininet_topology launch_worker
  start_p4_controller start_packet_logger start_traffic_generator
  start_web_interface start_monitoring check_system_health log_statistics
  monitor_tick export_after_delay schedule_initial_export start_system
  stop_process join_thread when_present shutdown_steps stop_system run
  dispatch set_running log print component_list : orchestrator.

(** Follows the structure of a computation down to its events, calls and
    field updates, which are left as goals. *)
Ltac respects_step :=
  match goal with
  | |- forall _, _ => intro
  | |- PreOrder _ => exact _
  | |- respects _ (bind _ _) => apply respects_bind
  | |- respects _ (ret _) => apply respects_ret
  | |- respects _ (raise _) => apply respects_raise
  | |- respects _ (lift _) => apply respects_lift
  | |- respects _ get_obj => apply respects_get_obj
  | |- respects _ (ask_int _) => apply respects_ask_int
  | |- respects _ (try_except _ _) => apply respects_try_except
  | |- respects _ (try_bare _ _) => apply respects_try_bare
  | |- respects _ (try_finally _ _) => apply respects_try_finally
  | |- respects _ (try_interrupt _ _ _) => apply respects_try_interrupt
  | |- respects _ (for_each _ _) => apply respects_for_each
  | |- respects _ (monitor_system _) => apply respects_monitor_system
  | |- respects _ (run_components _) =>
      unfold component_list; cbn [run_components]
  | |- respects _ (emit _) => apply respects_emit
  | |- respects _ (ext _) => apply respects_ext
  | |- respects _ (update _) => apply respects_update
  | |- respects _ (if ?b then _ else _) => destruct b
  | |- respects _ (match ?x with _ => _ end) => destruct x
  | |- respects _ _ => progress autounfold with orchestrator
  end.

Ltac respects_structure := repeat respects_step.

(** ** Two families of preorders *)

#[global] Instance kept_pre {X} (f : machine -> X) : PreOrder (kept f).
Proof.
  split.
  - intros m. reflexivity.
  - intros a b c Hab Hbc. unfold kept in *. congruence.
Qed.

#[global] Instance adds_pre (P : event -> Prop) : PreOrder (adds P).
Proof.
  split.
  - intros m. exists []. split; [now rewrite app_nil_r | constructor].
  - intros a b c [d1 [H1 F1]] [d2 [H2 F2]].
    exists (d1 ++ d2)%list. split.
    + rewrite H2, H1, app_assoc. reflexivity.
    + apply Forall_app. split; assumption.
Qed.

Lemma adds_event (P : event -> Prop) e m : P e -> adds P m (add_event e m).
Proof. intros H. exists [e]. split; [reflexivity | repeat constructor; exact H]. Qed.

Lemma adds_upd (P : event -> Prop) f m : adds P m (upd f m).
Proof. exists []. split; [simpl; now rewrite app_nil_r | constructor]. Qed.

Lemma emitted_app m m' d : hist m' = (hist m ++ d)%list -> emitted m m' = d.
Proof.
  intros H. unfold emitted. rewrite H.
  rewrite skipn_app, skipn_all, Nat.sub_diag. reflexivity.
Qed.

Lemma prints_app a b : prints (a ++ b) = (prints a ++ prints b)%list.
Proof. apply flat_map_app. Qed.

Lemma flag_writes_app a b : flag_writes (a ++ b) = (flag_writes a ++ flag_writes b)%list.
Proof. apply flat_map_app. Qed.

Lemma calls_app a b : calls (a ++ b) = (calls a ++ calls b)%list.
Proof. apply flat_map_app. Qed.

(** Closes the goals [respects_structure] leaves for a [kept] observation
    that the event or the update at hand does not change. *)
Ltac kept_side :=
  intros; unfold kept, add_event, upd; cbn;
  rewrite ?prints_app, ?flag_writes_app, ?calls_app; cbn;
  rewrite ?app_nil_r; reflexivity.

Ltac adds_side :=
  intros; first [ apply adds_upd | apply adds_event ].

(** ** Every method but [start_system] and [run] is silent on the console *)

Lemma compile_silent : respects (kept console) compile_p4_program.
Proof. respects_structure; kept_side. Qed.

Lemma schedule_silent : respects (kept console) schedule_initial_export.
Proof. respects_structure; kept_side. Qed.

Lemma components_silent :
  Forall (fun c => respects (kept console) (snd c)) component_list.
Proof. repeat constructor; cbn [snd]; respects_structure; kept_side. Qed.

Lemma stop_silent : respects (kept console) stop_system.
Proof. respects_structure; kept_side. Qed.

(** ** The console transcript of the startup sequence

    [start_system] prints a line before it calls a startup action and a line
    after the action has answered, and nothing else prints in between: the
    transcript tells which actions were invoked and what each answered. *)

Lemma loop_transcript_later name names l :
  loop_transcript (name :: names) (later l)
  = started name :: succeeded name :: loop_transcript names l.
Proof. destruct l; reflexivity. Qed.

Lemma console_print s m : console (add_event (EvPrint s) m) = console m ++ [s].
Proof. unfold console, add_event; cbn. rewrite prints_app. reflexivity. Qed.

Lemma console_log lvl s m : console (add_event (EvLog lvl s) m) = console m.
Proof. unfold console, add_event; cbn. rewrite prints_app; cbn. apply app_nil_r. Qed.

Lemma console_call c o m : console (add_event (EvCall c o) m) = console m.
Proof. unfold console, add_event; cbn. rewrite prints_app; cbn. apply app_nil_r. Qed.

Lemma console_flag b m : console (add_event (EvSetRunning b) m) = console m.
Proof. unfold console, add_event; cbn. rewrite prints_app; cbn. apply app_nil_r. Qed.

Lemma console_upd f m : console (upd f m) = console m.
Proof. reflexivity. Qed.

(** Running a sequence, one statement at a time. *)
Lemma run_bind {A B} (c : M A) (f : A -> M B) w m :
  bind c f w m
  = match c w m with
    | (Ret a, m') => f a w m'
    | (Exc e, m') => (Exc e, m')
    end.
Proof. reflexivity. Qed.

Lemma bind_emit {B} e (k : unit -> M B) w m :
  bind (emit e) k w m = k tt w (add_event e m).
Proof. reflexivity. Qed.

Lemma bind_print {B} s (k : unit -> M B) w m :
  bind (print s) k w m = k tt w (add_event (EvPrint s) m).
Proof. reflexivity. Qed.

Lemma bind_log {B} lvl s (k : unit -> M B) w m :
  bind (log lvl s) k w m = k tt w (add_event (EvLog lvl s) m).
Proof. reflexivity. Qed.

Lemma bind_ext {B} c (k : Z -> M B) w m :
  bind (ext c) k w m
  = match respond w (hist m) c with
    | Returned v => k v w (add_event (EvCall c (Returned v)) m)
    | Raised e => (Exc e, add_event (EvCall c (Raised e)) m)
    end.
Proof. unfold bind, ext. destruct (respond w (hist m) c); reflexivity. Qed.

Lemma bind_get_obj {B} (k : DPISystem -> M B) w m :
  bind get_obj k w m = k (obj m) w m.
Proof. reflexivity. Qed.

Lemma bind_update {B} f (k : unit -> M B) w m :
  bind (update f) k w m = k tt w (upd f m).
Proof. reflexivity. Qed.

Lemma bind_ret {A B} (a : A) (k : A -> M B) w m : bind (ret a) k w m = k a w m.
Proof. reflexivity. Qed.

Lemma bind_set_running {B} b (k : unit -> M B) w m :
  bind (set_running b) k w m
  = k tt w (add_event (EvSetRunning b) (upd (with_running b) m)).
Proof. reflexivity. Qed.

(** The loop ends in one of the four ways, and the console shows which. *)
Lemma run_components_transcript (cs : list (string * M bool)) :
  Forall (fun c => respects (kept console) (snd c)) cs ->
  forall w m,
  exists l,
    loop_end_ok (length cs) l /\
    fst (run_components cs w m) = loop_result l /\
    console (snd (run_components cs w m))
    = console m ++ loop_transcript (map fst cs) l.
Proof.
  induction 1 as [| [name f] rest Hf _ IH]; intros w m.
  - exists AllStarted. cbn. rewrite app_nil_r. auto.
  - cbn [run_components]. rewrite bind_print, bind_log, (run_bind f).
    set (m1 := add_event (EvLog Info _) (add_event (EvPrint _) m)).
    assert (Hm1 : console m1 = console m ++ [started name]).
    { subst m1. rewrite console_log, console_print. reflexivity. }
    pose proof (Hf w m1) as Hs. cbn [snd] in Hs. unfold kept in Hs.
    destruct (f w m1) as [[ok | e] m2]; cbn [snd] in Hs.
    + destruct ok; cbn [negb].
      * rewrite bind_print, bind_ext.
        set (m3 := add_event (EvPrint _) m2).
        assert (Hm3 : console m3 = console m ++ [started name; succeeded name]).
        { subst m3. rewrite console_print, Hs, Hm1, <- app_assoc. reflexivity. }
        destruct (respond w (hist m3) (CallSleep (YInt 2))) as [v | e].
        -- destruct (IH w (add_event (EvCall (CallSleep (YInt 2)) (Returned v)) m3))
             as [l [Hok [Hres Hcon]]].
           exists (later l). split; [destruct l; cbn in *; lia |].
           split; [rewrite Hres; destruct l; reflexivity |].
           rewrite Hcon, console_call, Hm3. cbn [map fst].
           rewrite loop_transcript_later, <- !app_assoc. reflexivity.
        -- exists (RaisedAfter 0 e). split; [cbn; lia |]. split; [reflexivity |].
           cbn [snd]. rewrite console_call, Hm3. reflexivity.
      * rewrite bind_print, bind_log.
        exists (FailedAt 0). split; [cbn; lia |]. split; [reflexivity |].
        unfold ret; cbn [snd].
        rewrite console_log, console_print, Hs, Hm1, <- app_assoc.
        reflexivity.
    + exists (RaisedIn 0 e). split; [cbn; lia |]. split; [reflexivity |].
      cbn [snd]. rewrite Hs, Hm1. reflexivity.
Qed.

Lemma try_except_run {A} (body : M A) handler w m :
  try_except body handler w m
  = match body w m with
    | (Exc e, m') => if is_Exception e then handler e w m' else (Exc e, m')
    | (Ret a, m') => (Ret a, m')
    end.
Proof. unfold try_except. destruct (body w m) as [[a | e] m']; reflexivity. Qed.

(** The outer handler of [start_system], applied to a raised [e]. *)
Lemma outer_handler_run e w m :
  let r := (if is_Exception e
            then (print ("DEBUG: Exception in start_system: " ++ exn_text e) ;;
                  log Error ("Error starting system: " ++ exn_text e) ;;
                  ret false) w m
            else (Exc e, m)) in
  fst r = caught e /\ console (snd r) = console m ++ exception_line e.
Proof.
  unfold caught, exception_line. destruct (is_Exception e); cbn [fst snd].
  - rewrite bind_print, bind_log. unfold ret; cbn [fst snd].
    rewrite console_log, console_print. auto.
  - rewrite app_nil_r. auto.
Qed.

Ltac transcript_eq :=
  unfold start_transcript; rewrite ?app_nil_r, <- ?app_assoc;
  cbn [app loop_transcript]; reflexivity.

(** [start_system] ends in one of these ways, and the console shows which. *)
Lemma start_system_transcript w m :
  exists s,
    start_end_ok s /\
    fst (start_system w m) = start_result s /\
    console (snd (start_system w m)) = console m ++ start_transcript s.
Proof.
  unfold start_system.
  rewrite bind_print, bind_log, bind_set_running, try_except_run.
  rewrite bind_print, (run_bind compile_p4_program).
  set (m0 := add_event (EvPrint "DEBUG: compiling P4...") _).
  assert (Hm0 : console m0
                = console m ++ ["DEBUG: start_system called"; "DEBUG: compiling P4..."]).
  { subst m0. rewrite console_print, console_flag, console_upd, console_log,
      console_print, <- app_assoc. reflexivity. }
  pose proof (compile_silent w m0) as Hc. unfold kept in Hc.
  destruct (compile_p4_program w m0) as [[compiled | e] m1]; cbn [snd] in Hc.
  - destruct compiled; cbn [negb].
    + rewrite bind_print, (run_bind (run_components component_list)).
      set (m2 := add_event (EvPrint "DEBUG: compile OK") m1).
      assert (Hm2 : console m2
                    = console m ++ ["DEBUG: start_system called";
                                    "DEBUG: compiling P4..."; "DEBUG: compile OK"]).
      { subst m2. rewrite console_print, Hc, Hm0, <- app_assoc. reflexivity. }
      destruct (run_components_transcript _ components_silent w m2)
        as [l [Hok [Hres Hcon]]].
      destruct (run_components component_list w m2) as [r m3];
        cbn [fst snd] in Hres, Hcon. subst r.
      fold component_names in Hcon. rewrite Hm2 in Hcon.
      destruct l as [| k | k e | k e]; cbn [loop_result].
      * rewrite (run_bind (try_except _ _)).
        assert (Hq : respects (kept console)
                       (try_except schedule_initial_export
                          (fun e => log Warning
                             ("Failed to schedule initial export: " ++ exn_text e)))).
        { apply respects_try_except; try exact _; [apply schedule_silent |].
          intros e. apply respects_emit. kept_side. }
        specialize (Hq w m3). unfold kept in Hq.
        destruct (try_except _ _ w m3) as [[u | e] m4]; cbn [snd] in Hq.
        -- exists (InLoop AllStarted). split; [exact I |].
           rewrite bind_print, bind_log. unfold ret; cbn [fst snd].
           split; [reflexivity |].
           rewrite console_log, console_print, Hq, Hcon.
           transcript_eq.
        -- exists (ScheduleRaised e). split; [exact I |].
           destruct (outer_handler_run e w m4) as [Hr Ht].
           cbn zeta in Hr, Ht. split; [exact Hr |].
           rewrite Ht, Hq, Hcon. transcript_eq.
      * exists (InLoop (FailedAt k)). split; [exact Hok |].
        unfold ret; cbn [fst snd]. split; [reflexivity |].
        rewrite Hcon. transcript_eq.
      * exists (InLoop (RaisedIn k e)). split; [exact Hok |].
        destruct (outer_handler_run e w m3) as [Hr Ht].
        cbn zeta in Hr, Ht. split; [exact Hr |].
        rewrite Ht, Hcon. transcript_eq.
      * exists (InLoop (RaisedAfter k e)). split; [exact Hok |].
        destruct (outer_handler_run e w m3) as [Hr Ht].
        cbn zeta in Hr, Ht. split; [exact Hr |].
        rewrite Ht, Hcon. transcript_eq.
    + exists CompileFailed. split; [exact I |].
      rewrite bind_print, bind_log. unfold ret; cbn [fst snd].
      split; [reflexivity |].
      rewrite console_log, console_print, Hc, Hm0. transcript_eq.
  - exists (CompileRaised e). split; [exact I |].
    destruct (outer_handler_run e w m1) as [Hr Ht].
    cbn zeta in Hr, Ht. split; [exact Hr |].
    rewrite Ht, Hc, Hm0. transcript_eq.
Qed.

(** ** The history only grows *)

Lemma start_system_grows : respects (adds any_event) start_system.
Proof. respects_structure; adds_side; exact I. Qed.

Lemma stop_system_grows : respects (adds any_event) stop_system.
Proof. respects_structure; adds_side; exact I. Qed.

Lemma emitted_console m m' t :
  adds any_event m m' ->
  console m' = console m ++ t -> prints (emitted m m') = t.
Proof.
  intros [d [Hd _]] Ht. rewrite (emitted_app m m' d Hd).
  unfold console in Ht. rewrite Hd, prints_app in Ht.
  now apply app_inv_head in Ht.
Qed.

(** Splits a membership in a transcript into its cases and drops those
    that compare two different texts. *)
Ltac refute_in H :=
  cbn in H;
  lazymatch type of H with
  | _ \/ _ => destruct H as [H | H]; [try discriminate H | refute_in H]
  | False => destruct H
  | In _ (if ?b then _ else _) => destruct b; refute_in H
  | _ => idtac
  end.

(** The line "name failed" of component [k] is printed in one case only. *)
Lemma failed_line_tells s k name :
  start_end_ok s ->
  nth_error component_names k = Some name ->
  In (failed name) (start_transcript s) ->
  s = InLoop (FailedAt k).
Proof.
  intros Hok Hk Hin.
  unfold start_transcript, exception_line, component_names, component_list in *.
  destruct k as [| [| [| [| [| [| k]]]]]]; cbn in Hk;
    try (destruct k; discriminate Hk); injection Hk as <-.
  all: destruct s as [e | | [| j | j e | j e] | e]; cbn in Hok.
  all: try (destruct j as [| [| [| [| [| [| j]]]]]]; [ | | | | | | exfalso; lia ]).
  all: refute_in Hin; reflexivity.
Qed.

(** * Startup *)

(** On the console: when it shows that the action of component [k] answered
    failure, [start_system] returns [False], and what it printed is the
    compilation lines, then for each of the components before [k] its start
    line followed by its success line, then the start line and the failure
    line of component [k]. *)
Lemma failure_line_closes_transcript w m k name :
  nth_error component_names k = Some name ->
  In (failed name) (prints (emitted m (snd (start_system w m)))) ->
  let said := prints (emitted m (snd (start_system w m))) in
  fst (start_system w m) = Ret false /\
  said = ["DEBUG: start_system called"; "DEBUG: compiling P4..."; "DEBUG: compile OK"]
         ++ ok_prints (firstn k component_names) ++ [started name; failed name] /\
  (forall j later_name,
      (k < j)%nat -> nth_error component_names j = Some later_name ->
      ~ In (started later_name) said) /\
  (forall i earlier_name,
      (i < k)%nat -> nth_error component_names i = Some earlier_name ->
      In (succeeded earlier_name) (firstn (3 + 2 * k) said)) /\
  nth_error said (3 + 2 * k) = Some (started name).
Proof.
  intros Hk Hin said.
  destruct (start_system_transcript w m) as [s [Hok [Hres Hcon]]].
  pose proof (emitted_console _ _ _ (start_system_grows w m) Hcon) as Hsaid.
  fold said in Hsaid. subst said. rewrite Hsaid in *. clear Hsaid Hcon.
  pose proof (failed_line_tells s k name Hok Hk Hin) as ->.
  split; [exact Hres |]. clear Hres Hin Hok.
  unfold start_transcript, component_names, component_list in *.
  destruct k as [| [| [| [| [| [| k]]]]]]; cbn in Hk;
    try (destruct k; discriminate Hk); injection Hk as <-.
  all: split; [reflexivity |].
  all: split; [| split; [| reflexivity]].
  all: try (intros j n Hj Hn;
            destruct j as [| [| [| [| [| [| j]]]]]]; cbn in Hn;
            try (destruct j; discriminate Hn); try (exfalso; lia);
            injection Hn as <-; intros Hin; refute_in Hin).
  all: intros i n Hi Hn;
       destruct i as [| [| [| [| [| [| i]]]]]]; cbn in Hn;
       try (destruct i; discriminate Hn); try (exfalso; lia);
       injection Hn as <-; cbn; tauto.
Qed.

(** ** The loop stops at the first failure *)

(** When the rounds of [pre] went well and the action after them answers
    failure, the loop ends there, whatever comes after in the list. *)
Lemma run_components_stops w pre name act post m mk m' :
  after_successes pre w m = Some mk ->
  act w (entering name mk) = (Ret false, m') ->
  run_components (pre ++ (name, act) :: post) w m
  = (Ret (Some false), failing name m').
Proof.
  revert m. induction pre as [| [n1 a1] pre IH]; intros m Hpre Hact.
  - cbn in Hpre. injection Hpre as ->.
    cbn [app run_components]. rewrite bind_print, bind_log, run_bind.
    change (add_event (EvLog Info ("Starting " ++ name ++ "..."))
              (add_event (EvPrint ("DEBUG: Starting " ++ name ++ "...")) mk))
      with (entering name mk).
    rewrite Hact. cbn [negb]. rewrite bind_print, bind_log. reflexivity.
  - cbn [after_successes] in Hpre.
    cbn [app run_components]. rewrite bind_print, bind_log, run_bind.
    change (add_event (EvLog Info ("Starting " ++ n1 ++ "..."))
              (add_event (EvPrint ("DEBUG: Starting " ++ n1 ++ "...")) m))
      with (entering n1 m).
    destruct (a1 w (entering n1 m)) as [[[|] | e] m1]; try discriminate Hpre.
    cbn [negb]. rewrite bind_print, bind_ext.
    change (add_event (EvPrint ("DEBUG: " ++ n1 ++ " OK")) m1)
      with (add_event (EvPrint (succeeded n1)) m1).
    cbn zeta in Hpre.
    destruct (respond w (hist (add_event (EvPrint (succeeded n1)) m1))
                (CallSleep (YInt 2))) as [v | e]; [| discriminate Hpre].
    apply IH; assumption.
Qed.

(** When the loop ends by a failure, it is the failure of the first action
    that did not answer success: every round before it went well. *)
Lemma run_components_stopped w cs m m'' :
  run_components cs w m = (Ret (Some false), m'') ->
  exists pre name act post mk m',
    cs = pre ++ (name, act) :: post /\
    after_successes pre w m = Some mk /\
    act w (entering name mk) = (Ret false, m') /\
    m'' = failing name m'.
Proof.
  revert m. induction cs as [| [n1 a1] rest IH]; intros m Hrun.
  - discriminate Hrun.
  - cbn [run_components] in Hrun. rewrite bind_print, bind_log, run_bind in Hrun.
    change (add_event (EvLog Info ("Starting " ++ n1 ++ "..."))
              (add_event (EvPrint ("DEBUG: Starting " ++ n1 ++ "...")) m))
      with (entering n1 m) in Hrun.
    destruct (a1 w (entering n1 m)) as [[[|] | e] m1] eqn:Ha; cbn [negb] in Hrun.
    + rewrite bind_print, bind_ext in Hrun.
      change (add_event (EvPrint ("DEBUG: " ++ n1 ++ " OK")) m1)
        with (add_event (EvPrint (succeeded n1)) m1) in Hrun.
      destruct (respond w (hist (add_event (EvPrint (succeeded n1)) m1))
                  (CallSleep (YInt 2))) as [v | e] eqn:Hs; [| discriminate Hrun].
      destruct (IH _ Hrun) as [pre [name [act [post [mk [m' [-> [Hpre [Hact ->]]]]]]]]].
      exists ((n1, a1) :: pre), name, act, post, mk, m'.
      split; [reflexivity |]. split; [| split; [exact Hact | reflexivity]].
      cbn [after_successes]. rewrite Ha. cbn zeta. rewrite Hs. exact Hpre.
    + rewrite bind_print, bind_log in Hrun. injection Hrun as <-.
      exists [], n1, a1, rest, m, m1.
      split; [reflexivity |]. split; [reflexivity |].
      split; [exact Ha | reflexivity].
    + discriminate Hrun.
Qed.

(** C3.  The loop of [start_system] stops at the first failure.
    - In the loop, over any list of components: when the actions of the
      components before the [k]-th each returned success in their turn
      (and the pauses between them returned), and the [k]-th action, called
      next, returns failure, the loop ends at once with failure.  What is
      left is what the [k]-th action left and the two lines that report
      this component: nothing of the components after it, whatever their
      actions are, so none of them was invoked.
    - Only so does the loop end with failure: then some action returned
      failure, every action before it had returned success in its turn,
      and the loop ended on the spot.
    - Hence [start_system], over its fixed list of six: when the
      compilation has succeeded, the actions before the [k]-th returned
      success and the [k]-th returns failure, [start_system] returns
      [False] on the machine the [k]-th action left, with the two report
      lines and nothing else. *)
Theorem start_system_fail_fast w :
  (forall pre name act post m mk m',
      after_successes pre w m = Some mk ->
      act w (entering name mk) = (Ret false, m') ->
      run_components (pre ++ (name, act) :: post) w m
      = (Ret (Some false), failing name m')) /\
  (forall cs m m'',
      run_components cs w m = (Ret (Some false), m'') ->
      exists pre name act post mk m',
        cs = pre ++ (name, act) :: post /\
        after_successes pre w m = Some mk /\
        act w (entering name mk) = (Ret false, m') /\
        m'' = failing name m') /\
  (forall pre name act post m m0 mk m',
      component_list = pre ++ (name, act) :: post ->
      compile_p4_program w (compiling m) = (Ret true, m0) ->
      after_successes pre w (compiled m0) = Some mk ->
      act w (entering name mk) = (Ret false, m') ->
      start_system w m = (Ret false, failing name m')).
Proof.
  split; [| split].
  - intros pre name act post m mk m'. apply run_components_stops.
  - intros cs m m''. apply run_components_stopped.
  - intros pre name act post m m0 mk m' Hlist Hcompile Hpre Hact.
    unfold start_system. rewrite bind_print, bind_log, bind_set_running.
    rewrite try_except_run, bind_print, (run_bind compile_p4_program).
    change (add_event (EvPrint "DEBUG: compiling P4...") _) with (compiling m).
    rewrite Hcompile. cbn [negb]. rewrite bind_print, (run_bind (run_components _)).
    assert (Hrun : run_components component_list w (compiled m0)
                   = (Ret (Some false), failing name m')).
    { rewrite Hlist. exact (run_components_stops w pre name act post _ mk m' Hpre Hact). }
    unfold compiled in Hrun. rewrite Hrun. reflexivity.
Qed.

(** The packet logger cannot be built: the third action fails, after the
    topology and the controller, and the traffic generator, the web
    interface and the monitoring are never started. *)
Lemma start_system_fail_fast_witness :
  fst (start_system no_packet_logger (fresh_machine (YMap []))) = Ret false /\
  calls (emitted (fresh_machine (YMap []))
           (snd (start_system no_packet_logger (fresh_machine (YMap [])))))
  = [CallP4cVersion; CallP4cCompile compile_cmd; CallPathExists "dpi_l2_l4.json";
     CallNewTopology; CallThreadStart (TgtCreateTopology 0); CallSleep (YInt 10);
     CallTopologyStartTraffic 0; CallSleep (YInt 2); CallSleep (YInt 2);
     CallNewPacketLogger].
Proof.
  pose (w := no_packet_logger). pose (m := fresh_machine (YMap [])).
  pose (m0 := snd (compile_p4_program w (compiling m))).
  pose (pre := [("Mininet Topology", start_mininet_topology);
                ("P4 Controller", start_p4_controller)]).
  pose (mk := match after_successes pre w (compiled m0) with
              | Some x => x
              | None => m
              end).
  pose (m' := snd (start_packet_logger w (entering "Packet Logger" mk))).
  assert (H : start_system w m = (Ret false, failing "Packet Logger" m')).
  { apply (proj2 (proj2 (start_system_fail_fast w))
             pre "Packet Logger" start_packet_logger
             [("Traffic Generator", start_traffic_generator);
              ("Web Interface", start_web_interface);
              ("Monitoring", start_monitoring)] m m0 mk m').
    - reflexivity.
    - vm_compute. reflexivity.
    - vm_compute. reflexivity.
    - vm_compute. reflexivity. }
  fold w m. rewrite H. split; [reflexivity |]. vm_compute. reflexivity.
Defined.

Lemma hist_add_event e m : hist (add_event e m) = hist m ++ [e].
Proof. reflexivity. Qed.

(** Without a compiler the compilation step answers failure after the
    probe, its only call, and leaves the instance as it was. *)
Lemma compile_without_compiler w m :
  compiler_absent w ->
  exists d,
    compile_p4_program w m = (Ret false, {| obj := obj m; hist := hist m ++ d |}) /\
    calls d = [CallP4cVersion] /\ prints d = [].
Proof.
  intros Habs. unfold compile_p4_program.
  rewrite bind_log, try_except_run, bind_ext.
  set (m1 := add_event _ m).
  specialize (Habs (hist m1)).
  destruct (respond w (hist m1) CallP4cVersion) as [rc | e]; inversion Habs; subst.
  - assert (Hrc : negb (rc =? 0)%Z = true)
      by (apply negb_true_iff, Z.eqb_neq; assumption).
    rewrite Hrc, bind_log. unfold ret.
    eexists. split.
    + unfold add_event, m1; cbn. rewrite <- !app_assoc. reflexivity.
    + split; reflexivity.
  - cbn [is_Exception]. rewrite bind_log. unfold ret.
    eexists. split.
    + unfold add_event, m1; cbn. rewrite <- !app_assoc. reflexivity.
    + split; reflexivity.
Qed.

(** What [__init__] builds has nothing in its registries and no controller. *)
Lemma init_fields path w h0 o h :
  DPISystem_init path w h0 = (Ret o, h) ->
  processes o = [] /\ threads o = [] /\ controller o = None /\ running o = false.
Proof.
  unfold DPISystem_init, kbind, klift, kemit.
  destruct (load_config LoggerUnset path w h0) as [[cfg | e] h1]; [| discriminate].
  destruct (setup_logging cfg w h1) as [[u | e] h2]; [| discriminate].
  unfold kext. destruct (respond w _ CallNow); [| discriminate].
  intros H. injection H as <- _. auto.
Qed.

(** C5.  With the compiler binary absent, [start_system] returns [False];
    the only external call it made is the probe of the compiler, and the
    console shows the compilation failing and no component being started;
    both registries are as they were, hence empty for an instance that
    [__init__] has just built. *)
Theorem start_system_without_compiler w m :
  compiler_absent w ->
  let r := start_system w m in
  fst r = Ret false /\
  calls (emitted m (snd r)) = [CallP4cVersion] /\
  prints (emitted m (snd r))
  = ["DEBUG: start_system called"; "DEBUG: compiling P4..."; "DEBUG: compile failed"] /\
  processes (obj (snd r)) = processes (obj m) /\
  threads (obj (snd r)) = threads (obj m) /\
  (forall path h0,
      DPISystem_init path w h0 = (Ret (obj m), hist m) ->
      processes (obj (snd r)) = [] /\ threads (obj (snd r)) = []).
Proof.
  intros Habs r. subst r. unfold start_system.
  rewrite bind_print, bind_log, bind_set_running, try_except_run.
  rewrite bind_print, (run_bind compile_p4_program).
  set (m0 := add_event (EvPrint "DEBUG: compiling P4...") _).
  destruct (compile_without_compiler w m0 Habs) as [d [-> [Hcalls Hprints]]].
  cbn [negb]. rewrite bind_print, bind_log. unfold ret. cbn [fst snd].
  set (final := add_event _ _).
  assert (Hh : hist final
               = hist m ++ ([EvPrint "DEBUG: start_system called";
                             EvLog Info "Starting P4 DPI System...";
                             EvSetRunning true;
                             EvPrint "DEBUG: compiling P4..."] ++ d ++
                            [EvPrint "DEBUG: compile failed";
                             EvLog Error "Failed to compile P4 program"])).
  { subst final m0. unfold add_event, upd; cbn. rewrite <- !app_assoc. reflexivity. }
  rewrite (emitted_app _ _ _ Hh).
  rewrite !calls_app, !prints_app, Hcalls, Hprints.
  repeat split; try reflexivity.
  all: match goal with
       | Hi : DPISystem_init _ _ _ = _ |- _ => apply init_fields in Hi; tauto
       end.
Qed.

Lemma start_system_without_compiler_witness :
  fst (start_system no_compiler (fresh_machine (YMap []))) = Ret false /\
  calls (emitted (fresh_machine (YMap []))
           (snd (start_system no_compiler (fresh_machine (YMap [])))))
  = [CallP4cVersion].
Proof.
  assert (H : compiler_absent no_compiler) by (intros h; apply probe_missing).
  destruct (start_system_without_compiler no_compiler (fresh_machine (YMap [])) H)
    as [Hr [Hc _]].
  split; [exact Hr | exact Hc].
Defined.

(** ** The running flag *)

Lemma no_flag_writes d : Forall no_flag_write d -> flag_writes d = [].
Proof.
  induction 1 as [| e d He _ IH]; [reflexivity |].
  destruct e; cbn in *; try exact IH. contradiction.
Qed.

Lemma start_system_split w m :
  start_system w m
  = start_body w
      (add_event (EvSetRunning true)
         (upd (with_running true)
            (add_event (EvLog Info "Starting P4 DPI System...")
               (add_event (EvPrint "DEBUG: start_system called") m)))).
Proof. reflexivity. Qed.

Lemma start_body_keeps_flag : respects (kept flag) start_body.
Proof. unfold start_body. respects_structure; kept_side. Qed.

Lemma start_body_writes_no_flag : respects (adds no_flag_write) start_body.
Proof. unfold start_body. respects_structure; adds_side; exact I. Qed.

(** [start_system] writes the flag once, to true, before anything else than
    its two opening lines, and ends with the flag true. *)
Lemma start_system_flag w m :
  flag (snd (start_system w m)) = true /\
  exists d,
    hist (snd (start_system w m))
    = hist m ++ [EvPrint "DEBUG: start_system called";
                 EvLog Info "Starting P4 DPI System...";
                 EvSetRunning true] ++ d /\
    Forall no_flag_write d.
Proof.
  rewrite start_system_split. set (m1 := add_event (EvSetRunning true) _).
  split.
  - rewrite (start_body_keeps_flag w m1). reflexivity.
  - destruct (start_body_writes_no_flag w m1) as [d [Hd Hf]].
    exists d. split; [| exact Hf].
    rewrite Hd. subst m1. unfold add_event, upd; cbn.
    rewrite <- !app_assoc. reflexivity.
Qed.

(** C8.  When [start_system] returns [False] the flag is true: it was set
    right at entry, after the two opening lines and before the compilation
    and everything else, and nothing in [start_system] writes it again. *)
Theorem failed_start_leaves_flag_true w m :
  fst (start_system w m) = Ret false ->
  running (obj (snd (start_system w m))) = true /\
  exists d,
    emitted m (snd (start_system w m))
    = [EvPrint "DEBUG: start_system called";
       EvLog Info "Starting P4 DPI System...";
       EvSetRunning true] ++ d /\
    flag_writes d = [].
Proof.
  intros _. destruct (start_system_flag w m) as [Hf [d [Hd Hn]]].
  split; [exact Hf |].
  exists d. split.
  - apply emitted_app. exact Hd.
  - apply no_flag_writes. exact Hn.
Qed.

Lemma failed_start_leaves_flag_true_witness :
  running (obj (snd (start_system no_compiler (fresh_machine (YMap []))))) = true.
Proof.
  assert (H : fst (start_system no_compiler (fresh_machine (YMap []))) = Ret false)
    by reflexivity.
  exact (proj1 (failed_start_leaves_flag_true no_compiler (fresh_machine (YMap [])) H)).
Defined.

(** * Shutdown *)

(** ** What [stop_system] writes *)

Lemma stop_system_split w m :
  stop_system w m
  = stop_body w
      (add_event (EvSetRunning false)
         (upd (with_running false)
            (add_event (EvLog Info "Stopping P4 DPI System...") m))).
Proof. reflexivity. Qed.

Lemma shutdown_steps_keep_obj : respects (kept obj) shutdown_steps.
Proof. respects_structure; kept_side. Qed.

Lemma stop_body_keeps_obj : respects (kept obj) stop_body.
Proof. unfold stop_body. respects_structure; kept_side. Qed.

Lemma stop_body_writes_no_flag : respects (adds no_flag_write) stop_body.
Proof. unfold stop_body. respects_structure; adds_side; exact I. Qed.

(** [stop_system] changes one field, the flag. *)
Lemma stop_system_obj w m :
  obj (snd (stop_system w m)) = with_running false (obj m).
Proof. rewrite stop_system_split, (stop_body_keeps_obj w _). reflexivity. Qed.

Lemma with_running_twice b o : with_running b (with_running b o) = with_running b o.
Proof. reflexivity. Qed.

(** ** Which exceptions pass, and which end the shutdown *)

Lemma orderly_tail a rest x : orderly (a :: rest) x -> orderly rest x.
Proof.
  destruct a as [c [v | e] | | |]; cbn; auto.
  destruct (victim c); [tauto |]. intros [-> _]. exact I.
Qed.

Lemma orderly_app d1 d2 x : orderly d1 None -> orderly d2 x -> orderly (d1 ++ d2) x.
Proof.
  induction d1 as [| a rest IH]; intros H1 H2; [exact H2 |].
  pose proof (orderly_tail _ _ _ H1) as Ht.
  destruct a as [c [v | e] | | |]; cbn in *; auto.
  destruct (victim c).
  - destruct H1 as [[o [rest' ->]] _]. split; [| auto].
    exists o, (rest' ++ d2). reflexivity.
  - destruct H1 as [_ H]. discriminate H.
Qed.

Lemma proceeds_ret {A} (a : A) : proceeds (ret a).
Proof. intros w m. exists []. cbn. now rewrite app_nil_r. Qed.

Lemma proceeds_get_obj : proceeds get_obj.
Proof. intros w m. exists []. cbn. now rewrite app_nil_r. Qed.

Lemma proceeds_log lvl s : proceeds (log lvl s).
Proof. intros w m. exists [EvLog lvl s]. cbn. auto. Qed.

Lemma proceeds_ext c : victim c = None -> proceeds (ext c).
Proof.
  intros Hc w m. unfold ext.
  destruct (respond w (hist m) c) as [v | e].
  - exists [EvCall c (Returned v)]. cbn. auto.
  - exists [EvCall c (Raised e)]. cbn. rewrite Hc. auto.
Qed.

Lemma proceeds_bind {A B} (c : M A) (f : A -> M B) :
  proceeds c -> (forall a, proceeds (f a)) -> proceeds (bind c f).
Proof.
  intros Hc Hf w m. unfold bind.
  destruct (Hc w m) as [d1 [Hd1 Ho1]].
  destruct (c w m) as [[a | e] m1]; cbn [fst snd raised] in *.
  - destruct (Hf a w m1) as [d2 [Hd2 Ho2]].
    exists (d1 ++ d2). split.
    + rewrite Hd2, Hd1, app_assoc. reflexivity.
    + apply orderly_app; assumption.
  - exists d1. auto.
Qed.

Lemma proceeds_for_each {A} (l : list A) body :
  (forall x, proceeds (body x)) -> proceeds (for_each l body).
Proof.
  intros Hb. induction l as [| x rest IH]; cbn.
  - apply proceeds_ret.
  - apply proceeds_bind; auto.
Qed.

Lemma proceeds_when_present ref c :
  (forall r, victim (c r) = None) -> proceeds (when_present ref c).
Proof.
  intros Hc. destruct ref as [r |]; cbn.
  - apply proceeds_bind; [apply proceeds_ext, Hc | intros; apply proceeds_ret].
  - apply proceeds_ret.
Qed.

Lemma proceeds_stop_process entry : proceeds (stop_process entry).
Proof.
  intros w m. destruct entry as [name p]. unfold stop_process, try_bare. cbn [snd].
  rewrite !bind_ext.
  destruct (respond w (hist m) (CallTerminate p)) as [v1 | e1].
  - rewrite bind_ext.
    destruct (respond w _ (CallWait p 5)) as [v2 | e2].
    + eexists. cbn. rewrite <- !app_assoc. split; [reflexivity | exact I].
    + rewrite bind_ext.
      destruct (respond w _ (CallKill p)) as [v3 | e3];
        eexists; cbn; rewrite <- !app_assoc; (split; [reflexivity |]); cbn; eauto 6.
  - rewrite bind_ext.
    destruct (respond w _ (CallKill p)) as [v3 | e3];
      eexists; cbn; rewrite <- !app_assoc; (split; [reflexivity |]); cbn; eauto 6.
Qed.

Lemma shutdown_steps_proceed : proceeds shutdown_steps.
Proof.
  unfold shutdown_steps.
  apply proceeds_bind; [apply proceeds_get_obj | intros o].
  repeat (apply proceeds_bind;
          [apply proceeds_when_present; reflexivity | intros _]).
  apply proceeds_bind; [apply proceeds_for_each, proceeds_stop_process | intros _].
  apply proceeds_bind; [| intros _; apply proceeds_log].
  apply proceeds_for_each. intros t. unfold join_thread.
  apply proceeds_bind; [apply proceeds_ext; reflexivity | intros; apply proceeds_ret].
Qed.

Lemma stop_system_shape w m :
  exists d x,
    orderly d x /\
    emitted m (snd (stop_system w m))
    = [EvLog Info "Stopping P4 DPI System..."; EvSetRunning false]
      ++ d ++ error_line x.
Proof.
  rewrite stop_system_split. set (m1 := add_event (EvSetRunning false) _).
  unfold stop_body. rewrite try_except_run.
  destruct (shutdown_steps_proceed w m1) as [d [Hd Ho]].
  exists d, (raised (fst (shutdown_steps w m1))). split; [exact Ho |].
  apply emitted_app.
  destruct (shutdown_steps w m1) as [[u | e] m2]; cbn [fst snd raised error_line] in *.
  - rewrite Hd. subst m1. unfold add_event, upd; cbn.
    rewrite app_nil_r, <- !app_assoc. reflexivity.
  - destruct (is_Exception e); cbn [snd].
    + unfold log, emit; cbn. rewrite Hd. subst m1. unfold add_event, upd; cbn.
      rewrite <- !app_assoc. reflexivity.
    + rewrite Hd. subst m1. unfold add_event, upd; cbn.
      rewrite app_nil_r, <- !app_assoc. reflexivity.
Qed.

Lemma orderly_last_raise d x c e :
  orderly d x -> In (EvCall c (Raised e)) d -> victim c = None ->
  exists pre, d = pre ++ [EvCall c (Raised e)] /\ x = Some e.
Proof.
  induction d as [| a rest IH]; intros Ho Hin Hv; [destruct Hin |].
  destruct Hin as [-> | Hin].
  - cbn in Ho. rewrite Hv in Ho. destruct Ho as [-> ->]. exists []. auto.
  - destruct (IH (orderly_tail _ _ _ Ho) Hin Hv) as [pre [-> Hx]].
    exists (a :: pre). auto.
Qed.

Lemma orderly_kill_follows d x pre c e post p :
  orderly d x -> d = pre ++ EvCall c (Raised e) :: post -> victim c = Some p ->
  exists o post', post = EvCall (CallKill p) o :: post'.
Proof.
  revert d. induction pre as [| a pre IH]; intros d Ho -> Hv.
  - cbn in Ho. rewrite Hv in Ho. tauto.
  - apply (IH _ (orderly_tail _ _ _ Ho) eq_refl Hv).
Qed.

Lemma split_in_middle {X} (a b pre post : list X) (x : X) :
  a ++ b = pre ++ x :: post -> ~ In x b ->
  exists post', a = pre ++ x :: post' /\ post = post' ++ b.
Proof.
  intros H Hn. apply app_eq_app in H. destruct H as [l [[Ha Hp] | [Hp Hb]]].
  - destruct l as [| y l].
    + cbn in Hp. exfalso. apply Hn. rewrite <- Hp. left. reflexivity.
    + injection Hp as -> ->. exists l. auto.
  - exfalso. apply Hn. rewrite Hb. apply in_or_app. right. left. reflexivity.
Qed.

(** ** Steps that answer normally *)

Lemma extend_extend m d1 d2 : extend (extend m d1) d2 = extend m (d1 ++ d2).
Proof. unfold extend; cbn. rewrite app_assoc. reflexivity. Qed.

Lemma add_event_extend e m : add_event e m = extend m [e].
Proof. reflexivity. Qed.

Lemma in_calls c o d : In (EvCall c o) d -> In c (calls d).
Proof.
  intros H. unfold calls. apply in_flat_map. exists (EvCall c o). cbn. auto.
Qed.

Lemma bind_when_present {B} w ref c (k : unit -> M B) m :
  answers w is_collaborator_stop ->
  (forall r, is_collaborator_stop (c r) = true) ->
  exists d,
    bind (when_present ref c) k w m = k tt w (extend m d) /\
    calls d = stop_call ref c.
Proof.
  intros Hw Hc. unfold when_present. destruct ref as [r |].
  - destruct (Hw (hist m) (c r) (Hc r)) as [v Hv].
    exists [EvCall (c r) (Returned v)]. split; [| reflexivity].
    unfold bind at 1. rewrite bind_ext, Hv. reflexivity.
  - exists []. split; [| reflexivity].
    unfold extend. rewrite app_nil_r. destruct m; reflexivity.
Qed.

(** With every [kill] answering, the loop over the processes reaches its
    end and has dealt with each process. *)
Lemma stop_processes_complete w ps m :
  answers w is_kill ->
  exists d,
    for_each ps stop_process w m = (Ret tt, extend m d) /\
    forall name p, In (name, p) ps -> In (CallTerminate p) (calls d) /\ handled p d.
Proof.
  intros Hk. revert m. induction ps as [| [name p] rest IH]; intros m.
  - exists []. split; [| intros ? ? []].
    cbn. unfold ret, extend. rewrite app_nil_r. destruct m; reflexivity.
  - cbn [for_each]. rewrite run_bind.
    assert (Hone : exists d1, stop_process (name, p) w m = (Ret tt, extend m d1) /\
                              In (CallTerminate p) (calls d1) /\ handled p d1).
    { unfold stop_process, try_bare. cbn [snd]. rewrite bind_ext.
      destruct (respond w (hist m) (CallTerminate p)) as [v1 | e1].
      - rewrite bind_ext.
        destruct (respond w _ (CallWait p 5)) as [v2 | e2].
        + exists [EvCall (CallTerminate p) (Returned v1);
                  EvCall (CallWait p 5) (Returned v2)].
          split; [unfold ret, add_event, extend; cbn; rewrite <- app_assoc; reflexivity |].
          split; [cbn; auto |]. left. exists v1, v2. cbn. auto.
        + rewrite bind_ext.
          destruct (Hk (hist (add_event (EvCall (CallWait p 5) (Raised e2))
                               (add_event (EvCall (CallTerminate p) (Returned v1)) m)))
                       (CallKill p) eq_refl) as [v3 ->].
          exists [EvCall (CallTerminate p) (Returned v1);
                  EvCall (CallWait p 5) (Raised e2);
                  EvCall (CallKill p) (Returned v3)].
          split; [unfold ret, add_event, extend; cbn; rewrite <- !app_assoc; reflexivity |].
          split; [cbn; auto |]. right. exists v3. cbn. auto.
      - rewrite bind_ext.
        destruct (Hk (hist (add_event (EvCall (CallTerminate p) (Raised e1)) m))
                     (CallKill p) eq_refl) as [v3 ->].
        exists [EvCall (CallTerminate p) (Raised e1);
                EvCall (CallKill p) (Returned v3)].
        split; [unfold ret, add_event, extend; cbn; rewrite <- !app_assoc; reflexivity |].
        split; [cbn; auto |]. right. exists v3. cbn. auto. }
    destruct Hone as [d1 [-> [Ht1 Hh1]]].
    destruct (IH (extend m d1)) as [d2 [-> Hrest]].
    exists (d1 ++ d2). split; [rewrite extend_extend; reflexivity |].
    intros n q [Heq | Hin].
    + injection Heq as <- <-. split.
      * rewrite calls_app. apply in_or_app. auto.
      * destruct Hh1 as [[v [v' [H1 H2]]] | [v H1]].
        -- left. exists v, v'. split; apply in_or_app; auto.
        -- right. exists v. apply in_or_app; auto.
    + destruct (Hrest n q Hin) as [Ht2 Hh2]. split.
      * rewrite calls_app. apply in_or_app. auto.
      * destruct Hh2 as [[v [v' [H1 H2]]] | [v H1]].
        -- left. exists v, v'. split; apply in_or_app; auto.
        -- right. exists v. apply in_or_app; auto.
Qed.

(** With every [join] answering, the loop over the threads joins them all. *)
Lemma join_threads_complete w ts m :
  answers w is_join ->
  exists d,
    for_each ts join_thread w m = (Ret tt, extend m d) /\
    calls d = map (fun t => CallJoin t 5) ts.
Proof.
  intros Hj. revert m. induction ts as [| t rest IH]; intros m.
  - exists []. split; [| reflexivity].
    cbn. unfold ret, extend. rewrite app_nil_r. destruct m; reflexivity.
  - cbn [for_each]. unfold join_thread at 1. rewrite run_bind, bind_ext.
    destruct (Hj (hist m) (CallJoin t 5) eq_refl) as [v ->].
    unfold ret at 1. rewrite add_event_extend.
    destruct (IH (extend m [EvCall (CallJoin t 5) (Returned v)])) as [d [-> Hd]].
    exists (EvCall (CallJoin t 5) (Returned v) :: d).
    split; [rewrite extend_extend; reflexivity |].
    cbn. rewrite <- Hd. reflexivity.
Qed.

Lemma stop_tail_grows ts : respects (adds any_event) (stop_tail ts).
Proof. unfold stop_tail. respects_structure; adds_side; exact I. Qed.

(** With the stops of the collaborators and every [kill] answering, the
    steps of the shutdown get past the processes. *)
Lemma shutdown_steps_progress w m :
  answers w is_collaborator_stop -> answers w is_kill ->
  exists cs d1,
    calls cs = collaborator_stops (obj m) /\
    (forall name p, In (name, p) (processes (obj m)) ->
                    In (CallTerminate p) (calls d1) /\ handled p d1) /\
    shutdown_steps w m
    = (for_each (threads (obj m)) join_thread ;; log Info "P4 DPI System stopped")
        w (extend m (cs ++ d1)).
Proof.
  intros Hc Hk. unfold shutdown_steps. rewrite bind_get_obj.
  destruct (bind_when_present w (traffic_generator (obj m)) CallStopTraffic
              (fun _ => when_present (controller (obj m)) CallControllerStop ;;
                        when_present (logger_component (obj m)) CallLoggerClose ;;
                        when_present (topology (obj m)) CallTopologyStop ;;
                        for_each (processes (obj m)) stop_process ;;
                        for_each (threads (obj m)) join_thread ;;
                        log Info "P4 DPI System stopped") m Hc (fun _ => eq_refl))
    as [c1 [-> Hc1]].
  destruct (bind_when_present w (controller (obj m)) CallControllerStop
              (fun _ => when_present (logger_component (obj m)) CallLoggerClose ;;
                        when_present (topology (obj m)) CallTopologyStop ;;
                        for_each (processes (obj m)) stop_process ;;
                        for_each (threads (obj m)) join_thread ;;
                        log Info "P4 DPI System stopped") (extend m c1) Hc
              (fun _ => eq_refl))
    as [c2 [-> Hc2]].
  destruct (bind_when_present w (logger_component (obj m)) CallLoggerClose
              (fun _ => when_present (topology (obj m)) CallTopologyStop ;;
                        for_each (processes (obj m)) stop_process ;;
                        for_each (threads (obj m)) join_thread ;;
                        log Info "P4 DPI System stopped") (extend (extend m c1) c2) Hc
              (fun _ => eq_refl))
    as [c3 [-> Hc3]].
  destruct (bind_when_present w (topology (obj m)) CallTopologyStop
              (fun _ => for_each (processes (obj m)) stop_process ;;
                        for_each (threads (obj m)) join_thread ;;
                        log Info "P4 DPI System stopped")
              (extend (extend (extend m c1) c2) c3) Hc (fun _ => eq_refl))
    as [c4 [-> Hc4]].
  rewrite !extend_extend.
  rewrite (run_bind (for_each (processes (obj m)) stop_process)).
  destruct (stop_processes_complete w (processes (obj m))
              (extend m (c1 ++ c2 ++ c3 ++ c4)) Hk) as [d1 [-> Hd1]].
  exists (c1 ++ c2 ++ c3 ++ c4), d1. split; [| split].
  - rewrite !calls_app, Hc1, Hc2, Hc3, Hc4. reflexivity.
  - exact Hd1.
  - rewrite extend_extend. reflexivity.
Qed.

(** With the stops of the collaborators and every [kill] answering,
    [stop_system] stops the collaborators, deals with every registered
    process and comes to the joins. *)
Lemma stop_system_progress w m :
  answers w is_collaborator_stop -> answers w is_kill ->
  exists d0 d1 d2,
    emitted m (snd (stop_system w m)) = d0 ++ d1 ++ d2 /\
    calls d0 = collaborator_stops (obj m) /\
    (forall name p, In (name, p) (processes (obj m)) ->
                    In (CallTerminate p) (calls d1) /\ handled p d1) /\
    (answers w is_join ->
     calls d2 = map (fun t => CallJoin t 5) (threads (obj m))).
Proof.
  intros Hc Hk. rewrite stop_system_split.
  set (m1 := add_event (EvSetRunning false) _).
  assert (Hm1 : m1 = extend (upd (with_running false) m)
                       [EvLog Info "Stopping P4 DPI System..."; EvSetRunning false]).
  { subst m1. unfold add_event, upd, extend; cbn. rewrite <- app_assoc. reflexivity. }
  destruct (shutdown_steps_progress w m1 Hc Hk) as [cs [d1 [Hcs [Hd1 Hrun]]]].
  assert (Htail : stop_body w m1 = stop_tail (threads (obj m1)) w (extend m1 (cs ++ d1))).
  { unfold stop_body, stop_tail, try_except. rewrite Hrun. reflexivity. }
  rewrite Htail.
  destruct (stop_tail_grows (threads (obj m1)) w (extend m1 (cs ++ d1)))
    as [d2 [Hd2 _]].
  exists ([EvLog Info "Stopping P4 DPI System..."; EvSetRunning false] ++ cs), d1, d2.
  split; [| split; [| split]].
  - apply emitted_app. rewrite Hd2, Hm1. unfold extend, upd; cbn.
    rewrite <- !app_assoc. reflexivity.
  - rewrite calls_app. exact Hcs.
  - exact Hd1.
  - intros Hj. unfold stop_tail in Hd2. rewrite try_except_run, run_bind in Hd2.
    destruct (join_threads_complete w (threads (obj m1)) (extend m1 (cs ++ d1)) Hj)
      as [dj [Hrun' Hdj]].
    rewrite Hrun' in Hd2. unfold log, emit in Hd2. cbn in Hd2.
    rewrite <- (app_assoc _ dj) in Hd2. apply app_inv_head in Hd2.
    rewrite <- Hd2, calls_app, Hdj. cbn. rewrite app_nil_r. reflexivity.
Qed.

(** ** A started instance to stop *)

Lemma started_instance_registries :
  processes (obj started_instance) = [("p4c_s1", 23); ("p4c_s2", 25); ("flask_api", 49)] /\
  traffic_generator (obj started_instance) = Some 41 /\
  logger_component (obj started_instance) = Some 34 /\
  topology (obj started_instance) = Some 13.
Proof. repeat split. Qed.

Lemma numbering_answers P : answers numbering P.
Proof.
  intros h c _. cbn. destruct c; eexists; reflexivity.
Qed.

(** ** Stopping twice *)

(** C1 fails: stopped twice, the started instance still has its three
    process handles and three threads, and the second call stopped the
    traffic generator and terminated the processes again. *)
Lemma second_stop_is_noop_fails : ~ second_stop_is_noop numbering started_instance.
Proof.
  intros [_ [Hp _]]. vm_compute in Hp. discriminate Hp.
Qed.

Lemma second_stop_repeats_signals :
  let m1 := snd (stop_system numbering started_instance) in
  let m2 := snd (stop_system numbering m1) in
  calls (emitted m1 m2)
  = [CallStopTraffic 41; CallLoggerClose 34; CallTopologyStop 13;
     CallTerminate 23; CallWait 23 5; CallTerminate 25; CallWait 25 5;
     CallTerminate 49; CallWait 49 5;
     CallJoin {| target := TgtCreateTopology 13; ident := 14 |} 5;
     CallJoin {| target := TgtTrafficGeneration 41; ident := 42 |} 5;
     CallJoin {| target := TgtMonitor; ident := 56 |} 5].
Proof. vm_compute. reflexivity. Qed.

(** C1, amended.  [stop_system] writes the flag and nothing else: after one
    call the instance is the one at entry with the flag false, the
    registries holding exactly the handles they held, and a second call
    leaves that state as it is.  The second call is no no-op: whenever the
    stops of the collaborators and the kills answer, it calls again the stop
    of every collaborator the instance holds and [terminate] on every
    registered process. *)
Theorem stop_system_twice w m :
  let m1 := snd (stop_system w m) in
  let m2 := snd (stop_system w m1) in
  obj m1 = with_running false (obj m) /\
  obj m2 = obj m1 /\
  running (obj m2) = false /\
  processes (obj m2) = processes (obj m) /\
  threads (obj m2) = threads (obj m) /\
  (answers w is_collaborator_stop -> answers w is_kill ->
   forall c,
     In c (collaborator_stops (obj m) ++
           map (fun entry => CallTerminate (snd entry)) (processes (obj m))) ->
     In c (calls (emitted m1 m2))).
Proof.
  intros m1 m2. subst m1 m2.
  rewrite !stop_system_obj. cbn [with_running running processes threads].
  repeat (split; [reflexivity |]).
  intros Hc Hk c Hin.
  destruct (stop_system_progress w (snd (stop_system w m)) Hc Hk)
    as [d0 [d1 [d2 [-> [H0 [H1 _]]]]]].
  rewrite stop_system_obj in H0, H1. cbn [processes with_running] in H1.
  change (collaborator_stops (with_running false (obj m)))
    with (collaborator_stops (obj m)) in H0.
  rewrite !calls_app, H0. apply in_app_or in Hin. destruct Hin as [Hin | Hin].
  - apply in_or_app. left. exact Hin.
  - apply in_or_app. right. apply in_or_app. left.
    apply in_map_iff in Hin. destruct Hin as [[name p] [<- Hin]].
    apply (H1 name p Hin).
Qed.

Lemma stop_system_twice_witness :
  In (CallTerminate 49)
    (calls (emitted (snd (stop_system numbering started_instance))
              (snd (stop_system numbering
                      (snd (stop_system numbering started_instance)))))).
Proof.
  apply (stop_system_twice numbering started_instance).
  - apply numbering_answers.
  - apply numbering_answers.
  - vm_compute. tauto.
Defined.

(** ** Exceptions during the shutdown *)

(** C2 fails: when the traffic generator raises on its stop, the error is
    logged and nothing else is attempted; the packet logger is not closed. *)
Lemma every_step_attempted_fails :
  ~ every_step_attempted stuck_generator started_instance.
Proof.
  intros H. specialize (H (CallLoggerClose 34)).
  vm_compute in H. destruct H as [H | H]; [tauto | discriminate H | destruct H].
Qed.

Lemma stuck_generator_ends_shutdown :
  emitted started_instance (snd (stop_system stuck_generator started_instance))
  = [EvLog Info "Stopping P4 DPI System..."; EvSetRunning false;
     EvCall (CallStopTraffic 41)
       (Raised (PyException "RuntimeError" "generator is stuck"));
     EvLog Error "Error stopping system: generator is stuck"].
Proof. vm_compute. reflexivity. Qed.

Lemma not_in_error_line ev x :
  (forall lvl s, ev <> EvLog lvl s) -> ~ In ev (error_line x).
Proof.
  intros Hev Hin. unfold error_line in Hin.
  destruct x as [e |]; [| destruct Hin].
  destruct (is_Exception e); [| destruct Hin].
  destruct Hin as [H | []]. symmetry in H. exact (Hev _ _ H).
Qed.

(** C2, amended.  In [stop_system]:
    - an exception of [terminate] or of [wait] on a process is passed over,
      not logged: the very next thing is the [kill] of that process;
    - an exception (a subclass of [Exception]) of any other step, be it the
      stop of a collaborator, a [kill] or a [join], is logged as
      "Error stopping system" and nothing is attempted after it (an
      interrupt or an exit raised there leaves [stop_system] at once,
      unlogged);
    - so, when no step other than [terminate] and [wait] raises, every step
      is attempted. *)
Theorem stop_system_exception_policy w m :
  let said := emitted m (snd (stop_system w m)) in
  (forall pre c e post p,
      said = pre ++ EvCall c (Raised e) :: post -> victim c = Some p ->
      exists o post', post = EvCall (CallKill p) o :: post') /\
  (forall c e,
      In (EvCall c (Raised e)) said -> victim c = None -> is_Exception e = true ->
      exists pre,
        said = pre ++ [EvCall c (Raised e);
                       EvLog Error ("Error stopping system: " ++ exn_text e)]) /\
  ((forall h c, victim c = None -> exists v, respond w h c = Returned v) ->
   forall c, In c (planned_steps (obj m)) -> In c (calls said)).
Proof.
  intros said. subst said.
  destruct (stop_system_shape w m) as [d [x [Ho Hs]]].
  split; [| split].
  - intros pre c e post p Heq Hv. rewrite Hs in Heq.
    destruct pre as [| a [| b pre]]; try discriminate Heq.
    injection Heq as _ _ Heq.
    apply split_in_middle in Heq;
      [| apply not_in_error_line; intros; discriminate].
    destruct Heq as [post' [Hd ->]].
    destruct (orderly_kill_follows _ _ _ _ _ _ _ Ho Hd Hv) as [o [post'' ->]].
    exists o, (post'' ++ error_line x). reflexivity.
  - intros c e Hin Hv He. rewrite Hs in Hin |- *. cbn [app In] in Hin.
    destruct Hin as [H | [H | Hin]]; try discriminate H.
    apply in_app_or in Hin. destruct Hin as [Hin | Hin].
    + destruct (orderly_last_raise _ _ _ _ Ho Hin Hv) as [pre [-> ->]].
      exists ([EvLog Info "Stopping P4 DPI System..."; EvSetRunning false] ++ pre).
      cbn [error_line]. rewrite He. cbn. rewrite <- !app_assoc. reflexivity.
    + exfalso. revert Hin. apply not_in_error_line. intros; discriminate.
  - intros Hw c Hin.
    assert (Hc : answers w is_collaborator_stop)
      by (intros h c0 H0; apply Hw; destruct c0; try discriminate H0; reflexivity).
    assert (Hk : answers w is_kill)
      by (intros h c0 H0; apply Hw; destruct c0; try discriminate H0; reflexivity).
    assert (Hj : answers w is_join)
      by (intros h c0 H0; apply Hw; destruct c0; try discriminate H0; reflexivity).
    destruct (stop_system_progress w m Hc Hk) as [d0 [d1 [d2 [-> [H0 [H1 H2]]]]]].
    rewrite !calls_app, H0, (H2 Hj).
    unfold planned_steps in Hin.
    apply in_app_or in Hin. destruct Hin as [Hin | Hin];
      [apply in_or_app; left; exact Hin |].
    apply in_or_app. right.
    apply in_app_or in Hin. destruct Hin as [Hin | Hin];
      [| apply in_or_app; right; exact Hin].
    apply in_or_app. left.
    apply in_map_iff in Hin. destruct Hin as [[name p] [<- Hin]].
    apply (H1 name p Hin).
Qed.

Lemma stop_system_exception_policy_witness :
  exists pre,
    emitted started_instance (snd (stop_system stuck_generator started_instance))
    = pre ++ [EvCall (CallStopTraffic 41)
                (Raised (PyException "RuntimeError" "generator is stuck"));
              EvLog Error "Error stopping system: generator is stuck"].
Proof.
  apply (proj1 (proj2 (stop_system_exception_policy stuck_generator started_instance))
           (CallStopTraffic 41) (PyException "RuntimeError" "generator is stuck")).
  - vm_compute. tauto.
  - reflexivity.
  - reflexivity.
Defined.

(** ** The processes of the registry *)

(** C4 fails: when the traffic generator raises on its stop, no process is
    terminated, waited for or killed. *)
Lemma every_process_handled_fails :
  ~ every_process_handled stuck_generator started_instance.
Proof.
  intros H. specialize (H "flask_api" 49).
  assert (Hin : In ("flask_api", 49) (processes (obj started_instance)))
    by (vm_compute; tauto).
  specialize (H Hin). rewrite stuck_generator_ends_shutdown in H.
  destruct H as [[v [v' [H _]]] | [v H]];
    repeat (destruct H as [H | H]; [discriminate H |]); destruct H.
Qed.

(** C4, amended.  Provided the stops of the collaborators and every [kill]
    answer without raising, [stop_system] calls [terminate] on every process
    that is in the registry when it begins, and for each of them either
    [terminate] and [wait] returned, the process having ended within the
    timeout, or [kill] was called and returned. *)
Theorem stop_system_handles_processes w m :
  answers w is_collaborator_stop -> answers w is_kill ->
  forall name p,
    In (name, p) (processes (obj m)) ->
    In (CallTerminate p) (calls (emitted m (snd (stop_system w m)))) /\
    handled p (emitted m (snd (stop_system w m))).
Proof.
  intros Hc Hk name p Hin.
  destruct (stop_system_progress w m Hc Hk) as [d0 [d1 [d2 [-> [_ [H1 _]]]]]].
  destruct (H1 name p Hin) as [Ht Hh]. split.
  - rewrite !calls_app. apply in_or_app. right. apply in_or_app. left. exact Ht.
  - destruct Hh as [[v [v' [Ha Hb]]] | [v Ha]].
    + left. exists v, v'. split; apply in_or_app; right; apply in_or_app; auto.
    + right. exists v. apply in_or_app; right; apply in_or_app; auto.
Qed.

Lemma stop_system_handles_processes_witness :
  handled 49 (emitted started_instance (snd (stop_system numbering started_instance))).
Proof.
  apply (stop_system_handles_processes numbering started_instance
           (numbering_answers _) (numbering_answers _) "flask_api" 49).
  vm_compute. tauto.
Defined.

(** * Construction *)

(** C9.  When the configuration file does not exist, [load_config] as
    [__init__] calls it, before the attribute [logger] exists, raises
    [AttributeError] out of its own handler instead of returning the empty
    configuration, and so does [__init__]: no instance is built, and nothing
    is logged.  The same holds were [logger] already assigned [None]. *)
Theorem load_config_missing_file_raises w config_file h :
  read_yaml w config_file = FileNotFound ->
  load_config LoggerUnset config_file w h
  = (Exc (AttributeError "'DPISystem' object has no attribute 'logger'"), h) /\
  load_config LoggerNone config_file w h
  = (Exc (AttributeError "'NoneType' object has no attribute 'error'"), h) /\
  DPISystem_init config_file w h
  = (Exc (AttributeError "'DPISystem' object has no attribute 'logger'"), h) /\
  fst (load_config LoggerUnset config_file w h) <> Ret (YMap []).
Proof.
  intros Hf. unfold DPISystem_init, kbind, load_config. rewrite Hf.
  repeat split. discriminate.
Qed.

Lemma load_config_missing_file_raises_witness :
  DPISystem_init "config/dpi_config.yaml" empty_disk []
  = (Exc (AttributeError "'DPISystem' object has no attribute 'logger'"), []).
Proof.
  exact (proj1 (proj2 (proj2
    (load_config_missing_file_raises empty_disk "config/dpi_config.yaml" [] eq_refl)))).
Defined.

(** * The controller reference *)

#[global] Instance without_controller_pre : PreOrder without_controller.
Proof.
  split.
  - intros m Hc. split; [exact Hc | reflexivity].
  - intros a b c Hab Hbc Hc.
    destruct (Hab Hc) as [Hb Hadd1]. destruct (Hbc Hb) as [Hc' Hadd2].
    split; [exact Hc' | etransitivity; eassumption].
Qed.

Lemma without_controller_event e m :
  controller_free e -> without_controller m (add_event e m).
Proof. intros He Hc. split; [exact Hc | apply adds_event, He]. Qed.

Lemma without_controller_upd f m :
  (forall o, controller (f o) = controller o) -> without_controller m (upd f m).
Proof. intros Hf Hc. split; [cbn; rewrite Hf; exact Hc | apply adds_upd]. Qed.

Lemma check_system_health_without_controller :
  respects without_controller check_system_health.
Proof.
  intros w m Hc. unfold check_system_health. rewrite bind_ext.
  destruct (respond w (hist m) CallNow) as [now | e]; cbn [snd].
  - rewrite bind_get_obj, bind_ext. cbn [obj add_event].
    assert (Hs : forall o,
      controller_free
        (EvCall (CallWriteHealth {| timestamp := now;
                                    components := health_components (obj m) |}) o)).
    { intros o. unfold controller_free, controller_stopped, health_components.
      rewrite Hc. cbn. auto. }
    destruct (respond w _ (CallWriteHealth _)) as [v | e]; cbn [snd ret].
    + split; [exact Hc |].
      eexists. split; [unfold add_event; cbn; rewrite <- app_assoc; reflexivity |].
      repeat (apply Forall_cons; [first [exact I | apply Hs] |]). apply Forall_nil.
    + split; [exact Hc |].
      eexists. split; [unfold add_event; cbn; rewrite <- app_assoc; reflexivity |].
      repeat (apply Forall_cons; [first [exact I | apply Hs] |]). apply Forall_nil.
  - split; [exact Hc |]. apply adds_event. exact I.
Qed.

Lemma log_statistics_without_controller :
  respects without_controller log_statistics.
Proof.
  intros w m Hc. unfold log_statistics. rewrite bind_get_obj, Hc.
  split; [exact Hc | reflexivity].
Qed.

(** Closes the goals [respects_structure] leaves for [without_controller]. *)
Ltac without_controller_side :=
  intros;
  first [ apply without_controller_upd; intros; reflexivity
        | apply without_controller_event; exact I ].

Ltac without_controller_steps :=
  repeat first
    [ apply check_system_health_without_controller
    | apply log_statistics_without_controller
    | respects_step ].

Lemma monitor_tick_without_controller : respects without_controller monitor_tick.
Proof.
  unfold monitor_tick. without_controller_steps; without_controller_side.
Qed.

Lemma perform_without_controller o : respects without_controller (perform o).
Proof.
  destruct o; cbn [perform];
    try (apply respects_monitor_system; [exact _ | apply monitor_tick_without_controller]);
    without_controller_steps; without_controller_side.
Qed.

Lemma perform_all_without_controller ops w m :
  without_controller m (perform_all ops w m).
Proof.
  revert m. induction ops as [| o rest IH]; intros m; cbn.
  - reflexivity.
  - etransitivity; [apply perform_without_controller | apply IH].
Qed.

(** C10.  On an instance that [__init__] has built, after any operations
    in any order: the controller reference is [None]; every health snapshot
    the operations wrote has exactly the keys controller, logger,
    traffic_generator and topology, in this order, with controller mapped
    to stopped; and the statistics of a controller were never asked for. *)
Theorem controller_never_assigned w config_file h0 o h ops :
  DPISystem_init config_file w h0 = (Ret o, h) ->
  let m := {| obj := o; hist := h |} in
  let m' := perform_all ops w m in
  controller (obj m') = None /\
  (forall s out,
      In (EvCall (CallWriteHealth s) out) (emitted m m') ->
      map fst (components s) = ["controller"; "logger"; "traffic_generator"; "topology"] /\
      In ("controller", "stopped") (components s)) /\
  (forall c out, ~ In (EvCall (CallGetStats c) out) (emitted m m')) /\
  emitted m' (snd (log_statistics w m')) = [].
Proof.
  intros Hi m m'.
  assert (Hc : controller (obj m) = None) by (apply init_fields in Hi; cbn; tauto).
  destruct (perform_all_without_controller ops w m Hc) as [Hc' [d [Hd Hf]]].
  fold m' in Hc', Hd. rewrite (emitted_app _ _ _ Hd).
  rewrite Forall_forall in Hf.
  split; [exact Hc' |]. split; [| split].
  - intros s out Hin. exact (Hf _ Hin).
  - intros c out Hin. exact (Hf _ Hin).
  - unfold log_statistics. rewrite bind_get_obj, Hc'. unfold ret, emitted; cbn.
    apply skipn_all.
Qed.

Lemma controller_never_assigned_witness :
  controller
    (obj (perform_all [OpStartSystem; OpMonitor 2; OpStopSystem] numbering
            {| obj := obj built_instance; hist := hist built_instance |}))
  = None.
Proof.
  assert (Hi : DPISystem_init "config/dpi_config.yaml" numbering []
               = (Ret (obj built_instance), hist built_instance))
    by (vm_compute; reflexivity).
  exact (proj1 (controller_never_assigned numbering "config/dpi_config.yaml" []
                  (obj built_instance) (hist built_instance)
                  [OpStartSystem; OpMonitor 2; OpStopSystem] Hi)).
Defined.

(** * The history of the running flag *)

Lemma writes_quiet {A} (c : M A) : respects (kept flags) c -> writes [] c.
Proof. intros H w m. rewrite app_nil_r. apply H. Qed.

Lemma flags_add_event e m :
  flags (add_event e m)
  = flags m ++ match e with EvSetRunning b => [b] | _ => [] end.
Proof.
  unfold flags, add_event; cbn [hist]. rewrite flag_writes_app.
  destruct e; cbn; rewrite ?app_nil_r; reflexivity.
Qed.

Lemma writes_after_print {A} s (c : M A) l :
  writes l c -> writes l (print s ;; c).
Proof.
  intros H w m. rewrite bind_print, H, flags_add_event. cbn.
  rewrite app_nil_r. reflexivity.
Qed.

Lemma writes_then_quiet {A B} (c : M A) (f : A -> M B) l :
  writes l c -> (forall a, writes [] (f a)) -> writes l (bind c f).
Proof.
  intros Hc Hf w m. rewrite run_bind. specialize (Hc w m).
  destruct (c w m) as [[a | e] m1]; cbn [snd] in *.
  - rewrite Hf, app_nil_r. exact Hc.
  - exact Hc.
Qed.

Lemma writes_try_interrupt {A} (body on_interrupt : M A) on_exception l :
  writes l body -> writes [] on_interrupt -> (forall e, writes [] (on_exception e)) ->
  writes l (try_interrupt body on_interrupt on_exception).
Proof.
  intros Hb Hi He w m. unfold try_interrupt. specialize (Hb w m).
  destruct (body w m) as [[a | [c t | |]] m1]; cbn [snd] in *.
  - exact Hb.
  - rewrite He, app_nil_r. exact Hb.
  - rewrite Hi, app_nil_r. exact Hb.
  - exact Hb.
Qed.

Lemma writes_try_finally {A} (body : M A) fin l1 l2 :
  writes l1 body -> writes l2 fin -> writes (l1 ++ l2) (try_finally body fin).
Proof.
  intros Hb Hf w m. unfold try_finally. specialize (Hb w m).
  destruct (body w m) as [r m1]; cbn [snd] in *.
  specialize (Hf w m1). destruct (fin w m1) as [[u | e] m2]; cbn [snd] in *;
    rewrite Hf, Hb, app_assoc; reflexivity.
Qed.

Lemma start_system_writes : writes [true] start_system.
Proof.
  intros w m. destruct (start_system_flag w m) as [_ [d [Hd Hn]]].
  unfold flags. rewrite Hd, !flag_writes_app, (no_flag_writes _ Hn). reflexivity.
Qed.

Lemma stop_system_writes : writes [false] stop_system.
Proof.
  intros w m. rewrite stop_system_split.
  destruct (stop_body_writes_no_flag w
              (add_event (EvSetRunning false)
                 (upd (with_running false)
                    (add_event (EvLog Info "Stopping P4 DPI System...") m))))
    as [d [Hd Hn]].
  unfold flags. rewrite Hd, flag_writes_app, (no_flag_writes _ Hn), app_nil_r.
  unfold add_event, upd; cbn. rewrite !flag_writes_app. cbn.
  rewrite app_nil_r. reflexivity.
Qed.

(** [run] sets the flag and then, in its [finally], clears it. *)
Lemma run_writes : writes [true; false] run.
Proof.
  unfold run. apply writes_after_print.
  apply (writes_try_finally _ _ [true] [false]).
  - apply writes_try_interrupt.
    + apply writes_after_print. apply writes_then_quiet.
      * apply start_system_writes.
      * intros started. apply writes_quiet.
        destruct started; respects_structure; kept_side.
    + apply writes_quiet. respects_structure; kept_side.
    + intros e. apply writes_quiet. respects_structure; kept_side.
  - apply writes_after_print. apply stop_system_writes.
Qed.

(** What the dispatch of [main] writes, by mode. *)
Lemma dispatch_writes md w m :
  exists l,
    flags (snd (dispatch md w m)) = flags m ++ l /\
    match md with
    | ModeStart => l = [true; false]
    | ModeStop => l = [false]
    | ModeRestart => l = [false] \/ l = [false; true; false]
    end.
Proof.
  destruct md; cbn [dispatch].
  - exists [true; false]. split; [apply run_writes | reflexivity].
  - exists [false]. split; [apply stop_system_writes | reflexivity].
  - rewrite run_bind. pose proof (stop_system_writes w m) as Hs.
    destruct (stop_system w m) as [[u | e] m1]; cbn [snd] in Hs.
    + rewrite bind_ext.
      destruct (respond w (hist m1) (CallSleep (YInt 2))) as [v | e]; cbn [snd].
      * exists [false; true; false]. split; [| auto].
        rewrite run_writes, flags_add_event, Hs. cbn.
        rewrite app_nil_r, <- app_assoc. reflexivity.
      * exists [false]. split; [| auto].
        rewrite flags_add_event, Hs. cbn. rewrite app_nil_r. reflexivity.
    + exists [false]. split; [exact Hs | auto].
Qed.

(** [__init__] writes the flag once, to false, unless it raises before. *)
Lemma init_writes config_file w h :
  exists l,
    flag_writes (snd (DPISystem_init config_file w h)) = flag_writes h ++ l /\
    (l = [] \/ l = [false]) /\
    (forall o, fst (DPISystem_init config_file w h) = Ret o -> l = [false]).
Proof.
  unfold DPISystem_init, kbind.
  destruct (load_config LoggerUnset config_file w h) as [[cfg | e] h1] eqn:Hl.
  - assert (H1 : h1 = h).
    { unfold load_config in Hl. destruct (read_yaml w config_file); congruence. }
    subst h1.
    assert (Hs : exists d, snd (setup_logging cfg w h) = h ++ d /\ flag_writes d = []).
    { unfold setup_logging, kbind, klift, kext, kemit.
      destruct (dict_get cfg "logging" (YMap [])) as [lc | e];
        [| exists []; cbn; now rewrite app_nil_r].
      destruct (respond w h (CallMakedirs "logs")) as [v | e];
        [| eexists; cbn; split; [reflexivity | reflexivity]].
      destruct (dict_get lc "level" (YStr "INFO")) as [lv | e];
        [| eexists; cbn; split; [reflexivity | reflexivity]].
      destruct (dict_get lc "format" _) as [fm | e];
        [| eexists; cbn; split; [reflexivity | reflexivity]].
      destruct (dict_get lc "file" _) as [fl | e];
        [| eexists; cbn; split; [reflexivity | reflexivity]].
      destruct (respond w _ (CallLoggingSetup lv fm fl)) as [v' | e];
        eexists; cbn; rewrite <- ?app_assoc; (split; [reflexivity | reflexivity]). }
    destruct Hs as [d [Hd Hf]].
    destruct (setup_logging cfg w h) as [[u | e] h2]; cbn [snd] in Hd; subst h2.
    + unfold kemit, kext, klift.
      destruct (respond w _ CallNow) as [now | e]; cbn [fst snd];
        exists [false]; rewrite !flag_writes_app, Hf; cbn;
        rewrite ?app_nil_r;
        (split; [reflexivity | split; [auto | auto]]).
    + exists []. cbn [fst snd]. rewrite flag_writes_app, Hf.
      split; [reflexivity | split; [auto | intros; discriminate]].
  - exists []. cbn [fst snd].
    assert (H1 : h1 = h).
    { unfold load_config in Hl. destruct (read_yaml w config_file); congruence. }
    subst h1. rewrite app_nil_r.
    split; [reflexivity | split; [auto | intros; discriminate]].
Qed.

(** The flag histories of the program, one for each way [main] can go. *)
Lemma main_flag_history config_file md w :
  exists h,
    flag_writes (snd (main config_file md w)) = h /\
    (h = [] \/ h = [false] \/
     match md with
     | ModeStart => h = [false; true; false]
     | ModeStop => h = [false; false]
     | ModeRestart => h = [false; false] \/ h = [false; false; true; false]
     end).
Proof.
  unfold main, kbind at 1, kext at 1.
  destruct (respond w [] (CallSignal "SIGINT")) as [v1 | e1];
    [| exists []; split; [reflexivity | auto]].
  unfold kbind at 1, kext at 1.
  destruct (respond w _ (CallSignal "SIGTERM")) as [v2 | e2];
    [| exists []; split; [reflexivity | auto]].
  unfold kbind at 1.
  set (h2 := ([] ++ [EvCall (CallSignal "SIGINT") (Returned v1)])
               ++ [EvCall (CallSignal "SIGTERM") (Returned v2)]).
  destruct (init_writes config_file w h2) as [l [Hl [Hcase Hret]]].
  change (flag_writes h2) with (@nil bool) in Hl. cbn [app] in Hl.
  destruct (DPISystem_init config_file w h2) as [[o | e] h3]; cbn [fst snd] in *.
  - rewrite (Hret o eq_refl) in Hl.
    destruct (dispatch_writes md w {| obj := o; hist := h3 |}) as [l' [Hd Hmd]].
    unfold flags in Hd. cbn [hist] in Hd. rewrite Hl in Hd.
    eexists. split; [exact Hd |].
    right. right. destruct md; [subst l'; reflexivity | subst l'; reflexivity |].
    destruct Hmd as [-> | ->]; [left | right]; reflexivity.
  - exists l. split; [exact Hl |]. destruct Hcase as [-> | ->]; auto.
Qed.

Lemma nth_error_repeat_other (x y : bool) n i :
  nth_error (repeat x n) i = Some y -> y = x.
Proof. intros H. apply nth_error_In in H. apply repeat_spec in H. exact H. Qed.

(** In a history that settles, the flag is not true again after it has
    been true and then false. *)
Lemma settles_no_reset h :
  settles h ->
  forall i j k, (i < j)%nat -> (j < k)%nat ->
    nth_error h i = Some true -> nth_error h j = Some false ->
    nth_error h k <> Some true.
Proof.
  intros [a [b [c ->]]] i j k Hij Hjk Hi Hj Hk.
  assert (Hia : (a <= i)%nat).
  { destruct (Nat.le_gt_cases a i) as [H | H]; [exact H |].
    rewrite nth_error_app1 in Hi by (rewrite repeat_length; exact H).
    apply nth_error_repeat_other in Hi. discriminate Hi. }
  rewrite nth_error_app2 in Hj by (rewrite repeat_length; lia).
  rewrite nth_error_app2 in Hk by (rewrite repeat_length; lia).
  rewrite repeat_length in Hj, Hk.
  assert (Hjb : (b <= j - a)%nat).
  { destruct (Nat.le_gt_cases b (j - a)) as [H | H]; [exact H |].
    rewrite nth_error_app1 in Hj by (rewrite repeat_length; exact H).
    apply nth_error_repeat_other in Hj. discriminate Hj. }
  rewrite nth_error_app2 in Hk by (rewrite repeat_length; lia).
  apply nth_error_repeat_other in Hk. discriminate Hk.
Qed.

(** C7.  In every execution of [main], in each of its three modes and
    whatever the world answers, the values written to the flag of the one
    instance are a run of false, then a run of true, then a run of false:
    the flag goes from true to false at most once, and is never true again
    after it has been true and then false. *)
Theorem running_flag_never_reset config_file md w :
  let h := flag_writes (snd (main config_file md w)) in
  settles h /\
  (falls h <= 1)%nat /\
  (forall i j k, (i < j)%nat -> (j < k)%nat ->
     nth_error h i = Some true -> nth_error h j = Some false ->
     nth_error h k <> Some true).
Proof.
  intros h.
  assert (Hs : settles h /\ (falls h <= 1)%nat).
  { destruct (main_flag_history config_file md w) as [h' [Hh H]].
    fold h in Hh. rewrite Hh. clear Hh h.
    destruct H as [-> | [-> | H]].
    - split; [exists O, O, O; reflexivity | cbn; lia].
    - split; [exists 1%nat, O, O; reflexivity | cbn; lia].
    - destruct md.
      + rewrite H. split; [exists 1%nat, 1%nat, 1%nat; reflexivity | cbn; lia].
      + rewrite H. split; [exists 2%nat, O, O; reflexivity | cbn; lia].
      + destruct H as [-> | ->].
        * split; [exists 2%nat, O, O; reflexivity | cbn; lia].
        * split; [exists 2%nat, 1%nat, 1%nat; reflexivity | cbn; lia]. }
  destruct Hs as [Hs Hf]. split; [exact Hs |]. split; [exact Hf |].
  apply settles_no_reset. exact Hs.
Qed.

Lemma running_flag_never_reset_witness :
  nth_error (flag_writes (snd (main "config/dpi_config.yaml" ModeRestart numbering))) 4
  <> Some true.
Proof.
  apply (proj2 (proj2 (running_flag_never_reset "config/dpi_config.yaml"
                         ModeRestart numbering)) 2%nat 3%nat 4%nat).
  - lia.
  - lia.
  - vm_compute. reflexivity.
  - vm_compute. reflexivity.
Defined.

(** The restart mode of [main] writes false, false, true, false. *)
Remark restart_flag_history :
  flag_writes (snd (main "config/dpi_config.yaml" ModeRestart numbering))
  = [false; false; true; false].
Proof. vm_compute. reflexivity. Qed.

(** The class itself has no guard: the methods called by hand in an order
    [main] never uses set the flag again after it was cleared. *)
Remark start_after_stop_sets_flag_again :
  flag_writes
    (hist (perform_all [OpStartSystem; OpStopSystem; OpStartSystem] numbering
             (fresh_machine (YMap []))))
  = [true; false; true].
Proof. vm_compute. reflexivity. Qed.

(** * The delayed export *)

Lemma export_starts_app a b : export_starts (a ++ b) = export_starts a ++ export_starts b.
Proof. apply flat_map_app. Qed.

(** With its settings readable, [schedule_initial_export] asks for the
    export thread, once. *)
Lemma schedule_initial_export_run w m delay db_file :
  export_settings (config (obj m)) = Ret (delay, db_file) ->
  exists o,
    snd (schedule_initial_export w m)
    = add_event (EvCall (CallThreadStart (TgtExport delay db_file)) o) m.
Proof.
  unfold export_settings, schedule_initial_export. intros Hs.
  rewrite bind_get_obj. unfold lift, bind at 1.
  destruct (dict_get (config (obj m)) "export" (YMap [])) as [ex | e]; [| discriminate].
  unfold bind at 1.
  destruct (dict_get ex "initial_delay_seconds" (YInt 20)) as [dl | e]; [| discriminate].
  unfold bind at 1.
  destruct (dict_get (config (obj m)) "performance" (YMap [])) as [pf | e];
    [| discriminate].
  unfold bind at 1.
  destruct (dict_get pf "database" (YMap [])) as [dbs | e]; [| discriminate].
  unfold bind at 1.
  destruct (dict_get dbs "file" (YStr "logs/packets.db")) as [f | e]; [| discriminate].
  injection Hs as -> ->. rewrite bind_ext.
  destruct (respond w (hist m) (CallThreadStart (TgtExport delay db_file)));
    eexists; reflexivity.
Qed.

Ltac export_side :=
  intros; unfold kept, export_view, add_event, upd; cbn;
  rewrite ?export_starts_app; cbn; rewrite ?app_nil_r; reflexivity.

Lemma compile_keeps_export_view : respects (kept export_view) compile_p4_program.
Proof. respects_structure; export_side. Qed.

Lemma components_keep_export_view :
  respects (kept export_view) (run_components component_list).
Proof. respects_structure; export_side. Qed.

Lemma run_components_never_true w m b :
  fst (run_components component_list w m) = Ret (Some b) -> b = false.
Proof.
  destruct (run_components_transcript _ components_silent w m) as [l [_ [Hr _]]].
  rewrite Hr. destruct l; cbn; congruence.
Qed.

Lemma export_view_event e m :
  export_view (add_event e m)
  = (export_starts (hist m) ++ export_starts [e], config (obj m)).
Proof. unfold export_view, add_event; cbn. rewrite export_starts_app. reflexivity. Qed.

(** A startup that succeeds has asked for the export thread exactly once,
    with the settings of the configuration. *)
Lemma successful_start_schedules_once w m delay db_file :
  export_settings (config (obj m)) = Ret (delay, db_file) ->
  fst (start_system w m) = Ret true ->
  export_starts (emitted m (snd (start_system w m))) = [(delay, db_file)].
Proof.
  intros Hs Hr.
  destruct (start_system_grows w m) as [d [Hd _]].
  rewrite (emitted_app _ _ _ Hd).
  assert (Hv : export_starts (hist (snd (start_system w m)))
               = export_starts (hist m) ++ [(delay, db_file)]);
    [| rewrite Hd, export_starts_app in Hv; apply app_inv_head in Hv; exact Hv].
  clear d Hd. revert Hr. rewrite start_system_split.
  set (m1 := add_event (EvSetRunning true) _).
  assert (Hm1 : export_view m1 = (export_starts (hist m), config (obj m))).
  { subst m1. unfold export_view, add_event, upd; cbn.
    rewrite !export_starts_app. cbn. rewrite !app_nil_r. reflexivity. }
  unfold start_body. rewrite try_except_run, bind_print, (run_bind compile_p4_program).
  set (m2 := add_event (EvPrint "DEBUG: compiling P4...") m1).
  assert (Hm2 : export_view m2 = (export_starts (hist m), config (obj m))).
  { subst m2. rewrite export_view_event. cbn. rewrite app_nil_r. exact Hm1. }
  pose proof (compile_keeps_export_view w m2) as Hc. unfold kept in Hc.
  rewrite Hm2 in Hc.
  destruct (compile_p4_program w m2) as [[[|] | e] m3]; cbn [snd negb] in *.
  - rewrite bind_print, (run_bind (run_components component_list)).
    set (m4 := add_event (EvPrint "DEBUG: compile OK") m3).
    assert (Hm4 : export_view m4 = (export_starts (hist m), config (obj m))).
    { subst m4. rewrite export_view_event. cbn. rewrite app_nil_r. exact Hc. }
    pose proof (components_keep_export_view w m4) as Hl. unfold kept in Hl.
    rewrite Hm4 in Hl.
    pose proof (run_components_never_true w m4) as Hnt.
    destruct (run_components component_list w m4) as [[[b |] | e] m5];
      cbn [fst snd] in *.
    + rewrite (Hnt b eq_refl). unfold ret. cbn. discriminate.
    + rewrite (run_bind (try_except _ _)), try_except_run.
      unfold export_view in Hl. injection Hl as Hstarts Hcfg.
      rewrite <- Hcfg in Hs.
      destruct (schedule_initial_export_run w m5 delay db_file Hs) as [o Ho].
      destruct (schedule_initial_export w m5) as [[u | e] m6]; cbn [snd] in Ho;
        subst m6.
      * rewrite bind_print, bind_log. unfold ret. cbn [fst snd]. intros _.
        unfold add_event; cbn. rewrite !export_starts_app, Hstarts. cbn.
        rewrite !app_nil_r. reflexivity.
      * destruct e as [c t | |]; cbn [is_Exception];
          [| cbn; discriminate | cbn; discriminate].
        unfold log at 1, emit. cbn [fst snd].
        rewrite bind_print, bind_log. unfold ret. cbn [fst snd]. intros _.
        unfold add_event; cbn. rewrite !export_starts_app, Hstarts. cbn.
        rewrite !app_nil_r. reflexivity.
    + destruct e as [c t | |]; cbn [is_Exception];
        [| cbn; discriminate | cbn; discriminate].
      rewrite bind_print, bind_log. unfold ret. cbn. discriminate.
  - rewrite bind_print, bind_log. unfold ret. cbn. discriminate.
  - destruct e as [c t | |]; cbn [is_Exception];
      [| cbn; discriminate | cbn; discriminate].
    rewrite bind_print, bind_log. unfold ret. cbn. discriminate.
Qed.

Lemma emitted_extend m d : emitted m (extend m d) = d.
Proof. apply emitted_app. reflexivity. Qed.

Lemma add_event_on_extend e m d : add_event e (extend m d) = extend m (d ++ [e]).
Proof. unfold add_event, extend; cbn. rewrite app_assoc. reflexivity. Qed.

Lemma emitted_same m : emitted m m = [].
Proof. apply skipn_all. Qed.

(** Turns a machine built from [m] by added events into [extend m d]. *)
Ltac as_extension m :=
  rewrite ?(add_event_extend _ m), ?add_event_on_extend; cbn [app].

(** The export thread invokes the export command at most once, and only
    after a completed sleep of [max(1, int(delay))] seconds. *)
Lemma export_thread_trace w m delay db_file :
  let d := emitted m (snd (export_after_delay delay db_file w m)) in
  (length (filter is_export (calls d)) <= 1)%nat /\
  forall s, slept_before_export d = Some s ->
            exists i, py_int (int_of_text w) delay = Ret i /\ s = Z.max 1 i.
Proof.
  unfold export_after_delay. rewrite try_except_run, run_bind. unfold ask_int.
  destruct (py_int (int_of_text w) delay) as [i | e].
  - rewrite bind_ext.
    destruct (respond w (hist m) (CallSleep (YInt (Z.max 1 i)))) as [v | e].
    + destruct db_file as [| b | z | f | file | l | mp];
        try (unfold raise; cbn [is_Exception TypeError];
             unfold log, emit; cbn [snd]; as_extension m;
             rewrite emitted_extend; cbn; split; [lia | intros s Hs; discriminate Hs]).
      rewrite bind_ext.
      destruct (respond w _ (CallExport _)) as [v' | e].
      * unfold log, emit. cbn [snd]. as_extension m.
        rewrite emitted_extend. cbn. split; [lia |].
        intros s Hs. injection Hs as <-. exists i. split; [reflexivity | lia].
      * destruct e as [c t | |]; cbn [is_Exception]; unfold log, emit; cbn [snd];
          as_extension m; rewrite emitted_extend; cbn;
          (split; [lia |]); intros s Hs; injection Hs as <-;
          exists i; (split; [reflexivity | lia]).
    + destruct e as [c t | |]; cbn [is_Exception]; unfold log, emit; cbn [snd];
        as_extension m; rewrite emitted_extend; cbn; (split; [lia | intros s Hs; discriminate Hs]).
  - destruct e as [c t | |]; cbn [is_Exception]; unfold log, emit; cbn [snd].
    + as_extension m. rewrite emitted_extend. cbn. split; [lia | intros s Hs; discriminate Hs].
    + rewrite !emitted_same. cbn. split; [lia | intros s Hs; discriminate Hs].
    + rewrite !emitted_same. cbn. split; [lia | intros s Hs; discriminate Hs].
Qed.

(** C6 fails for a delay that is not a whole number: configured as 2.5
    seconds, the export command is invoked after a sleep of 2 seconds. *)
Lemma export_never_early_fails :
  ~ export_never_early calm_world (fresh_machine (YMap []))
      (YFloat (FFinite (5 # 2))) (YStr "logs/packets.db").
Proof.
  intros H. destruct (H (5 # 2) 2%Z eq_refl eq_refl) as [_ Hq].
  unfold Qle in Hq. cbn in Hq. lia.
Qed.

(** C6, amended.
    - A startup that succeeds, on a configuration whose export settings can
      be read, has requested the start of the export thread exactly once,
      with the configured delay and database path.
    - The export thread invokes the export command at most once, and only
      after a completed sleep of [max(1, int(delay))] seconds, [int]
      truncating toward zero; when [int] rejects the delay, never.
    - So for a delay that is an integer the command is not invoked before
      [max(1, delay)] seconds. *)
Theorem delayed_export_once_after_delay w :
  (forall m delay db_file,
      export_settings (config (obj m)) = Ret (delay, db_file) ->
      fst (start_system w m) = Ret true ->
      export_starts (emitted m (snd (start_system w m))) = [(delay, db_file)]) /\
  (forall m delay db_file,
      let d := emitted m (snd (export_after_delay delay db_file w m)) in
      (length (filter is_export (calls d)) <= 1)%nat /\
      forall s, slept_before_export d = Some s ->
                exists i, py_int (int_of_text w) delay = Ret i /\ s = Z.max 1 i) /\
  (forall m z db_file s,
      slept_before_export (emitted m (snd (export_after_delay (YInt z) db_file w m)))
      = Some s ->
      s = Z.max 1 z).
Proof.
  split; [| split].
  - intros m delay db_file. apply successful_start_schedules_once.
  - intros m delay db_file. apply export_thread_trace.
  - intros m z db_file s Hs.
    destruct (export_thread_trace w m (YInt z) db_file) as [_ H].
    destruct (H s Hs) as [i [Hi ->]]. cbn in Hi. injection Hi as <-. reflexivity.
Qed.

Lemma delayed_export_once_after_delay_witness :
  export_starts (emitted (fresh_machine (YMap []))
                   (snd (start_system numbering (fresh_machine (YMap [])))))
  = [(YInt 20, YStr "logs/packets.db")] /\
  20 = Z.max 1 20.
Proof.
  split.
  - apply (proj1 (delayed_export_once_after_delay numbering)).
    + reflexivity.
    + vm_compute. reflexivity.
  - apply (proj2 (proj2 (delayed_export_once_after_delay calm_world))
             (fresh_machine (YMap [])) 20 (YStr "logs/packets.db")).
    vm_compute. reflexivity.
Defined.

(** * More of the orchestrator *)

(** ** Exceptions that cannot leave a method *)

Lemma contained_try_except {A} (body : M A) handler :
  (forall e, contained (handler e)) -> contained (try_except body handler).
Proof.
  intros Hh w m cls msg. rewrite try_except_run.
  destruct (body w m) as [[a | e] m1]; cbn [fst]; [discriminate |].
  destruct e as [c t | |]; cbn [is_Exception].
  - apply Hh.
  - cbn. discriminate.
  - cbn. discriminate.
Qed.

Lemma contained_bind {A B} (c : M A) (f : A -> M B) :
  contained c -> (forall a, contained (f a)) -> contained (bind c f).
Proof.
  intros Hc Hf w m cls msg. rewrite run_bind. specialize (Hc w m cls msg).
  destruct (c w m) as [[a | e] m1]; cbn [fst] in *.
  - apply Hf.
  - intros H. apply Hc. injection H as ->. reflexivity.
Qed.

Lemma contained_ret {A} (a : A) : contained (ret a).
Proof. intros w m cls msg. cbn. discriminate. Qed.

Lemma contained_emit e : contained (emit e).
Proof. intros w m cls msg. cbn. discriminate. Qed.

Lemma contained_get_obj : contained get_obj.
Proof. intros w m cls msg. cbn. discriminate. Qed.

Lemma contained_update f : contained (update f).
Proof. intros w m cls msg. cbn. discriminate. Qed.

Lemma contained_try_interrupt {A} (body on_interrupt : M A) on_exception :
  contained on_interrupt -> (forall e, contained (on_exception e)) ->
  contained (try_interrupt body on_interrupt on_exception).
Proof.
  intros Hi He w m cls msg. unfold try_interrupt.
  destruct (body w m) as [[a | [c t | |]] m1]; cbn [fst]; try discriminate.
  - apply He.
  - apply Hi.
Qed.

Lemma contained_try_finally {A} (body : M A) fin :
  contained body -> contained fin -> contained (try_finally body fin).
Proof.
  intros Hb Hf w m cls msg. unfold try_finally.
  specialize (Hb w m cls msg). destruct (body w m) as [r m1]; cbn [fst] in Hb.
  specialize (Hf w m1 cls msg). destruct (fin w m1) as [[u | e] m2]; cbn [fst] in *.
  - exact Hb.
  - intros H. apply Hf. injection H as ->. reflexivity.
Qed.

(** A handler that logs and answers is contained. *)
Ltac contained_handler :=
  intros;
  repeat first
    [ apply contained_ret
    | apply contained_emit
    | apply contained_get_obj
    | apply contained_update
    | apply contained_bind; [| intros]
    | progress unfold log, set_running ].

Lemma contained_monitor_system ticks : contained (monitor_system ticks).
Proof.
  induction ticks as [| n IH]; cbn [monitor_system].
  - apply contained_ret.
  - apply contained_bind; [apply contained_get_obj | intros o].
    destruct (running o); [| apply contained_ret].
    apply contained_bind; [| intros; exact IH].
    unfold monitor_tick. apply contained_try_except. contained_handler.
Qed.

Lemma contained_stop_system : contained stop_system.
Proof.
  unfold stop_system. contained_handler.
  apply contained_try_except. contained_handler.
Qed.

(** ** Where an exception can get out *)

Lemma print_io_quiet s : print_io quiet s = print s.
Proof. reflexivity. Qed.

Lemma run_components_io_quiet cs : run_components_io quiet cs = run_components cs.
Proof.
  induction cs as [| [name act] rest IH]; [reflexivity |].
  cbn [run_components_io run_components]. rewrite IH. reflexivity.
Qed.

(** With the console that never fails, the methods are those of the
    program above. *)
Lemma start_system_io_quiet : start_system_io quiet = start_system.
Proof.
  unfold start_system_io, start_system. rewrite run_components_io_quiet. reflexivity.
Qed.

Lemma run_io_quiet : run_io quiet = run.
Proof.
  unfold run_io, run_body_io, run. rewrite start_system_io_quiet. reflexivity.
Qed.

Lemma leaks_contained con P {A} (c : M A) : contained c -> leaks con P c.
Proof. intros Hc w m cls msg H. destruct (Hc w m cls msg H). Qed.

Lemma leaks_print con (P : string -> Prop) s : P s -> leaks con P (print_io con s).
Proof.
  intros Hs w m cls msg. unfold print_io.
  destruct (con (hist m) s) as [e |] eqn:Hcon; cbn [fst]; [| discriminate].
  intros H. injection H as ->. exists (hist m), s. auto.
Qed.

Lemma leaks_bind con P {A B} (c : M A) (f : A -> M B) :
  leaks con P c -> (forall a, leaks con P (f a)) -> leaks con P (bind c f).
Proof.
  intros Hc Hf w m cls msg. rewrite run_bind. specialize (Hc w m cls msg).
  destruct (c w m) as [[a | e] m1]; cbn [fst] in *.
  - apply Hf.
  - intros H. apply Hc. injection H as ->. reflexivity.
Qed.

Lemma leaks_try_except con P {A} (body : M A) handler :
  (forall e, leaks con P (handler e)) -> leaks con P (try_except body handler).
Proof.
  intros Hh w m cls msg. rewrite try_except_run.
  destruct (body w m) as [[a | e] m1]; cbn [fst]; [discriminate |].
  destruct e as [c t | |]; cbn [is_Exception].
  - apply Hh.
  - cbn. discriminate.
  - cbn. discriminate.
Qed.

Lemma leaks_try_interrupt con P {A} (body on_interrupt : M A) on_exception :
  leaks con P on_interrupt -> (forall e, leaks con P (on_exception e)) ->
  leaks con P (try_interrupt body on_interrupt on_exception).
Proof.
  intros Hi He w m cls msg. unfold try_interrupt.
  destruct (body w m) as [[a | [c t | |]] m1]; cbn [fst]; try discriminate.
  - apply He.
  - apply Hi.
Qed.

Lemma leaks_try_finally con P {A} (body : M A) fin :
  leaks con P body -> leaks con P fin -> leaks con P (try_finally body fin).
Proof.
  intros Hb Hf w m cls msg. unfold try_finally.
  specialize (Hb w m cls msg). destruct (body w m) as [r m1]; cbn [fst] in Hb.
  specialize (Hf w m1 cls msg). destruct (fin w m1) as [[u | e] m2]; cbn [fst] in *.
  - exact Hb.
  - intros H. apply Hf. injection H as ->. reflexivity.
Qed.

(** X1.  Where an exception of the class [Exception] can get out.  The
    compilation step, each of the six startup actions, [stop_system], the
    monitoring loop and the export thread never let one out: each has a
    handler around all that can raise, and the handler only logs.
    [start_system] and [run] print outside their handlers: an exception
    can leave [start_system] only out of the print of its first line or of
    the line of its own handler, and [run] only out of the print of its
    first line, of the line of one of its two handlers or of the line of
    its [finally].  With a console that is gone it does leave both. *)
Theorem exceptions_escape_only_through_print :
  contained compile_p4_program /\
  Forall (fun c => contained (snd c)) component_list /\
  contained stop_system /\
  (forall ticks, contained (monitor_system ticks)) /\
  (forall delay db_file, contained (export_after_delay delay db_file)) /\
  (forall con, leaks con start_system_prints (start_system_io con)) /\
  (forall con, leaks con run_prints (run_io con)) /\
  (forall w m, exists e, is_Exception e = true /\
                         fst (start_system_io broken_pipe w m) = Exc e) /\
  (forall w m, exists e, is_Exception e = true /\
                         fst (run_io broken_pipe w m) = Exc e).
Proof.
  split; [| split; [| split; [| split; [| split; [| split; [| split; [| split]]]]]]].
  - unfold compile_p4_program. contained_handler.
    apply contained_try_except. contained_handler.
  - repeat constructor; cbn [snd];
      autounfold with orchestrator; contained_handler;
      apply contained_try_except; contained_handler.
  - exact contained_stop_system.
  - exact contained_monitor_system.
  - intros delay db_file. unfold export_after_delay.
    apply contained_try_except. contained_handler.
  - intros con. unfold start_system_io.
    apply leaks_bind; [apply leaks_print; left; reflexivity | intros _].
    apply leaks_bind; [apply leaks_contained; contained_handler | intros _].
    apply leaks_bind; [apply leaks_contained; contained_handler | intros _].
    apply leaks_try_except. intros e.
    apply leaks_bind; [apply leaks_print; right; exists e; reflexivity | intros _].
    apply leaks_contained. contained_handler.
  - intros con. unfold run_io.
    apply leaks_bind; [apply leaks_print; left; reflexivity | intros _].
    apply leaks_try_finally.
    + unfold run_body_io. apply leaks_try_interrupt.
      * apply leaks_bind; [apply leaks_print; right; left; reflexivity | intros _].
        apply leaks_contained. contained_handler.
      * intros e.
        apply leaks_bind;
          [apply leaks_print; right; right; left; exists e; reflexivity | intros _].
        apply leaks_contained. contained_handler.
    + apply leaks_bind; [apply leaks_print; right; right; right; reflexivity | intros _].
      apply leaks_contained, contained_stop_system.
  - intros w m. eexists. split; [| reflexivity]. reflexivity.
  - intros w m. eexists. split; [| reflexivity]. reflexivity.
Qed.

(** ** The compilation step *)

Lemma hist_upd f m : hist (upd f m) = hist m.
Proof. reflexivity. Qed.

(** Rewrites [emitted m m'], for [m'] built from [m] by events and updates,
    into the list of the events added. *)
Ltac emitted_norm :=
  repeat match goal with
  | |- context [emitted ?m ?m'] =>
      let H := fresh "Hemitted" in
      eassert (H : hist m' = hist m ++ _)
        by (cbn [hist add_event upd extend]; rewrite <- ?app_assoc; cbn [app];
            reflexivity);
      rewrite (emitted_app m m' _ H); clear H
  end.

(** Splits a membership in an explicit list into its cases, leaving those
    that are not plainly absurd. *)
Ltac in_cases H :=
  cbn [In] in H;
  repeat match type of H with
  | _ \/ _ => destruct H as [H | H]; [try discriminate H |]
  | False => destruct H
  end.

Lemma bind_bind {A B C} (c : M A) (f : A -> M B) (g : B -> M C) w m :
  bind (bind c f) g w m = bind c (fun a => bind (f a) g) w m.
Proof. unfold bind. destruct (c w m) as [[a | e] m1]; reflexivity. Qed.

(** Runs a straight piece of code, splitting on every answer of the world
    and on every test of a return code. *)
Ltac explore :=
  repeat first
    [ rewrite bind_bind
    | rewrite bind_ext
    | rewrite bind_log
    | rewrite bind_print
    | rewrite bind_ret
    | rewrite bind_update
    | rewrite bind_get_obj
    | rewrite try_except_run
    | rewrite run_bind
    | match goal with
      | |- context [match respond ?w ?h ?c with _ => _ end] =>
          destruct (respond w h c) as [? | ?]
      | |- context [negb (?x =? 0)%Z] =>
          destruct (Z.eqb_spec x 0) as [-> | ?]; cbn [negb]
      | |- context [is_Exception ?e] =>
          is_var e; destruct e as [? ? | |]; cbn [is_Exception]
      end
    | progress unfold ret, log, emit
    | progress cbn [fst snd] ].

Ltac solve_in := cbn; tauto.

Ltac refute H := cbn in H; in_cases H; try congruence.

(** X2.  The compilation step leaves the instance as it is.  It answers
    true exactly when the probe and the compiler both came back with code
    0 and no call raised; it runs the compiler only after the probe came
    back with 0; and it moves the JSON the compiler wrote exactly when
    that file exists. *)
Theorem compile_p4_program_outcome w m :
  let r := compile_p4_program w m in
  let added := emitted m (snd r) in
  obj (snd r) = obj m /\
  (fst r = Ret true <->
   In (EvCall CallP4cVersion (Returned 0)) added /\
   In (EvCall (CallP4cCompile compile_cmd) (Returned 0)) added /\
   forall c e, ~ In (EvCall c (Raised e)) added) /\
  (In (CallP4cCompile compile_cmd) (calls added) ->
   In (EvCall CallP4cVersion (Returned 0)) added) /\
  (In (CallMove "dpi_l2_l4.json" json_file) (calls added) <->
   exists v, v <> 0 /\
             In (EvCall (CallPathExists "dpi_l2_l4.json") (Returned v)) added).
Proof.
  unfold compile_p4_program. explore.
  all: cbn zeta; emitted_norm.
  all: split; [reflexivity |].
  all: split;
    [ split;
      [ intros Hr;
        first [ discriminate Hr
              | split; [solve_in | split; [solve_in | intros c e Hin; refute Hin]] ]
      | intros [H1 [H2 H3]];
        first [ reflexivity
              | exfalso;
                first [ solve [refute H1] | solve [refute H2]
                      | solve [eapply H3; cbn; eauto 12] ] ] ]
    | ].
  all: split; [intros Hin; first [solve [refute Hin] | solve_in] |].
  all: split;
    [ intros Hin;
      first [ solve [refute Hin] | eexists; split; [eassumption | solve_in] ]
    | intros [v' [Hv Hin]]; first [solve [refute Hin] | solve_in] ].
Qed.

(** ** The startup actions *)

(** X3.  In the topology action the start of the built-in traffic is best
    effort: when it raises an exception the action logs a warning and still
    answers success.  The reference to the topology is held as soon as its
    constructor has returned, also when the action then fails; and a
    successful action has recorded exactly one more thread, the one that
    brings the topology up. *)
Theorem start_mininet_topology_outcome w m :
  let r := start_mininet_topology w m in
  let added := emitted m (snd r) in
  (forall t e,
      In (EvCall (CallTopologyStartTraffic t) (Raised e)) added ->
      is_Exception e = true ->
      fst r = Ret true /\
      In (EvLog Warning ("Could not start built-in Mininet traffic: " ++ exn_text e))
         added) /\
  (forall t,
      In (EvCall CallNewTopology (Returned t)) added ->
      topology (obj (snd r)) = Some t) /\
  (fst r = Ret true ->
   exists t tid,
     topology (obj (snd r)) = Some t /\
     threads (obj (snd r))
     = threads (obj m) ++ [{| target := TgtCreateTopology t; ident := tid |}]).
Proof.
  unfold start_mininet_topology. explore.
  all: cbn zeta; emitted_norm.
  all: split;
    [ intros t e' Hin He; refute Hin;
      (match goal with
       | H : EvCall _ (Raised _) = EvCall _ (Raised _) |- _ =>
           injection H as <- <-; try discriminate He
       end);
      (split; [reflexivity | solve_in])
    | split;
      [ intros t Hin; refute Hin;
        (match goal with
         | H : EvCall _ (Returned _) = EvCall _ (Returned _) |- _ =>
             injection H as <-
         end); reflexivity
      | intros Hres; try discriminate Hres;
        (eexists; eexists; split; reflexivity) ] ].
Qed.

(** ** The controller workers *)

Lemma launches_app a b : launches (a ++ b) = launches a ++ launches b.
Proof. apply flat_map_app. Qed.

Lemma lookup_dict_set_same {V} key (v : V) d : lookup key (dict_set key v d) = Some v.
Proof.
  induction d as [| [k v0] rest IH]; cbn.
  - rewrite String.eqb_refl. reflexivity.
  - destruct (String.eqb k key) eqn:Hk; cbn; rewrite Hk; [reflexivity | exact IH].
Qed.

Lemma lookup_dict_set_other {V} key key' (v : V) d :
  key' <> key -> lookup key' (dict_set key v d) = lookup key' d.
Proof.
  intros Hne. induction d as [| [k v0] rest IH]; cbn.
  - destruct (String.eqb_spec key key'); [congruence | reflexivity].
  - destruct (String.eqb_spec k key) as [-> | Hk]; cbn.
    + destruct (String.eqb_spec key key'); [congruence | reflexivity].
    + destruct (String.eqb k key'); [reflexivity | exact IH].
Qed.

Lemma find_in_app {X} (f : X -> bool) a b :
  find f (a ++ b) = match find f a with Some x => Some x | None => find f b end.
Proof.
  induction a as [| x a IH]; cbn; [reflexivity |].
  destruct (f x); [reflexivity | exact IH].
Qed.

(** After a run of assignments a key holds the value of the last
    assignment to it, or what it held before. *)
Lemma lookup_dict_set_all {V} key (pairs : list (string * V)) d :
  lookup key (dict_set_all pairs d)
  = match find (fun kv => String.eqb (fst kv) key) (rev pairs) with
    | Some kv => Some (snd kv)
    | None => lookup key d
    end.
Proof.
  revert d. induction pairs as [| [k v] rest IH]; intros d; [reflexivity |].
  cbn [dict_set_all fold_left fst snd rev].
  change (fold_left _ rest (dict_set k v d)) with (dict_set_all rest (dict_set k v d)).
  rewrite IH, find_in_app.
  destruct (find _ (rev rest)) as [kv |]; [reflexivity |].
  cbn [find fst snd]. destruct (String.eqb_spec k key) as [-> | Hk].
  - apply lookup_dict_set_same.
  - apply lookup_dict_set_other. congruence.
Qed.

(** The one exception [get] raises: the value has no such method. *)
Lemma dict_get_raises d key default e :
  dict_get d key default = Exc e ->
  e = AttributeError "object has no attribute 'get'".
Proof.
  unfold dict_get. destruct d; try (intros H; injection H as <-; reflexivity).
  destruct (assoc key m); discriminate.
Qed.

(** What launching the worker of a well-formed entry does. *)
Lemma launch_worker_run sw n cmd w m :
  worker_of sw = Some (n, cmd) ->
  launch_worker sw w m
  = match respond w (hist m) (CallPopen cmd) with
    | Returned p =>
        (Ret tt,
         add_event (EvLog Info ("Launched controller worker for " ++ n))
           (upd (set_process ("p4c_" ++ n) p)
              (add_event (EvCall (CallPopen cmd) (Returned p)) m)))
    | Raised e => (Exc e, add_event (EvCall (CallPopen cmd) (Raised e)) m)
    end.
Proof.
  unfold worker_of, launch_worker. intros H. unfold lift.
  rewrite run_bind.
  destruct (dict_get sw "name" (YStr "s1")) as [[| | | | name | |] |]; try discriminate H.
  rewrite run_bind.
  destruct (dict_get sw "device_id" (YInt 1)) as [dev |]; try discriminate H.
  rewrite run_bind.
  destruct (dict_get sw "grpc_port" (YInt 50051)) as [port |]; try discriminate H.
  rewrite run_bind.
  destruct (dict_get sw "p4info_file" (YStr p4info_file)) as [[| | | | p | |] |];
    try discriminate H.
  rewrite run_bind.
  destruct (dict_get sw "runtime_json_file" (YStr json_file)) as [[| | | | j | |] |];
    try discriminate H.
  injection H as <- <-. rewrite bind_ext.
  destruct (respond w (hist m) _); reflexivity.
Qed.

(** An entry that is not well formed makes the launch raise, before any
    process is started. *)
Lemma launch_worker_malformed sw w m :
  worker_of sw = None ->
  exists cls msg, launch_worker sw w m = (Exc (PyException cls msg), m).
Proof.
  unfold worker_of, launch_worker. intros H. unfold lift.
  rewrite run_bind.
  destruct (dict_get sw "name" (YStr "s1")) as [name |] eqn:E1;
    [| apply dict_get_raises in E1; subst; eexists; eexists; reflexivity].
  rewrite run_bind.
  destruct (dict_get sw "device_id" (YInt 1)) as [dev |] eqn:E2;
    [| apply dict_get_raises in E2; subst; eexists; eexists; reflexivity].
  rewrite run_bind.
  destruct (dict_get sw "grpc_port" (YInt 50051)) as [port |] eqn:E3;
    [| apply dict_get_raises in E3; subst; eexists; eexists; reflexivity].
  rewrite run_bind.
  destruct (dict_get sw "p4info_file" (YStr p4info_file)) as [p |] eqn:E4;
    [| apply dict_get_raises in E4; subst; eexists; eexists; reflexivity].
  rewrite run_bind.
  destruct (dict_get sw "runtime_json_file" (YStr json_file)) as [j |] eqn:E5;
    [| apply dict_get_raises in E5; subst; eexists; eexists; reflexivity].
  destruct name, p, j; try discriminate H; eexists; eexists; reflexivity.
Qed.

Lemma with_processes_same o : with_processes (processes o) o = o.
Proof. destruct o; reflexivity. Qed.

(** The loop over the switches launches the workers of a well-formed
    prefix one after the other and registers each. *)
Lemma launch_prefix w good rest m :
  answers w is_popen -> Forall well_formed good ->
  exists pids d m',
    length pids = length good /\
    for_each (good ++ rest) launch_worker w m = for_each rest launch_worker w m' /\
    hist m' = hist m ++ d /\
    obj m' = with_processes
               (dict_set_all (combine (map worker_key (workers good)) pids)
                  (processes (obj m)))
               (obj m) /\
    launches d = combine (map snd (workers good)) pids /\
    calls d = map CallPopen (map snd (workers good)).
Proof.
  intros Hw Hgood. revert m.
  induction Hgood as [| sw good Hsw _ IH]; intros m.
  - exists [], [], m. cbn. rewrite app_nil_r, with_processes_same. repeat split.
  - unfold well_formed in Hsw.
    destruct (worker_of sw) as [[n cmd] |] eqn:Hwk; [| congruence].
    cbn [app for_each]. rewrite run_bind, (launch_worker_run sw n cmd w m Hwk).
    destruct (Hw (hist m) (CallPopen cmd) eq_refl) as [p ->].
    set (m1 := add_event _ (upd _ (add_event _ m))).
    destruct (IH m1) as [pids [d [m' [Hlen [Hrun [Hh [Ho [Hl Hc]]]]]]]].
    exists (p :: pids),
      ([EvCall (CallPopen cmd) (Returned p);
        EvLog Info ("Launched controller worker for " ++ n)] ++ d), m'.
    assert (Hws : workers (sw :: good) = (n, cmd) :: workers good).
    { unfold workers. cbn [flat_map]. rewrite Hwk. reflexivity. }
    rewrite Hws. cbn [map combine fst snd length].
    split; [congruence |]. split; [exact Hrun |]. split.
    { rewrite Hh. subst m1. unfold add_event, upd; cbn.
      rewrite <- !app_assoc. reflexivity. }
    split.
    { rewrite Ho. subst m1. reflexivity. }
    split.
    { rewrite launches_app, Hl. reflexivity. }
    rewrite calls_app, Hc. reflexivity.
Qed.

(** X4.  A configuration without switches is no error.  When [switches] is
    absent, empty or otherwise false, the controller action logs a warning
    and answers success; it launches nothing and leaves the instance,
    its registry included, as it is. *)
Theorem start_p4_controller_without_switches w m switches :
  dict_get (config (obj m)) "switches" (YList []) = Ret switches ->
  py_truthy switches = false ->
  start_p4_controller w m
  = (Ret true,
     extend m [EvLog Info "Starting P4 controllers (one per switch)...";
               EvLog Warning "No switches defined in config"]).
Proof.
  intros Hs Ht. unfold start_p4_controller.
  rewrite bind_log, try_except_run, bind_get_obj. unfold lift.
  rewrite run_bind. cbn [obj add_event]. rewrite Hs, Ht. cbn [negb].
  rewrite bind_log. unfold ret, add_event, extend; cbn.
  rewrite <- app_assoc. reflexivity.
Qed.

Lemma start_p4_controller_without_switches_witness :
  fst (start_p4_controller calm_world (fresh_machine (YMap []))) = Ret true /\
  processes (obj (snd (start_p4_controller calm_world (fresh_machine (YMap []))))) = [].
Proof.
  rewrite (start_p4_controller_without_switches calm_world (fresh_machine (YMap []))
             (YList []) eq_refl eq_refl).
  split; reflexivity.
Defined.

(** The run of the controller action over well-formed entries. *)
Lemma start_p4_controller_run w m sws :
  dict_get (config (obj m)) "switches" (YList []) = Ret (YList sws) ->
  sws <> [] -> Forall well_formed sws ->
  answers w is_popen -> answers w is_sleep ->
  exists (pids : list process) d,
    length pids = length sws /\
    start_p4_controller w m
    = (Ret true,
       {| obj := with_processes
                   (dict_set_all (combine (map worker_key (workers sws)) pids)
                      (processes (obj m)))
                   (obj m);
          hist := hist m ++ d |}) /\
    launches d = combine (map snd (workers sws)) pids.
Proof.
  intros Hs Hne Hwf Hp Hsl. unfold start_p4_controller.
  rewrite bind_log, try_except_run, bind_get_obj. unfold lift.
  rewrite run_bind. cbn [obj add_event]. rewrite Hs.
  assert (Ht : py_truthy (YList sws) = true) by (destruct sws; [congruence | reflexivity]).
  rewrite Ht. cbn [negb py_iter]. rewrite run_bind, run_bind.
  destruct (launch_prefix w sws []
              (add_event (EvLog Info "Starting P4 controllers (one per switch)...") m)
              Hp Hwf)
    as [pids [d [m' [Hlen [Hrun [Hh [Ho [Hl _]]]]]]]].
  rewrite app_nil_r in Hrun.
  change (for_each [] launch_worker w m') with (@Ret unit tt, m') in Hrun.
  rewrite Hrun. cbn beta iota. rewrite bind_ext.
  destruct (Hsl (hist m') (CallSleep (YInt 3)) eq_refl) as [v ->].
  rewrite bind_log. unfold ret. cbn [fst snd].
  exists pids,
    ([EvLog Info "Starting P4 controllers (one per switch)..."]
     ++ d ++ [EvCall (CallSleep (YInt 3)) (Returned v);
              EvLog Info "All P4 controller workers launched"]).
  split; [exact Hlen |]. split.
  - unfold add_event. cbn [obj hist]. cbn [obj hist add_event] in Hh, Ho.
    rewrite Hh, Ho, <- !app_assoc. reflexivity.
  - rewrite !launches_app, Hl. cbn [launches flat_map app].
    rewrite app_nil_r. reflexivity.
Qed.

(** X5.  With a non-empty list of well-formed switch entries, and [Popen]
    and the pause answering, the controller action answers success after
    launching one worker per entry, in the order of the list, each with
    the command line made of its own entry; the registry is the one before
    with, for each entry in turn, the key p4c_<name> assigned the process
    launched for it, and nothing else of the instance changes.  So a key
    ends up holding the process of the last entry of that name. *)
Theorem start_p4_controller_launches_all w m sws :
  dict_get (config (obj m)) "switches" (YList []) = Ret (YList sws) ->
  sws <> [] -> Forall well_formed sws ->
  answers w is_popen -> answers w is_sleep ->
  let r := start_p4_controller w m in
  exists pids,
    length pids = length sws /\
    fst r = Ret true /\
    launches (emitted m (snd r)) = combine (map snd (workers sws)) pids /\
    obj (snd r)
    = with_processes
        (dict_set_all (combine (map worker_key (workers sws)) pids)
           (processes (obj m)))
        (obj m) /\
    forall key,
      lookup key (processes (obj (snd r)))
      = match find (fun kv => String.eqb (fst kv) key)
                (rev (combine (map worker_key (workers sws)) pids)) with
        | Some kv => Some (snd kv)
        | None => lookup key (processes (obj m))
        end.
Proof.
  intros Hs Hne Hwf Hp Hsl r. subst r.
  destruct (start_p4_controller_run w m sws Hs Hne Hwf Hp Hsl)
    as [pids [d [Hlen [-> Hl]]]].
  exists pids. cbn [fst snd obj].
  split; [exact Hlen |]. split; [reflexivity |].
  split; [unfold emitted; cbn [hist]; rewrite skipn_app, skipn_all, Nat.sub_diag; exact Hl |].
  split; [reflexivity |].
  intros key. cbn [processes with_processes]. apply lookup_dict_set_all.
Qed.

Lemma start_p4_controller_launches_all_witness :
  exists pids : list process,
    length pids = 2%nat /\
    fst (start_p4_controller numbering (fresh_machine two_switches)) = Ret true.
Proof.
  destruct (start_p4_controller_launches_all numbering (fresh_machine two_switches)
              [YMap [("name", YStr "s1"); ("device_id", YInt 1);
                     ("grpc_port", YInt 50051)];
               YMap [("name", YStr "s2"); ("device_id", YInt 2);
                     ("grpc_port", YInt 50052)]]
              eq_refl
              ltac:(discriminate)
              ltac:(repeat constructor; unfold well_formed; vm_compute; discriminate)
              (numbering_answers _) (numbering_answers _))
    as [pids [Hlen [Hres _]]].
  exists pids. split; [exact Hlen | exact Hres].
Defined.

Lemma malformed_no_worker sw : malformed sw -> worker_of sw = None.
Proof.
  unfold malformed, worker_of. destruct sw as [| b | z | f | s | l | kv]; try reflexivity.
  destruct (dict_get (YMap kv) "name" (YStr "s1")) as [n |]; [| reflexivity].
  destruct (dict_get (YMap kv) "device_id" (YInt 1)) as [d |];
    [| destruct n; reflexivity].
  destruct (dict_get (YMap kv) "grpc_port" (YInt 50051)) as [g |];
    [| destruct n; reflexivity].
  destruct (dict_get (YMap kv) "p4info_file" (YStr p4info_file)) as [p |];
    [| destruct n; reflexivity].
  destruct (dict_get (YMap kv) "runtime_json_file" (YStr json_file)) as [j |];
    [| destruct n, p; reflexivity].
  intros [H | [H | H]]; destruct n, p, j; try reflexivity; destruct H.
Qed.

(** X6.  A switch entry that is not a mapping, or whose name or one of
    whose two file paths is null, a boolean, a number, a list or a mapping,
    ends the controller action with failure, and nothing is undone: the
    workers of the entries before it have been launched and stay in the
    registry, no worker is launched for it or for the entries after it,
    and no call follows, neither the pause nor a stop of a worker. *)
Theorem start_p4_controller_malformed_entry w m good bad rest :
  dict_get (config (obj m)) "switches" (YList []) = Ret (YList (good ++ bad :: rest)) ->
  Forall well_formed good -> malformed bad ->
  answers w is_popen ->
  let r := start_p4_controller w m in
  exists pids : list process,
    length pids = length good /\
    fst r = Ret false /\
    launches (emitted m (snd r)) = combine (map snd (workers good)) pids /\
    calls (emitted m (snd r)) = map CallPopen (map snd (workers good)) /\
    obj (snd r)
    = with_processes
        (dict_set_all (combine (map worker_key (workers good)) pids)
           (processes (obj m)))
        (obj m).
Proof.
  intros Hs Hwf Hmal Hp r. subst r.
  pose proof (malformed_no_worker bad Hmal) as Hbad. unfold start_p4_controller.
  rewrite bind_log, try_except_run, bind_get_obj. unfold lift.
  rewrite run_bind. cbn [obj add_event]. rewrite Hs.
  assert (Ht : py_truthy (YList (good ++ bad :: rest)) = true)
    by (destruct good; reflexivity).
  rewrite Ht. cbn [negb py_iter]. rewrite run_bind, run_bind.
  destruct (launch_prefix w good (bad :: rest)
              (add_event (EvLog Info "Starting P4 controllers (one per switch)...") m)
              Hp Hwf)
    as [pids [d [m' [Hlen [Hrun [Hh [Ho [Hl Hc]]]]]]]].
  rewrite Hrun. cbn [for_each]. rewrite run_bind.
  destruct (launch_worker_malformed bad w m' Hbad) as [cls [msg ->]].
  cbn beta iota. cbn [is_Exception]. rewrite bind_log. unfold ret. cbn [fst snd].
  exists pids. split; [exact Hlen |]. split; [reflexivity |].
  assert (Hfinal :
    hist (add_event
            (EvLog Error ("Error starting P4 controller workers: "
                          ++ exn_text (PyException cls msg))) m')
    = hist m ++ ([EvLog Info "Starting P4 controllers (one per switch)..."]
                 ++ d ++ [EvLog Error ("Error starting P4 controller workers: "
                                       ++ exn_text (PyException cls msg))])).
  { cbn [hist add_event] in Hh |- *. rewrite Hh.
    rewrite <- !app_assoc. reflexivity. }
  rewrite (emitted_app _ _ _ Hfinal), !launches_app, !calls_app, Hl, Hc.
  cbn [launches calls flat_map app]. rewrite !app_nil_r.
  split; [reflexivity |]. split; [reflexivity |].
  cbn [obj add_event] in Ho |- *. exact Ho.
Qed.

Lemma start_p4_controller_malformed_entry_witness :
  fst (start_p4_controller numbering
         (fresh_machine
            (YMap [("switches",
                    YList [YMap [("name", YStr "s1")]; YStr "s2";
                           YMap [("name", YStr "s3")]])])))
  = Ret false.
Proof.
  destruct (start_p4_controller_malformed_entry numbering
              (fresh_machine
                 (YMap [("switches",
                         YList [YMap [("name", YStr "s1")]; YStr "s2";
                                YMap [("name", YStr "s3")]])]))
              [YMap [("name", YStr "s1")]] (YStr "s2") [YMap [("name", YStr "s3")]]
              eq_refl
              ltac:(repeat constructor; unfold well_formed; vm_compute; discriminate)
              I
              (numbering_answers _))
    as [pids [_ [Hres _]]].
  exact Hres.
Defined.

(** ** What the shutdown acts on *)

Lemma respects_for_each_in R {R_pre : PreOrder R} {A} (l : list A) body :
  (forall x, In x l -> respects R (body x)) -> respects R (for_each l body).
Proof.
  induction l as [| x rest IH]; intros Hb; cbn [for_each].
  - apply respects_ret. exact R_pre.
  - apply respects_bind; [exact R_pre | apply Hb; left; reflexivity |].
    intros _. apply IH. intros y Hy. apply Hb. right. exact Hy.
Qed.

Lemma shutdown_steps_on_target w m :
  adds (on_target (obj m)) m (snd (shutdown_steps w m)).
Proof.
  unfold shutdown_steps. rewrite bind_get_obj.
  generalize (obj m) at 1 2 3 4 5 6 7. intros o. revert w m.
  change (respects (adds (on_target o))
            (when_present (traffic_generator o) CallStopTraffic ;;
             when_present (controller o) CallControllerStop ;;
             when_present (logger_component o) CallLoggerClose ;;
             when_present (topology o) CallTopologyStop ;;
             for_each (processes o) stop_process ;;
             for_each (threads o) join_thread ;;
             log Info "P4 DPI System stopped")).
  apply respects_bind; [exact _ | |].
  { unfold when_present. destruct (traffic_generator o) eqn:E;
      respects_structure; adds_side; cbn; auto. }
  intros _. apply respects_bind; [exact _ | |].
  { unfold when_present. destruct (controller o) eqn:E;
      respects_structure; adds_side; cbn; auto. }
  intros _. apply respects_bind; [exact _ | |].
  { unfold when_present. destruct (logger_component o) eqn:E;
      respects_structure; adds_side; cbn; auto. }
  intros _. apply respects_bind; [exact _ | |].
  { unfold when_present. destruct (topology o) eqn:E;
      respects_structure; adds_side; cbn; auto. }
  intros _. apply respects_bind; [exact _ | |].
  { apply respects_for_each_in; [exact _ |]. intros [name p] Hin.
    unfold stop_process. cbn [snd].
    respects_structure; adds_side; cbn; eauto. }
  intros _. apply respects_bind; [exact _ | |].
  { apply respects_for_each_in; [exact _ |]. intros t Hin.
    respects_structure; adds_side; cbn; auto. }
  intros _. respects_structure; adds_side; cbn; auto.
Qed.

Lemma stop_system_on_target w m :
  exists d,
    hist (snd (stop_system w m)) = hist m ++ d /\ Forall (on_target (obj m)) d.
Proof.
  rewrite stop_system_split.
  set (m1 := add_event (EvSetRunning false) _).
  assert (Hm1 : hist m1 = hist m ++ [EvLog Info "Stopping P4 DPI System..."; EvSetRunning false]).
  { subst m1. cbn. rewrite <- app_assoc. reflexivity. }
  assert (Hsteps : adds (on_target (obj m)) m1 (snd (stop_body w m1))).
  { unfold stop_body. rewrite try_except_run.
    pose proof (shutdown_steps_on_target w m1) as Hs.
    assert (Hs' : adds (on_target (obj m)) m1 (snd (shutdown_steps w m1))).
    { destruct Hs as [d [Hd Hf]]. exists d. split; [exact Hd |].
      eapply Forall_impl; [| exact Hf]. intros [c o | | |]; cbn; auto. }
    destruct (shutdown_steps w m1) as [[u | e] m2]; cbn [fst snd] in *; [exact Hs' |].
    destruct (is_Exception e); [| exact Hs'].
    unfold log, emit. cbn [snd].
    etransitivity; [exact Hs' | apply adds_event; exact I]. }
  destruct Hsteps as [d [Hd Hf]].
  exists ([EvLog Info "Stopping P4 DPI System..."; EvSetRunning false] ++ d).
  split; [rewrite Hd, Hm1, <- app_assoc; reflexivity |].
  apply Forall_app. split; [repeat constructor | exact Hf].
Qed.

Lemma on_target_calls o d : Forall (on_target o) d -> Forall (stop_target o) (calls d).
Proof.
  intros Hf. induction Hf as [| e rest He _ IH]; [constructor |].
  cbn [calls flat_map]. destruct e as [c r | | |]; cbn [app]; auto.
Qed.

(** X7.  [stop_system] acts on what the instance holds when it is called
    and on nothing else: every call it makes ends, awaits or kills a
    process of the registry, joins a thread of the list, or stops the
    collaborator a reference holds.  A process or a thread that is in
    neither is left alone. *)
Theorem stop_system_acts_on_held_handles w m :
  Forall (stop_target (obj m)) (calls (emitted m (snd (stop_system w m)))).
Proof.
  destruct (stop_system_on_target w m) as [d [Hd Hf]].
  rewrite (emitted_app _ _ _ Hd). apply on_target_calls, Hf.
Qed.

(** ** Two switches of one name *)

Lemma dict_set_twice {V} key (v1 v2 : V) d :
  dict_set key v2 (dict_set key v1 d) = dict_set key v2 d.
Proof.
  induction d as [| [k v0] rest IH]; cbn.
  - rewrite String.eqb_refl. reflexivity.
  - destruct (String.eqb k key) eqn:Hk; cbn; rewrite Hk; [reflexivity |].
    rewrite IH. reflexivity.
Qed.

Lemma in_dict_set {V} key (v : V) d name x :
  In (name, x) (dict_set key v d) -> (name, x) = (key, v) \/ In (name, x) d.
Proof.
  induction d as [| [k v0] rest IH]; cbn.
  - intros [H | []]. left. congruence.
  - destruct (String.eqb_spec k key) as [-> | Hk]; cbn.
    + intros [H | H]; [left; congruence | right; right; exact H].
    + intros [H | H]; [right; left; exact H |].
      destruct (IH H) as [H' | H']; [left; exact H' | right; right; exact H'].
Qed.

(** X8.  When two switch entries have the same name, both workers are
    launched but the registry keeps only the second under the key of that
    name.  The first, when it is another process and was not registered
    before, is then out of reach of [stop_system]: whatever happens during
    the shutdown, it is neither ended, awaited nor killed. *)
Theorem duplicate_switch_name_orphans_worker w w' m sw1 sw2 n cmd1 cmd2 :
  dict_get (config (obj m)) "switches" (YList []) = Ret (YList [sw1; sw2]) ->
  worker_of sw1 = Some (n, cmd1) -> worker_of sw2 = Some (n, cmd2) ->
  answers w is_popen -> answers w is_sleep ->
  let m1 := snd (start_p4_controller w m) in
  exists p1 p2,
    launches (emitted m m1) = [(cmd1, p1); (cmd2, p2)] /\
    processes (obj m1) = dict_set ("p4c_" ++ n) p2 (processes (obj m)) /\
    (p1 <> p2 -> (forall name, ~ In (name, p1) (processes (obj m))) ->
     forall c, In c (calls (emitted m1 (snd (stop_system w' m1)))) ->
               victim c <> Some p1 /\ c <> CallKill p1).
Proof.
  intros Hs H1 H2 Hp Hsl m1. subst m1.
  assert (Hwf : Forall well_formed [sw1; sw2]).
  { repeat constructor; unfold well_formed; congruence. }
  destruct (start_p4_controller_run w m [sw1; sw2] Hs ltac:(discriminate) Hwf Hp Hsl)
    as [pids [d [Hlen [-> Hl]]]].
  assert (Hws : workers [sw1; sw2] = [(n, cmd1); (n, cmd2)]).
  { unfold workers. cbn [flat_map]. rewrite H1, H2. reflexivity. }
  rewrite Hws in *.
  destruct pids as [| p1 [| p2 [| p3 pids]]]; try discriminate Hlen.
  cbn [map combine snd worker_key fst] in *.
  exists p1, p2. cbn [snd obj processes with_processes].
  split; [unfold emitted; cbn [hist]; rewrite skipn_app, skipn_all, Nat.sub_diag; exact Hl |].
  assert (Hreg : dict_set_all [(("p4c_" ++ n)%string, p1); (("p4c_" ++ n)%string, p2)]
                   (processes (obj m))
                 = dict_set ("p4c_" ++ n) p2 (processes (obj m))).
  { unfold dict_set_all. cbn [fold_left fst snd]. apply dict_set_twice. }
  split; [exact Hreg |].
  intros Hne Hfree c Hin.
  set (m1 := {| obj := _; hist := _ |}) in Hin.
  destruct (stop_system_on_target w' m1) as [d' [Hd' Hf']].
  rewrite (emitted_app _ _ _ Hd') in Hin.
  pose proof (on_target_calls _ _ Hf') as Hall.
  rewrite Forall_forall in Hall. specialize (Hall c Hin).
  assert (Hout : forall name, ~ In (name, p1) (processes (obj m1))).
  { intros name Hname.
    assert (Hproc : processes (obj m1)
                    = dict_set ("p4c_" ++ n) p2 (processes (obj m))) by exact Hreg.
    rewrite Hproc in Hname. apply in_dict_set in Hname.
    destruct Hname as [Heq | Hold]; [congruence | exact (Hfree name Hold)]. }
  split.
  - intros Hv. destruct c; cbn in Hv; try discriminate Hv;
      injection Hv as ->; destruct Hall as [name Hname]; exact (Hout name Hname).
  - intros ->. destruct Hall as [name Hname]. exact (Hout name Hname).
Qed.

Lemma duplicate_switch_name_orphans_worker_witness :
  exists p1 p2 : process,
    processes (obj (snd (start_p4_controller numbering
                           (fresh_machine
                              (YMap [("switches",
                                      YList [YMap [("name", YStr "s1")];
                                             YMap [("name", YStr "s1");
                                                   ("device_id", YInt 2)]])])))))
    = [("p4c_s1", p2)] /\ p1 <> p2.
Proof.
  destruct (duplicate_switch_name_orphans_worker numbering numbering
              (fresh_machine
                 (YMap [("switches",
                         YList [YMap [("name", YStr "s1")];
                                YMap [("name", YStr "s1"); ("device_id", YInt 2)]])]))
              (YMap [("name", YStr "s1")])
              (YMap [("name", YStr "s1"); ("device_id", YInt 2)])
              "s1" _ _ eq_refl eq_refl eq_refl
              (numbering_answers _) (numbering_answers _))
    as [p1 [p2 [Hl [Hreg _]]]].
  exists p1, p2. split; [exact Hreg |].
  vm_compute in Hl. injection Hl; intros; subst; discriminate.
Defined.

(** ** What the instance holds only grows *)

#[global] Instance grows_pre : PreOrder grows.
Proof.
  split.
  - intros o. unfold grows. repeat split; auto. exists []. now rewrite app_nil_r.
  - intros a b c [H1 [H2 [H3 [[t1 H4] [H0 [H5 [H6 H7]]]]]]]
                 [G1 [G2 [G3 [[t2 G4] [G0 [G5 [G6 G7]]]]]]].
    unfold grows. repeat split; try congruence; auto.
    exists (t1 ++ t2). rewrite G4, H4, app_assoc. reflexivity.
Qed.

#[global] Instance on_obj_pre Q {Q_pre : PreOrder Q} : PreOrder (on_obj Q).
Proof.
  split.
  - intros m. unfold on_obj. reflexivity.
  - intros a b c Hab Hbc. unfold on_obj in *. etransitivity; eassumption.
Qed.

Lemma dict_set_keeps_keys {V} key (v : V) d k :
  In k (map fst d) -> In k (map fst (dict_set key v d)).
Proof.
  induction d as [| [k0 v0] rest IH]; cbn; [tauto |].
  destruct (String.eqb k0 key); cbn; tauto.
Qed.

Ltac grows_side :=
  intros; unfold on_obj, grows, add_event, upd; cbn;
  repeat split; auto using dict_set_keeps_keys;
  try congruence;
  first [ exists []; now rewrite app_nil_r | eexists; reflexivity ].

Lemma perform_grows o : respects (on_obj grows) (perform o).
Proof.
  destruct o; cbn [perform]; respects_structure; grows_side.
Qed.

Lemma perform_all_grows ops w m : grows (obj m) (obj (perform_all ops w m)).
Proof.
  revert m. induction ops as [| o rest IH]; intros m; cbn [perform_all].
  - reflexivity.
  - etransitivity; [apply (perform_grows o w m) | apply IH].
Qed.

Lemma reported_running_iff o name :
  reported_running o name <->
  (name = "controller" /\ controller o <> None) \/
  (name = "logger" /\ logger_component o <> None) \/
  (name = "traffic_generator" /\ traffic_generator o <> None) \/
  (name = "topology" /\ topology o <> None).
Proof.
  unfold reported_running, health_components.
  destruct (topology o), (logger_component o), (traffic_generator o), (controller o);
    cbn; split; intros H;
    repeat match goal with
           | H : _ \/ _ |- _ => destruct H as [H | H]
           | H : _ /\ _ |- _ => destruct H as [? H]
           | H : False |- _ => destruct H
           | H : (_, _) = (_, _) |- _ => injection H as <-
           | H : (_, _) = (_, _) |- _ => discriminate H
           | H : None <> None |- _ => destruct (H eq_refl)
           end; subst; auto 10;
    try (right; right; right; split; [reflexivity | discriminate]);
    try (right; right; left; split; [reflexivity | discriminate]);
    try (right; left; split; [reflexivity | discriminate]);
    try (left; split; [reflexivity | discriminate]).
Qed.

(** X9.  No operation releases anything, [stop_system] included.  After
    any operations in any order the configuration and the run identifier
    are the same, the registry of processes has every key it had, the list
    of threads starts by the threads it had, and a component the health
    snapshot reported as running is still reported as running. *)
Theorem nothing_is_released ops w m :
  let o := obj m in
  let o' := obj (perform_all ops w m) in
  config o' = config o /\
  run_id o' = run_id o /\
  (forall key, lookup key (processes o) <> None -> lookup key (processes o') <> None) /\
  (exists ts, threads o' = threads o ++ ts) /\
  (forall name, reported_running o name -> reported_running o' name).
Proof.
  intros o o'.
  destruct (perform_all_grows ops w m) as [H1 [H2 [H3 [H4 [H0 [H5 [H6 H7]]]]]]].
  fold o o' in H1, H2, H3, H4, H0, H5, H6, H7.
  split; [exact H1 |]. split; [exact H2 |]. split; [| split; [exact H4 |]].
  - intros key Hk.
    assert (Hin : forall d : list (string * process),
               lookup key d <> None <-> In key (map fst d)).
    { induction d as [| [k v] rest IH]; cbn; [tauto |].
      destruct (String.eqb_spec k key) as [-> | Hne]; [split; [auto | discriminate] |].
      rewrite IH. split; [auto | intros [H | H]; [congruence | exact H]]. }
    apply Hin, H3, Hin, Hk.
  - intros name. rewrite !reported_running_iff, H0.
    intros [[Hn Hr] | [[Hn Hr] | [[Hn Hr] | [Hn Hr]]]]; auto 10.
Qed.

(** ** Monitoring *)

Ltac explore_config :=
  repeat first
    [ progress explore
    | progress unfold lift
    | progress cbn [obj add_event]
    | match goal with
      | |- context [match dict_get ?a ?b ?c with _ => _ end] =>
          let E := fresh "Hget" in destruct (dict_get a b c) eqn:E
      | |- context [match controller ?o with _ => _ end] =>
          let E := fresh "Hctl" in destruct (controller o) eqn:E
      end ].

(** X10.  A round of the monitoring loop leaves the instance as it is.  An
    exception a call of the round raises is logged as an error and ends the
    round normally; the pause comes last, so that a round in which anything
    but the pause raised makes no pause at all, and the next round starts at
    once.  The pause is the value the configuration gives for
    monitoring.stats_interval, as it is. *)
Theorem monitor_tick_outcome w m :
  let r := monitor_tick w m in
  let added := emitted m (snd r) in
  obj (snd r) = obj m /\
  (forall c e,
      In (EvCall c (Raised e)) added -> is_Exception e = true ->
      fst r = Ret tt /\
      In (EvLog Error ("Error in monitoring: " ++ exn_text e)) added) /\
  (forall c e x,
      In (EvCall c (Raised e)) added -> In (CallSleep x) (calls added) ->
      c = CallSleep x) /\
  (forall x, In (CallSleep x) (calls added) -> stats_interval (config (obj m)) = Ret x).
Proof.
  unfold monitor_tick, check_system_health, log_statistics, stats_interval.
  explore_config.
  all: cbn zeta; emitted_norm.
  all: split; [reflexivity |].
  all: split;
    [ intros c' e' Hin He; refute Hin;
      (match goal with
       | H : EvCall _ (Raised _) = EvCall _ (Raised _) |- _ =>
           injection H as <- <-; try discriminate He
       end);
      (split; [reflexivity | solve_in])
    | ].
  all: split;
    [ intros c' e' x Hin Hsl; refute Hin;
      (match goal with
       | H : EvCall _ (Raised _) = EvCall _ (Raised _) |- _ =>
           injection H as <- <-
       end);
      refute Hsl
    | ].
  all: intros x Hin; refute Hin;
    repeat match goal with
           | H : CallSleep _ = CallSleep _ |- _ => injection H as <-
           | H : Ret _ = Ret _ |- _ => injection H as <-
           end;
    congruence.
Qed.

Lemma snapshots_begun_app a b :
  snapshots_begun (a ++ b) = (snapshots_begun a + snapshots_begun b)%nat.
Proof. unfold snapshots_begun. rewrite calls_app, filter_app, length_app. reflexivity. Qed.

Lemma monitor_tick_begins_one w m :
  exists d,
    hist (snd (monitor_tick w m)) = hist m ++ d /\
    obj (snd (monitor_tick w m)) = obj m /\
    snapshots_begun d = 1%nat.
Proof.
  unfold monitor_tick, check_system_health, log_statistics.
  explore_config.
  all: eexists; split;
    [ cbn [hist add_event]; rewrite <- ?app_assoc; cbn [app]; reflexivity
    | split; reflexivity ].
Qed.

(** X11.  The monitoring loop does nothing when the flag is false, and
    while it runs it leaves the instance, the flag included, as it is: the
    loop cannot end by itself.  As long as no interrupt passes through it,
    it begins a health snapshot in every round it is observed for, whatever
    was raised and logged in the rounds before. *)
Theorem monitor_system_rounds ticks w m :
  let r := monitor_system ticks w m in
  obj (snd r) = obj m /\
  (running (obj m) = false -> r = (Ret tt, m)) /\
  (running (obj m) = true -> fst r = Ret tt ->
   snapshots_begun (emitted m (snd r)) = ticks).
Proof.
  revert m. induction ticks as [| n IH]; intros m; cbn zeta.
  - cbn. rewrite emitted_same. auto.
  - cbn [monitor_system]. rewrite bind_get_obj.
    destruct (running (obj m)) eqn:Hflag.
    + rewrite run_bind.
      destruct (monitor_tick_begins_one w m) as [d [Hd [Ho Hone]]].
      destruct (monitor_tick w m) as [[u | e] m1]; cbn [fst snd] in *.
      * destruct (IH m1) as [Ho' [_ Hn]]. rewrite Ho in *.
        split; [exact Ho' |]. split; [discriminate |].
        intros _ Hret. specialize (Hn Hflag Hret).
        assert (Hgrow : exists d', hist (snd (monitor_system n w m1)) = hist m1 ++ d').
        { destruct (respects_monitor_system (adds any_event) n
                      ltac:(unfold monitor_tick; respects_structure; adds_side; exact I)
                      w m1) as [d' [Hd' _]].
          exists d'. exact Hd'. }
        destruct Hgrow as [d' Hd'].
        rewrite (emitted_app _ _ _ Hd') in Hn.
        assert (Hall : hist (snd (monitor_system n w m1)) = hist m ++ (d ++ d'))
          by (rewrite Hd', Hd, app_assoc; reflexivity).
        rewrite (emitted_app _ _ _ Hall), snapshots_begun_app, Hone, Hn. reflexivity.
      * split; [exact Ho |]. split; [discriminate |].
        intros _ Hret. discriminate Hret.
    + unfold ret. cbn [fst snd]. split; [reflexivity |]. split; [reflexivity |].
      discriminate.
Qed.

Lemma monitor_system_rounds_witness :
  snapshots_begun
    (emitted (fresh_machine (YMap []))
       (snd (monitor_system 3 calm_world
               (upd (with_running true) (fresh_machine (YMap []))))))
  = 3%nat.
Proof.
  exact (proj2 (proj2 (monitor_system_rounds 3 calm_world
                         (upd (with_running true) (fresh_machine (YMap [])))))
           eq_refl eq_refl).
Defined.

(** ** Construction and the stop mode *)

(** What a successful [__init__] has done. *)
Lemma init_run config_file w h o h' :
  DPISystem_init config_file w h = (Ret o, h') ->
  exists cfg lc lvl fmt file v1 v2 now,
    read_yaml w config_file = Loaded cfg /\
    dict_get cfg "logging" (YMap []) = Ret lc /\
    logging_settings lc = Ret (lvl, fmt, file) /\
    h' = h ++ [EvCall (CallMakedirs "logs") (Returned v1);
               EvCall (CallLoggingSetup lvl fmt file) (Returned v2);
               EvLog Info "DPI System initialized";
               EvSetRunning false;
               EvCall CallNow (Returned now)] /\
    o = built cfg now.
Proof.
  unfold DPISystem_init, load_config, setup_logging, logging_settings,
    kbind, klift, kext, kemit.
  destruct (read_yaml w config_file) as [cfg | | e] eqn:Hr; try discriminate.
  destruct (dict_get cfg "logging" (YMap [])) as [lc | e] eqn:Hl; [| discriminate].
  destruct (respond w h (CallMakedirs "logs")) as [v1 | e]; [| discriminate].
  destruct (dict_get lc "level" (YStr "INFO")) as [lvl | e] eqn:H1; [| discriminate].
  destruct (dict_get lc "format" _) as [fmt | e] eqn:H2; [| discriminate].
  destruct (dict_get lc "file" _) as [file | e] eqn:H3; [| discriminate].
  destruct (respond w _ (CallLoggingSetup lvl fmt file)) as [v2 | e]; [| discriminate].
  destruct (respond w _ CallNow) as [now | e]; [| discriminate].
  intros H. injection H as <- <-.
  exists cfg, lc, lvl, fmt, file, v1, v2, now.
  split; [first [reflexivity | exact Hr] |].
  split; [first [reflexivity | exact Hl] |].
  split; [rewrite ?H1, ?H2, ?H3; reflexivity |].
  split; [rewrite <- !app_assoc; reflexivity | reflexivity].
Qed.

(** However [__init__] ends, it has made only calls of the setup. *)
Lemma init_calls config_file w h :
  exists d,
    snd (DPISystem_init config_file w h) = h ++ d /\
    Forall (fun c => is_setup c = true) (calls d).
Proof.
  unfold DPISystem_init, load_config, setup_logging, kbind, klift, kext, kemit.
  destruct (read_yaml w config_file) as [cfg | | e];
    try (exists []; cbn; rewrite app_nil_r; split; [reflexivity | constructor]).
  destruct (dict_get cfg "logging" (YMap [])) as [lc | e];
    [| exists []; cbn; rewrite app_nil_r; split; [reflexivity | constructor]].
  destruct (respond w h (CallMakedirs "logs")) as [v1 | e];
    [| eexists; cbn; split; [reflexivity | repeat constructor]].
  destruct (dict_get lc "level" (YStr "INFO")) as [lvl | e];
    [| eexists; cbn; split; [reflexivity | repeat constructor]].
  destruct (dict_get lc "format" _) as [fmt | e];
    [| eexists; cbn; split; [reflexivity | repeat constructor]].
  destruct (dict_get lc "file" _) as [file | e];
    [| eexists; cbn; split; [reflexivity | repeat constructor]].
  destruct (respond w _ (CallLoggingSetup lvl fmt file)) as [v2 | e];
    [| eexists; cbn; rewrite <- !app_assoc; split; [reflexivity | repeat constructor]].
  destruct (respond w _ CallNow) as [now | e];
    eexists; cbn; rewrite <- !app_assoc; (split; [reflexivity | repeat constructor]).
Qed.

(** X12.  [__init__] needs a configuration that is a mapping: when the
    file holds anything else (an empty file is read as null), it raises
    [AttributeError] before it has made a directory or set up the logging.
    When it succeeds, the logging section is a mapping too, the instance it
    built has the configuration as read, the flag false, the clock reading
    as its run identifier, and holds nothing; and it has made three calls:
    the directory, the logging setup with the three settings of the
    section, and the clock. *)
Theorem DPISystem_init_outcome config_file w h :
  (forall y,
      read_yaml w config_file = Loaded y -> (forall kv, y <> YMap kv) ->
      exists msg,
        DPISystem_init config_file w h = (Exc (PyException "AttributeError" msg), h)) /\
  (forall o h',
      DPISystem_init config_file w h = (Ret o, h') ->
      exists kv kv' lvl fmt file now,
        read_yaml w config_file = Loaded (YMap kv) /\
        dict_get (YMap kv) "logging" (YMap []) = Ret (YMap kv') /\
        logging_settings (YMap kv') = Ret (lvl, fmt, file) /\
        o = built (YMap kv) now /\
        calls (skipn (length h) h')
        = [CallMakedirs "logs"; CallLoggingSetup lvl fmt file; CallNow]).
Proof.
  split.
  - intros y Hy Hmap. unfold DPISystem_init, load_config, setup_logging, kbind, klift.
    rewrite Hy. destruct y; try (eexists; reflexivity). destruct (Hmap m eq_refl).
  - intros o h' Hi.
    destruct (init_run config_file w h o h' Hi)
      as [cfg [lc [lvl [fmt [file [v1 [v2 [now [Hr [Hl [Hs [-> ->]]]]]]]]]]]].
    assert (Hcfg : exists kv, cfg = YMap kv).
    { unfold dict_get in Hl. destruct cfg; try discriminate Hl. eexists; reflexivity. }
    destruct Hcfg as [kv ->].
    assert (Hlc : exists kv', lc = YMap kv').
    { unfold logging_settings in Hs.
      destruct lc; try discriminate Hs. eexists; reflexivity. }
    destruct Hlc as [kv' ->].
    exists kv, kv', lvl, fmt, file, now.
    repeat split; try assumption.
    rewrite skipn_app, skipn_all, Nat.sub_diag. reflexivity.
Qed.

Lemma DPISystem_init_outcome_witness :
  (exists msg,
      DPISystem_init "config/dpi_config.yaml" empty_file []
      = (Exc (PyException "AttributeError" msg), [])) /\
  exists kv kv' lvl fmt file now,
    read_yaml numbering "config/dpi_config.yaml" = Loaded (YMap kv) /\
    dict_get (YMap kv) "logging" (YMap []) = Ret (YMap kv') /\
    logging_settings (YMap kv') = Ret (lvl, fmt, file) /\
    obj built_instance = built (YMap kv) now /\
    calls (skipn (length (@nil event)) (hist built_instance))
    = [CallMakedirs "logs"; CallLoggingSetup lvl fmt file; CallNow].
Proof.
  split.
  - apply (proj1 (DPISystem_init_outcome "config/dpi_config.yaml" empty_file [])
             YNull eq_refl).
    intros kv. discriminate.
  - apply (proj2 (DPISystem_init_outcome "config/dpi_config.yaml" numbering [])
             (obj built_instance) (hist built_instance)).
    vm_compute. reflexivity.
Defined.

(** An instance that holds nothing gives [stop_system] nothing to act on. *)
Lemma stop_system_on_empty w m :
  traffic_generator (obj m) = None -> controller (obj m) = None ->
  logger_component (obj m) = None -> topology (obj m) = None ->
  processes (obj m) = [] -> threads (obj m) = [] ->
  calls (emitted m (snd (stop_system w m))) = [].
Proof.
  intros Hg Hc Hl Ht Hp Hth.
  destruct (stop_system_on_target w m) as [d [Hd Hf]].
  rewrite (emitted_app _ _ _ Hd).
  pose proof (on_target_calls _ _ Hf) as Hall.
  destruct (calls d) as [| c rest]; [reflexivity |].
  exfalso. inversion Hall as [| c' rest' Hc' _]; subst.
  destruct c; cbn in Hc'; try contradiction; try congruence.
  1-3: destruct Hc' as [name Hin]; rewrite Hp in Hin; destruct Hin.
  rewrite Hth in Hc'. destruct Hc'.
Qed.

(** X13.  In the stop mode the program stops nothing.  [main] builds a new
    instance, which holds no process, no thread and no collaborator, and
    calls [stop_system] on it: whatever the world answers, the only calls
    of the whole run are the two installations of the signal handler and
    the calls of the construction. *)
Theorem main_stop_mode_stops_nothing config_file w :
  Forall (fun c => is_setup c = true) (calls (snd (main config_file ModeStop w))).
Proof.
  unfold main, kbind at 1, kext at 1.
  destruct (respond w [] (CallSignal "SIGINT")) as [v1 | e1];
    [| repeat constructor].
  unfold kbind at 1, kext at 1.
  destruct (respond w _ (CallSignal "SIGTERM")) as [v2 | e2];
    [| repeat constructor].
  unfold kbind at 1.
  set (h2 := ([] ++ [EvCall (CallSignal "SIGINT") (Returned v1)])
               ++ [EvCall (CallSignal "SIGTERM") (Returned v2)]).
  destruct (init_calls config_file w h2) as [d [Hd Hf]].
  destruct (DPISystem_init config_file w h2) as [[o | e] h3] eqn:Hi; cbn [fst snd] in *.
  - destruct (init_run config_file w h2 o h3 Hi)
      as [cfg [lc [lvl [fmt [file [v1' [v2' [now [_ [_ [_ [_ Ho]]]]]]]]]]]].
    cbn [dispatch].
    set (m := {| obj := o; hist := h3 |}).
    pose proof (stop_system_on_empty w m) as Hstop.
    subst o. specialize (Hstop eq_refl eq_refl eq_refl eq_refl eq_refl eq_refl).
    destruct (stop_system_grows w m) as [d' [Hd' _]].
    rewrite (emitted_app _ _ _ Hd') in Hstop.
    rewrite Hd'. subst m. cbn [hist]. rewrite Hd, !calls_app, Hstop, app_nil_r.
    apply Forall_app. split; [repeat constructor | exact Hf].
  - rewrite Hd, calls_app. apply Forall_app. split; [repeat constructor | exact Hf].
Qed.

(** ** What [run] leaves behind *)

Lemma respects_print_io R {R_pre : PreOrder R} con s :
  (forall m, R m (add_event (EvPrint s) m)) -> respects R (print_io con s).
Proof.
  intros H w m. unfold print_io.
  destruct (con (hist m) s); cbn [snd]; [reflexivity | apply H].
Qed.

#[global] Hint Unfold start_system_io run_body_io run_io : orchestrator.

(** Follows the structure of a computation that prints on a console. *)
Ltac respects_io :=
  repeat first
    [ apply respects_print_io
    | match goal with
      | |- respects _ (run_components_io _ _) =>
          unfold component_list; cbn [run_components_io]
      end
    | respects_step ].

Lemma bind_print_io {B} con s (k : unit -> M B) w m :
  con (hist m) s = None ->
  bind (print_io con s) k w m = k tt w (add_event (EvPrint s) m).
Proof. intros H. unfold bind, print_io. rewrite H. reflexivity. Qed.

Lemma run_io_ends_by_stop con w m :
  takes con "DEBUG: run() called" -> takes con "DEBUG: run() finally block" ->
  snd (run_io con w m) = snd (stop_system w (before_stop con w m)).
Proof.
  intros H1 H2. unfold run_io, before_stop.
  rewrite (bind_print_io con _ _ w m (H1 (hist m))). unfold try_finally.
  destruct (run_body_io con w (add_event (EvPrint "DEBUG: run() called") m))
    as [r1 m1].
  rewrite (bind_print_io con _ _ w m1 (H2 (hist m1))). cbn [snd].
  destruct (stop_system w (add_event (EvPrint "DEBUG: run() finally block") m1))
    as [[u | e] m2]; reflexivity.
Qed.

Lemma run_body_io_grows con : respects (adds any_event) (run_body_io con).
Proof. respects_io; adds_side; exact I. Qed.

Lemma before_stop_grows con w m : exists d, hist (before_stop con w m) = hist m ++ d.
Proof.
  unfold before_stop.
  destruct (run_body_io_grows con w (add_event (EvPrint "DEBUG: run() called") m))
    as [d [Hd _]].
  eexists. cbn [hist add_event] in *. rewrite Hd, <- !app_assoc. reflexivity.
Qed.

Lemma handled_within p a d b : handled p d -> handled p (a ++ d ++ b).
Proof.
  intros [[v [v' [H1 H2]]] | [v H1]].
  - left. exists v, v'. split; apply in_or_app; right; apply in_or_app; left; assumption.
  - right. exists v. apply in_or_app; right; apply in_or_app; left; assumption.
Qed.

(** X14.  [run] reaches the shutdown through two prints, its first line
    and the line of its [finally].  When the console takes these two,
    [run] ends by [stop_system] however the startup went (a component
    that failed, an exception, an interrupt, any other print refused):
    when it is over the flag is false; and, provided the stops of the
    collaborators and every [kill] answer, each process the registry holds
    then, whichever startup action put it there, has been told to end, and
    has ended within the timeout or been killed. *)
Theorem run_stops_what_it_started con w m :
  takes con "DEBUG: run() called" -> takes con "DEBUG: run() finally block" ->
  answers w is_collaborator_stop -> answers w is_kill ->
  let m' := snd (run_io con w m) in
  running (obj m') = false /\
  forall name p,
    In (name, p) (processes (obj m')) ->
    In (CallTerminate p) (calls (emitted m m')) /\ handled p (emitted m m').
Proof.
  intros H1 H2 Hc Hk m'. subst m'. rewrite (run_io_ends_by_stop con w m H1 H2).
  set (m2 := before_stop con w m).
  rewrite stop_system_obj. split; [reflexivity |].
  intros name p Hin. cbn [processes with_running] in Hin.
  destruct (stop_system_progress w m2 Hc Hk) as [d0 [d1 [d2 [Hd [_ [Hp _]]]]]].
  destruct (Hp name p Hin) as [Ht Hh].
  destruct (before_stop_grows con w m) as [dA HdA]. fold m2 in HdA.
  destruct (stop_system_grows w m2) as [dB [HdB _]].
  rewrite (emitted_app _ _ _ HdB) in Hd. subst dB.
  assert (Hall : hist (snd (stop_system w m2)) = hist m ++ ((dA ++ d0) ++ d1 ++ d2)).
  { rewrite HdB, HdA, <- !app_assoc. reflexivity. }
  rewrite (emitted_app _ _ _ Hall). split.
  - rewrite !calls_app. apply in_or_app. right. apply in_or_app. left. exact Ht.
  - apply handled_within. exact Hh.
Qed.

Lemma run_stops_what_it_started_witness :
  running (obj (snd (run_io quiet numbering (fresh_machine two_switches)))) = false /\
  handled 51
    (emitted (fresh_machine two_switches)
       (snd (run_io quiet numbering (fresh_machine two_switches)))) /\
  running (obj (snd (run_io deaf_to_components numbering
                       (fresh_machine two_switches)))) = false.
Proof.
  destruct (run_stops_what_it_started quiet numbering (fresh_machine two_switches)
              (fun _ => eq_refl) (fun _ => eq_refl)
              (numbering_answers _) (numbering_answers _)) as [Hflag Hp].
  split; [exact Hflag |]. split.
  - apply (Hp "flask_api" 51). vm_compute. tauto.
  - exact (proj1 (run_stops_what_it_started deaf_to_components numbering
                    (fresh_machine two_switches)
                    (fun _ => eq_refl) (fun _ => eq_refl)
                    (numbering_answers _) (numbering_answers _))).
Defined.

(** ** What a successful startup has recorded *)

Lemma grows_has_thread P o o' : grows o o' -> has_thread P o -> has_thread P o'.
Proof.
  intros [_ [_ [_ [[ts Hts] _]]]] [t [Hin Hp]].
  exists t. split; [rewrite Hts; apply in_or_app; left; exact Hin | exact Hp].
Qed.

Lemma dict_set_has_key {V} key (v : V) d : In key (map fst (dict_set key v d)).
Proof.
  induction d as [| [k v0] rest IH]; cbn; [auto |].
  destruct (String.eqb_spec k key) as [-> | Hne]; cbn; auto.
Qed.

Lemma component_grows name c :
  In (name, c) component_list -> respects (on_obj grows) c.
Proof.
  intros Hin. cbn in Hin.
  repeat (destruct Hin as [Hin | Hin]; [injection Hin as _ <-; respects_structure; grows_side |]).
  destruct Hin.
Qed.

(** What each action has recorded when it answers success. *)
Lemma topology_recorded w m m' :
  start_mininet_topology w m = (Ret true, m') ->
  topology (obj m') <> None /\ has_thread is_topology_thread (obj m').
Proof.
  unfold start_mininet_topology. explore; intros H; try discriminate H;
    injection H as <-; cbn [obj add_event upd with_topology append_thread topology];
    (split; [discriminate |]);
    (eexists; split; [cbn [threads]; apply in_or_app; right; left; reflexivity
                     | reflexivity]).
Qed.

Lemma packet_logger_recorded w m m' :
  start_packet_logger w m = (Ret true, m') -> logger_component (obj m') <> None.
Proof.
  unfold start_packet_logger. explore; intros H; try discriminate H;
    injection H as <-; cbn; discriminate.
Qed.

Lemma traffic_generator_recorded w m m' :
  start_traffic_generator w m = (Ret true, m') ->
  traffic_generator (obj m') <> None /\ has_thread is_traffic_thread (obj m').
Proof.
  unfold start_traffic_generator. explore; intros H; try discriminate H;
    injection H as <-; cbn [obj add_event upd with_traffic_generator append_thread
                              traffic_generator];
    (split; [discriminate |]);
    (eexists; split; [cbn [threads]; apply in_or_app; right; left; reflexivity
                     | reflexivity]).
Qed.

Lemma web_interface_recorded w m m' :
  start_web_interface w m = (Ret true, m') ->
  In "flask_api" (map fst (processes (obj m'))).
Proof.
  unfold start_web_interface. explore; intros H; try discriminate H;
    injection H as <-; cbn [obj add_event upd set_process processes];
    apply dict_set_has_key.
Qed.

Lemma monitoring_recorded w m m' :
  start_monitoring w m = (Ret true, m') -> has_thread is_monitor_thread (obj m').
Proof.
  unfold start_monitoring. explore; intros H; try discriminate H;
    injection H as <-; cbn [obj add_event upd append_thread];
    (eexists; split; [cbn [threads]; apply in_or_app; right; left; reflexivity
                     | reflexivity]).
Qed.

Lemma grows_after name c w m :
  In (name, c) component_list -> grows (obj m) (obj (snd (c w m))).
Proof. intros Hin. exact (component_grows name c Hin w m). Qed.

(** The frame of an action of the list that ended as [H] says. *)
Ltac frame H :=
  match type of H with
  | ?c ?w ?m0 = (_, _) =>
      let G := fresh "G" in
      pose proof (grows_after _ c w m0 ltac:(cbn; auto 10)) as G;
      rewrite H in G; exact G
  end.

(** One round of the loop of [start_system] that goes on to the next. *)
Lemma run_components_round name c rest w m :
  fst (run_components ((name, c) :: rest) w m) = Ret None ->
  exists m1 v,
    c w (add_event (EvLog Info ("Starting " ++ name ++ "..."))
           (add_event (EvPrint ("DEBUG: Starting " ++ name ++ "...")) m))
    = (Ret true, m1) /\
    run_components ((name, c) :: rest) w m
    = run_components rest w
        (add_event (EvCall (CallSleep (YInt 2)) (Returned v))
           (add_event (EvPrint ("DEBUG: " ++ name ++ " OK")) m1)).
Proof.
  cbn [run_components]. rewrite bind_print, bind_log, run_bind.
  destruct (c w _) as [[[|] | e] m1]; cbn [negb].
  - rewrite bind_print, bind_ext.
    destruct (respond w _ (CallSleep (YInt 2))) as [v | e]; [| discriminate].
    intros _. exists m1, v. split; reflexivity.
  - rewrite bind_print, bind_log. discriminate.
  - discriminate.
Qed.

Lemma run_components_all_recorded w m :
  fst (run_components component_list w m) = Ret None ->
  all_recorded (obj (snd (run_components component_list w m))).
Proof.
  unfold component_list. intros H.
  destruct (run_components_round _ _ _ w m H) as [m1 [v1 [H1 E1]]].
  rewrite E1 in H |- *. clear E1.
  destruct (run_components_round _ _ _ w _ H) as [m2 [v2 [H2 E2]]].
  rewrite E2 in H |- *. clear E2.
  destruct (run_components_round _ _ _ w _ H) as [m3 [v3 [H3 E3]]].
  rewrite E3 in H |- *. clear E3.
  destruct (run_components_round _ _ _ w _ H) as [m4 [v4 [H4 E4]]].
  rewrite E4 in H |- *. clear E4.
  destruct (run_components_round _ _ _ w _ H) as [m5 [v5 [H5 E5]]].
  rewrite E5 in H |- *. clear E5.
  destruct (run_components_round _ _ _ w _ H) as [m6 [v6 [H6 E6]]].
  rewrite E6 in H |- *. clear E6 H.
  cbn [run_components]. unfold ret. cbn [snd obj add_event].
  assert (G2 : grows (obj m1) (obj m2)) by frame H2.
  assert (G3 : grows (obj m2) (obj m3)) by frame H3.
  assert (G4 : grows (obj m3) (obj m4)) by frame H4.
  assert (G5 : grows (obj m4) (obj m5)) by frame H5.
  assert (G6 : grows (obj m5) (obj m6)) by frame H6.
  assert (G46 : grows (obj m4) (obj m6)) by (etransitivity; eassumption).
  assert (G36 : grows (obj m3) (obj m6)) by (etransitivity; eassumption).
  assert (G26 : grows (obj m2) (obj m6)) by (etransitivity; eassumption).
  assert (G16 : grows (obj m1) (obj m6)) by (etransitivity; eassumption).
  destruct (topology_recorded _ _ _ H1) as [T1 T2].
  pose proof (packet_logger_recorded _ _ _ H3) as L.
  destruct (traffic_generator_recorded _ _ _ H4) as [Tg1 Tg2].
  pose proof (web_interface_recorded _ _ _ H5) as Wb.
  pose proof (monitoring_recorded _ _ _ H6) as Mo.
  unfold all_recorded. repeat split.
  - apply G16. exact T1.
  - apply G36. exact L.
  - apply G46. exact Tg1.
  - apply G6. exact Wb.
  - exact (grows_has_thread _ _ _ G16 T2).
  - exact (grows_has_thread _ _ _ G46 Tg2).
  - exact Mo.
Qed.

Lemma schedule_keeps_obj : respects (kept obj) schedule_initial_export.
Proof. respects_structure; kept_side. Qed.

(** X15.  When [start_system] returns [True] everything is in place: the
    flag is true, the references to the topology, the packet logger and the
    traffic generator each hold a collaborator, the registry has the process
    of the web interface under flask_api, and the list of threads has the
    thread of the topology, that of the traffic generator and that of the
    monitoring loop. *)
Theorem successful_start_records_everything w m :
  fst (start_system w m) = Ret true ->
  let o' := obj (snd (start_system w m)) in
  running o' = true /\ all_recorded o'.
Proof.
  intros Hr o'. subst o'.
  split; [exact (proj1 (start_system_flag w m)) |].
  revert Hr. rewrite start_system_split.
  set (m1 := add_event (EvSetRunning true) _).
  unfold start_body. rewrite try_except_run, bind_print, (run_bind compile_p4_program).
  destruct (compile_p4_program w _) as [[[|] | e] m3]; cbn [snd negb].
  - rewrite bind_print, (run_bind (run_components component_list)).
    set (m4 := add_event (EvPrint "DEBUG: compile OK") m3).
    pose proof (run_components_never_true w m4) as Hnt.
    pose proof (run_components_all_recorded w m4) as Hall.
    destruct (run_components component_list w m4) as [[[b |] | e] m5];
      cbn [fst snd] in *.
    + rewrite (Hnt b eq_refl). unfold ret. cbn. discriminate.
    + specialize (Hall eq_refl).
      rewrite (run_bind (try_except _ _)), try_except_run.
      pose proof (schedule_keeps_obj w m5) as Hk. unfold kept in Hk.
      destruct (schedule_initial_export w m5) as [[u | e] m6]; cbn [snd] in Hk.
      * rewrite bind_print, bind_log. unfold ret. cbn [fst snd obj add_event].
        intros _. rewrite Hk. exact Hall.
      * destruct e as [c t | |]; cbn [is_Exception];
          [| cbn; discriminate | cbn; discriminate].
        unfold log, print, emit, bind, ret. cbn [fst snd obj add_event].
        intros _. rewrite Hk. exact Hall.
    + destruct e as [c t | |]; cbn [is_Exception];
        [| cbn; discriminate | cbn; discriminate].
      rewrite bind_print, bind_log. unfold ret. cbn. discriminate.
  - rewrite bind_print, bind_log. unfold ret. cbn. discriminate.
  - destruct e as [c t | |]; cbn [is_Exception];
      [| cbn; discriminate | cbn; discriminate].
    rewrite bind_print, bind_log. unfold ret. cbn. discriminate.
Qed.

Lemma successful_start_records_everything_witness :
  all_recorded (obj (snd (start_system numbering (fresh_machine two_switches)))).
Proof.
  exact (proj2 (successful_start_records_everything numbering
                  (fresh_machine two_switches) eq_refl)).
Defined.

(** With its settings unreadable, [schedule_initial_export] raises before
    it asks for a thread. *)
Lemma schedule_initial_export_unreadable w m e :
  export_settings (config (obj m)) = Exc e ->
  schedule_initial_export w m = (Exc e, m).
Proof.
  unfold export_settings, schedule_initial_export. intros Hs.
  rewrite bind_get_obj. unfold lift, bind at 1.
  destruct (dict_get (config (obj m)) "export" (YMap [])) as [ex | e1];
    [| congruence].
  unfold bind at 1.
  destruct (dict_get ex "initial_delay_seconds" (YInt 20)) as [dl | e1];
    [| congruence].
  unfold bind at 1.
  destruct (dict_get (config (obj m)) "performance" (YMap [])) as [pf | e1];
    [| congruence].
  unfold bind at 1.
  destruct (dict_get pf "database" (YMap [])) as [dbs | e1]; [| congruence].
  unfold bind at 1.
  destruct (dict_get dbs "file" (YStr "logs/packets.db")) as [f | e1];
    [discriminate | congruence].
Qed.

Lemma export_settings_raise cfg e :
  export_settings cfg = Exc e -> is_Exception e = true.
Proof.
  unfold export_settings. intros H.
  repeat match type of H with
         | match dict_get ?a ?b ?c with _ => _ end = _ =>
             let E := fresh "E" in
             destruct (dict_get a b c) eqn:E;
               [| apply dict_get_raises in E; injection H as <-; subst; reflexivity]
         end.
  discriminate H.
Qed.

(** X16.  A startup can succeed without the export.  When the export
    settings of the configuration cannot be read ([export], [performance]
    or [performance.database] is not a mapping), a [start_system] that
    returns [True] has logged a warning and asked for no export thread:
    nothing will be exported in this run. *)
Theorem start_succeeds_without_export w m e :
  export_settings (config (obj m)) = Exc e ->
  fst (start_system w m) = Ret true ->
  let added := emitted m (snd (start_system w m)) in
  In (EvLog Warning ("Failed to schedule initial export: " ++ exn_text e)) added /\
  export_starts added = [].
Proof.
  intros Hs Hr added. subst added.
  pose proof (export_settings_raise _ _ Hs) as He.
  destruct (start_system_grows w m) as [d [Hd _]].
  rewrite (emitted_app _ _ _ Hd).
  assert (Hv : In (EvLog Warning ("Failed to schedule initial export: " ++ exn_text e))
                  (skipn (length (hist m)) (hist (snd (start_system w m)))) /\
               export_starts (hist (snd (start_system w m)))
               = export_starts (hist m) ++ []).
  2:{ destruct Hv as [Hin Hv]. rewrite Hd in Hin, Hv.
      rewrite skipn_app, skipn_all, Nat.sub_diag in Hin. cbn [skipn app] in Hin.
      rewrite export_starts_app in Hv. apply app_inv_head in Hv. auto. }
  clear d Hd. revert Hr. rewrite start_system_split.
  set (m1 := add_event (EvSetRunning true) _).
  assert (Hm1 : export_view m1 = (export_starts (hist m), config (obj m))).
  { subst m1. unfold export_view, add_event, upd; cbn.
    rewrite !export_starts_app. cbn. rewrite !app_nil_r. reflexivity. }
  assert (Hh1 : exists d1, hist m1 = hist m ++ d1).
  { subst m1. eexists. cbn. rewrite <- !app_assoc. reflexivity. }
  unfold start_body. rewrite try_except_run, bind_print, (run_bind compile_p4_program).
  set (m2 := add_event (EvPrint "DEBUG: compiling P4...") m1).
  assert (Hm2 : export_view m2 = (export_starts (hist m), config (obj m))).
  { subst m2. rewrite export_view_event. cbn. rewrite app_nil_r. exact Hm1. }
  assert (Hh2 : exists d2, hist m2 = hist m ++ d2).
  { destruct Hh1 as [d1 H1]. subst m2. eexists. cbn [hist add_event].
    rewrite H1, <- app_assoc. reflexivity. }
  pose proof (compile_keeps_export_view w m2) as Hc. unfold kept in Hc.
  rewrite Hm2 in Hc.
  assert (Hh3 : exists d3, hist (snd (compile_p4_program w m2)) = hist m ++ d3).
  { destruct Hh2 as [d2 H2].
    destruct (ltac:(respects_structure; adds_side; exact I)
              : respects (adds any_event) compile_p4_program) with w m2
      as [d' [Hd' _]].
    eexists. rewrite Hd', H2, <- app_assoc. reflexivity. }
  destruct (compile_p4_program w m2) as [[[|] | e0] m3]; cbn [snd negb] in *.
  - rewrite bind_print, (run_bind (run_components component_list)).
    set (m4 := add_event (EvPrint "DEBUG: compile OK") m3).
    assert (Hm4 : export_view m4 = (export_starts (hist m), config (obj m))).
    { subst m4. rewrite export_view_event. cbn. rewrite app_nil_r. exact Hc. }
    assert (Hh4 : exists d4, hist m4 = hist m ++ d4).
    { destruct Hh3 as [d3 H3]. subst m4. eexists. cbn [hist add_event].
      rewrite H3, <- app_assoc. reflexivity. }
    pose proof (components_keep_export_view w m4) as Hl. unfold kept in Hl.
    rewrite Hm4 in Hl.
    pose proof (run_components_never_true w m4) as Hnt.
    assert (Hh5 : exists d5, hist (snd (run_components component_list w m4))
                             = hist m ++ d5).
    { destruct Hh4 as [d4 H4].
      destruct (ltac:(respects_structure; adds_side; exact I)
                : respects (adds any_event) (run_components component_list))
        with w m4 as [d' [Hd' _]].
      eexists. rewrite Hd', H4, <- app_assoc. reflexivity. }
    destruct (run_components component_list w m4) as [[[b |] | e0] m5];
      cbn [fst snd] in *.
    + rewrite (Hnt b eq_refl). unfold ret. cbn. discriminate.
    + rewrite (run_bind (try_except _ _)), try_except_run.
      unfold export_view in Hl. injection Hl as Hstarts Hcfg.
      rewrite <- Hcfg in Hs.
      rewrite (schedule_initial_export_unreadable w m5 e Hs), He.
      unfold log, print, emit, bind, ret. cbn [fst snd hist add_event].
      intros _. destruct Hh5 as [d5 H5]. split.
      * rewrite H5, <- !app_assoc, skipn_app, skipn_all, Nat.sub_diag.
        cbn [skipn app]. apply in_or_app. right. left. reflexivity.
      * rewrite !export_starts_app, Hstarts. cbn. rewrite !app_nil_r. reflexivity.
    + destruct e0 as [c t | |]; cbn [is_Exception];
        [| cbn; discriminate | cbn; discriminate].
      rewrite bind_print, bind_log. unfold ret. cbn. discriminate.
  - rewrite bind_print, bind_log. unfold ret. cbn. discriminate.
  - destruct e0 as [c t | |]; cbn [is_Exception];
      [| cbn; discriminate | cbn; discriminate].
    rewrite bind_print, bind_log. unfold ret. cbn. discriminate.
Qed.

Lemma start_succeeds_without_export_witness :
  export_starts
    (emitted (fresh_machine (YMap [("export", YInt 5)]))
       (snd (start_system numbering (fresh_machine (YMap [("export", YInt 5)])))))
  = [].
Proof.
  exact (proj2 (start_succeeds_without_export numbering
                  (fresh_machine (YMap [("export", YInt 5)]))
                  (AttributeError "object has no attribute 'get'")
                  eq_refl eq_refl)).
Defined.

(** ** The export thread is on its own *)

#[global] Instance export_apart_pre : PreOrder export_apart.
Proof.
  split.
  - intros m Hc. split; [exact Hc | reflexivity].
  - intros a b c Hab Hbc Hc.
    destruct (Hab Hc) as [Hb Hadd1]. destruct (Hbc Hb) as [Hc' Hadd2].
    split; [exact Hc' | etransitivity; eassumption].
Qed.

Lemma export_apart_event e m : no_export_join e -> export_apart m (add_event e m).
Proof. intros He Hc. split; [exact Hc | apply adds_event, He]. Qed.

Lemma export_apart_upd f m :
  (forall o, threads (f o) = threads o \/
             exists t, threads (f o) = threads o ++ [t] /\
                       is_export_thread (target t) = false) ->
  export_apart m (upd f m).
Proof.
  intros Hf Hc. split; [| apply adds_upd].
  intros t Hin. unfold upd in Hin. cbn [obj] in Hin.
  destruct (Hf (obj m)) as [-> | [t' [-> Ht']]] in Hin; [exact (Hc t Hin) |].
  apply in_app_or in Hin. destruct Hin as [Hin | [<- | []]]; [exact (Hc t Hin) | exact Ht'].
Qed.

Ltac export_apart_side :=
  intros;
  first [ apply export_apart_event; exact I
        | apply export_apart_upd; intros;
          first [ left; reflexivity
                | right; eexists; split; reflexivity ] ].

Lemma stop_system_export_apart : respects export_apart stop_system.
Proof.
  intros w m Hc.
  destruct (stop_system_on_target w m) as [d [Hd Hf]]. split.
  - intros t Hin. rewrite stop_system_obj in Hin. exact (Hc t Hin).
  - exists d. split; [exact Hd |].
    eapply Forall_impl; [| exact Hf].
    intros [c o | | |]; cbn; auto. destruct c; cbn; auto.
Qed.

Lemma run_export_apart : respects export_apart run.
Proof.
  unfold run. apply respects_bind; [exact _ | respects_structure; export_apart_side |].
  intros _. apply respects_try_finally; [exact _ | |].
  - respects_structure; export_apart_side.
  - apply respects_bind; [exact _ | respects_structure; export_apart_side |].
    intros _. apply stop_system_export_apart.
Qed.

Lemma perform_export_apart o : respects export_apart (perform o).
Proof.
  destruct o; cbn [perform];
    first [ apply stop_system_export_apart
          | apply run_export_apart
          | respects_structure; export_apart_side ].
Qed.

Lemma perform_all_export_apart ops w m : export_apart m (perform_all ops w m).
Proof.
  revert m. induction ops as [| o rest IH]; intros m; cbn.
  - reflexivity.
  - etransitivity; [apply perform_export_apart | apply IH].
Qed.

(** X17.  The export thread is started and recorded nowhere.  On an
    instance whose list of threads has no export thread, as [__init__]
    builds it, after any operations in any order the list still has none,
    and no export thread was joined: the shutdown does not wait for an
    export that is under way. *)
Theorem export_thread_is_never_joined ops w m :
  no_export_thread m ->
  let m' := perform_all ops w m in
  no_export_thread m' /\
  forall t timeout out,
    In (EvCall (CallJoin t timeout) out) (emitted m m') ->
    is_export_thread (target t) = false.
Proof.
  intros Hc m'.
  destruct (perform_all_export_apart ops w m Hc) as [Hc' [d [Hd Hf]]].
  fold m' in Hc', Hd. split; [exact Hc' |].
  intros t timeout out Hin. rewrite (emitted_app _ _ _ Hd) in Hin.
  rewrite Forall_forall in Hf. exact (Hf _ Hin).
Qed.

Lemma export_thread_is_never_joined_witness :
  no_export_thread
    (perform_all [OpStartSystem; OpStopSystem] numbering (fresh_machine two_switches)) /\
  export_starts
    (hist (perform_all [OpStartSystem; OpStopSystem] numbering
             (fresh_machine two_switches)))
  = [(YInt 20, YStr "logs/packets.db")].
Proof.
  split.
  - apply (export_thread_is_never_joined [OpStartSystem; OpStopSystem] numbering
             (fresh_machine two_switches)).
    intros t [].
  - vm_compute. reflexivity.
Defined.

(** ** How long [run] keeps the system up *)

Lemma no_run_sleeps d : Forall no_run_sleep d -> filter is_run_sleep (calls d) = [].
Proof.
  induction 1 as [| e d He _ IH]; [reflexivity |].
  destruct e as [c o | | |]; cbn in *; try exact IH.
  rewrite He. exact IH.
Qed.

Ltac run_sleep_side := intros; first [apply adds_upd | apply adds_event; reflexivity].

Lemma sleeps_none {A} (c : M A) n :
  respects (adds no_run_sleep) c -> sleeps_at_most n c.
Proof.
  intros H w m. destruct (H w m) as [d [Hd Hf]]. exists d. split; [exact Hd |].
  rewrite (no_run_sleeps d Hf). cbn. lia.
Qed.

Lemma sleeps_bind a b n {A B} (c : M A) (f : A -> M B) :
  (a + b <= n)%nat ->
  sleeps_at_most a c -> (forall x, sleeps_at_most b (f x)) ->
  sleeps_at_most n (bind c f).
Proof.
  intros Hn Hc Hf w m. rewrite run_bind.
  destruct (Hc w m) as [d1 [Hd1 H1]].
  destruct (c w m) as [[x | e] m1]; cbn [snd] in *.
  - destruct (Hf x w m1) as [d2 [Hd2 H2]].
    exists (d1 ++ d2). split; [rewrite Hd2, Hd1, app_assoc; reflexivity |].
    rewrite calls_app, filter_app, length_app. lia.
  - exists d1. split; [exact Hd1 | lia].
Qed.

Lemma sleeps_try_interrupt a b n {A} (body on_interrupt : M A) on_exception :
  (a + b <= n)%nat ->
  sleeps_at_most a body -> sleeps_at_most b on_interrupt ->
  (forall e, sleeps_at_most b (on_exception e)) ->
  sleeps_at_most n (try_interrupt body on_interrupt on_exception).
Proof.
  intros Hn Hb Hi He w m. unfold try_interrupt.
  destruct (Hb w m) as [d1 [Hd1 H1]].
  destruct (body w m) as [[x | [c t | |]] m1]; cbn [snd] in *.
  - exists d1. split; [exact Hd1 | lia].
  - destruct (He (PyException c t) w m1) as [d2 [Hd2 H2]].
    exists (d1 ++ d2). split; [rewrite Hd2, Hd1, app_assoc; reflexivity |].
    rewrite calls_app, filter_app, length_app. lia.
  - destruct (Hi w m1) as [d2 [Hd2 H2]].
    exists (d1 ++ d2). split; [rewrite Hd2, Hd1, app_assoc; reflexivity |].
    rewrite calls_app, filter_app, length_app. lia.
  - exists d1. split; [exact Hd1 | lia].
Qed.

Lemma sleeps_try_finally a b n {A} (body : M A) fin :
  (a + b <= n)%nat ->
  sleeps_at_most a body -> sleeps_at_most b fin ->
  sleeps_at_most n (try_finally body fin).
Proof.
  intros Hn Hb Hf w m. unfold try_finally.
  destruct (Hb w m) as [d1 [Hd1 H1]].
  destruct (body w m) as [r m1]; cbn [snd] in *.
  destruct (Hf w m1) as [d2 [Hd2 H2]].
  destruct (fin w m1) as [[u | e] m2]; cbn [snd] in *;
    (exists (d1 ++ d2); split; [rewrite Hd2, Hd1, app_assoc; reflexivity |]);
    rewrite calls_app, filter_app, length_app; lia.
Qed.

Lemma sleeps_run_sleep : sleeps_at_most 1 (ext (CallSleep (YInt 360))).
Proof.
  intros w m. unfold ext.
  destruct (respond w (hist m) (CallSleep (YInt 360))) as [v | e]; cbn [snd];
    eexists; (split; [reflexivity |]); cbn; lia.
Qed.

Lemma start_system_io_no_run_sleep con :
  respects (adds no_run_sleep) (start_system_io con).
Proof. respects_io; run_sleep_side. Qed.

Lemma stop_system_no_run_sleep : respects (adds no_run_sleep) stop_system.
Proof. respects_structure; run_sleep_side. Qed.

Lemma print_io_no_run_sleep con s : respects (adds no_run_sleep) (print_io con s).
Proof. respects_io; run_sleep_side. Qed.

Lemma run_io_sleeps_once con : sleeps_at_most 1 (run_io con).
Proof.
  unfold run_io.
  apply (sleeps_bind 0 1); [lia | apply sleeps_none, print_io_no_run_sleep | intros _].
  apply (sleeps_try_finally 1 0); [lia | |].
  2:{ apply sleeps_none. respects_io; run_sleep_side. }
  unfold run_body_io.
  apply (sleeps_try_interrupt 1 0); [lia | | |].
  2:{ apply sleeps_none. respects_io; run_sleep_side. }
  2:{ intros e. apply sleeps_none. respects_io; run_sleep_side. }
  apply (sleeps_bind 0 1); [lia | apply sleeps_none, print_io_no_run_sleep | intros _].
  apply (sleeps_bind 0 1);
    [lia | apply sleeps_none, start_system_io_no_run_sleep | intros started].
  destruct started.
  - apply (sleeps_bind 0 1);
      [lia | apply sleeps_none; respects_io; run_sleep_side | intros o].
    apply (sleeps_bind 0 1); [lia | apply sleeps_none, print_io_no_run_sleep | intros _].
    apply (sleeps_bind 0 1);
      [lia | apply sleeps_none; respects_io; run_sleep_side | intros o1].
    apply (sleeps_bind 1 0); [lia | | intros _].
    + destruct (running o1).
      * apply (sleeps_bind 1 0);
          [lia | apply sleeps_run_sleep
          | intros _; apply sleeps_none; respects_io; run_sleep_side].
      * apply sleeps_none. respects_io; run_sleep_side.
    + apply sleeps_none. respects_io; run_sleep_side.
  - apply sleeps_none. respects_io; run_sleep_side.
Qed.

Ltac no_shutdown_side :=
  intros;
  first [ apply adds_upd
        | apply adds_event; cbn;
          first [ exact I | reflexivity
                | let H := fresh in intros H; discriminate H ] ].

Lemma run_body_io_no_shutdown con : respects (adds no_shutdown) (run_body_io con).
Proof. respects_io; no_shutdown_side. Qed.

(** X18.  [run] keeps the system up for one sleep of 360 seconds at most:
    whatever the world and the console answer and whatever the flag says,
    it makes that sleep at most once.  When the console takes the first
    line of [run] and the line of its [finally], [run] goes on to the
    shutdown: the line that opens [stop_system] is logged, and the last
    write of the flag is a write of false.  When the console refuses the
    line of the [finally], nothing of the shutdown happens: its opening
    line is not logged, the flag is not written false, and none of its
    calls is made. *)
Theorem run_is_one_sleep_long con w m :
  let added := emitted m (snd (run_io con w m)) in
  (length (filter is_run_sleep (calls added)) <= 1)%nat /\
  (takes con "DEBUG: run() called" -> takes con "DEBUG: run() finally block" ->
   In (EvLog Info "Stopping P4 DPI System...") added /\
   exists before after,
     added = before ++ [EvSetRunning false] ++ after /\ flag_writes after = []) /\
  (refuses con "DEBUG: run() finally block" ->
   ~ In (EvLog Info "Stopping P4 DPI System...") added /\
   ~ In (EvSetRunning false) added /\
   forall c, In c (calls added) -> is_shutdown_call c = false).
Proof.
  cbn zeta. split; [| split].
  - destruct (run_io_sleeps_once con w m) as [d [Hd Hone]].
    rewrite (emitted_app _ _ _ Hd). exact Hone.
  - intros H1 H2. rewrite (run_io_ends_by_stop con w m H1 H2).
    set (m2 := before_stop con w m).
    destruct (before_stop_grows con w m) as [dA HdA]. fold m2 in HdA.
    pose proof (stop_system_split w m2) as Hsplit.
    destruct (stop_body_writes_no_flag w
                (add_event (EvSetRunning false)
                   (upd (with_running false)
                      (add_event (EvLog Info "Stopping P4 DPI System...") m2))))
      as [d3 [Hd3 Hf3]].
    rewrite <- Hsplit in Hd3. cbn [hist add_event upd] in Hd3.
    assert (Hall : hist (snd (stop_system w m2))
                   = hist m ++ ((dA ++ [EvLog Info "Stopping P4 DPI System..."])
                                ++ [EvSetRunning false] ++ d3)).
    { rewrite Hd3, HdA, <- !app_assoc. reflexivity. }
    rewrite (emitted_app _ _ _ Hall). split.
    + apply in_or_app. left. apply in_or_app. right. left. reflexivity.
    + eexists. exists d3. split; [reflexivity |]. apply no_flag_writes. exact Hf3.
  - intros Hno.
    assert (Hadd : adds no_shutdown m (snd (run_io con w m))).
    { unfold run_io, bind at 1, print_io at 1.
      destruct (con (hist m) "DEBUG: run() called") as [e |]; cbn [snd];
        [reflexivity |].
      unfold try_finally.
      pose proof (run_body_io_no_shutdown con w
                    (add_event (EvPrint "DEBUG: run() called") m)) as Hb.
      destruct (run_body_io con w (add_event (EvPrint "DEBUG: run() called") m))
        as [r1 m1]; cbn [snd] in Hb.
      unfold bind, print_io.
      destruct (con (hist m1) "DEBUG: run() finally block") as [e |] eqn:Hcon;
        [| destruct (Hno (hist m1) Hcon)].
      cbn [snd].
      etransitivity;
        [apply (adds_event no_shutdown (EvPrint "DEBUG: run() called") m); exact I
        | exact Hb]. }
    destruct Hadd as [d [Hd Hf]]. rewrite (emitted_app _ _ _ Hd).
    rewrite Forall_forall in Hf. split; [| split].
    + intros Hin. exact (Hf _ Hin eq_refl).
    + intros Hin. pose proof (Hf _ Hin) as H. discriminate H.
    + intros c Hin. unfold calls in Hin. apply in_flat_map in Hin.
      destruct Hin as [e [He Hc]]. destruct e as [c' o | | |]; cbn in Hc;
        try contradiction.
      destruct Hc as [<- | []]. exact (Hf _ He).
Qed.

Lemma run_is_one_sleep_long_witness :
  In (EvLog Info "Stopping P4 DPI System...")
    (emitted (fresh_machine two_switches)
       (snd (run_io quiet numbering (fresh_machine two_switches)))) /\
  ~ In (EvSetRunning false)
      (emitted (fresh_machine two_switches)
         (snd (run_io lost_at_finally numbering (fresh_machine two_switches)))) /\
  running (obj (snd (run_io lost_at_finally numbering (fresh_machine two_switches))))
  = true.
Proof.
  split; [| split].
  - exact (proj1 (proj1 (proj2 (run_is_one_sleep_long quiet numbering
                                  (fresh_machine two_switches)))
                    (fun _ => eq_refl) (fun _ => eq_refl))).
  - refine (proj1 (proj2 (proj2 (proj2 (run_is_one_sleep_long lost_at_finally numbering
                                          (fresh_machine two_switches))) _))).
    intros h H. discriminate H.
  - vm_compute. reflexivity.
Defined.

(** ** The traffic generator and the web interface *)

(** X19.  The reference to the traffic generator is held as soon as its
    constructor has returned, also when the start of its thread then fails
    and the action answers failure: the health snapshot reports a generator
    as running whose thread never started, and [stop_system] will stop it.
    The action answers success exactly when the start of the thread
    returned, and then it has recorded that one thread. *)
Theorem start_traffic_generator_outcome w m :
  let r := start_traffic_generator w m in
  let added := emitted m (snd r) in
  (forall g,
      In (EvCall CallNewTrafficGenerator (Returned g)) added ->
      traffic_generator (obj (snd r)) = Some g /\
      reported_running (obj (snd r)) "traffic_generator") /\
  (fst r = Ret true <->
   exists g tid,
     In (EvCall (CallThreadStart (TgtTrafficGeneration g)) (Returned tid)) added) /\
  (fst r = Ret true ->
   exists g tid,
     threads (obj (snd r))
     = threads (obj m) ++ [{| target := TgtTrafficGeneration g; ident := tid |}]) /\
  (fst r = Ret false -> threads (obj (snd r)) = threads (obj m)).
Proof.
  unfold start_traffic_generator. explore.
  all: cbn zeta; emitted_norm.
  all: split;
    [ intros g Hin; refute Hin;
      (match goal with
       | H : EvCall _ (Returned _) = EvCall _ (Returned _) |- _ => injection H as <-
       end);
      (split; [reflexivity |]);
      apply reported_running_iff; right; right; left;
      (split; [reflexivity | cbn; discriminate])
    | ].
  all: split;
    [ split;
      [ intros Hr; first [discriminate Hr | eexists; eexists; solve_in]
      | intros [g [tid Hin]]; first [reflexivity | refute Hin] ]
    | ].
  all: split;
    [ intros Hr; first [discriminate Hr | eexists; eexists; reflexivity]
    | intros Hr; first [discriminate Hr | reflexivity] ].
Qed.

(** X20.  The web interface is launched with one fixed command line, on
    all addresses and port 5000: the action reads nothing of the
    configuration and makes no other call.  It answers success exactly when
    the launch returned; the registry then holds the new process under
    flask_api, in the place of any process that was there, and its other
    keys are as before.  When the launch raised, the instance is as it
    was. *)
Theorem start_web_interface_outcome w m :
  let r := start_web_interface w m in
  let added := emitted m (snd r) in
  calls added = [CallPopen flask_cmd] /\
  (fst r = Ret true <-> exists p, launches added = [(flask_cmd, p)]) /\
  (forall p,
      launches added = [(flask_cmd, p)] ->
      lookup "flask_api" (processes (obj (snd r))) = Some p /\
      forall key, key <> "flask_api" ->
                  lookup key (processes (obj (snd r)))
                  = lookup key (processes (obj m))) /\
  (launches added = [] -> obj (snd r) = obj m).
Proof.
  unfold start_web_interface, flask_cmd. explore.
  all: cbn zeta; emitted_norm.
  all: split; [reflexivity |].
  all: split;
    [ split;
      [ intros Hr; first [discriminate Hr | eexists; reflexivity]
      | intros [p Hl]; first [reflexivity | discriminate Hl] ]
    | ].
  all: split; [| intros Hl; first [discriminate Hl | reflexivity]].
  all: intros p Hl; try discriminate Hl.
  injection Hl as <-.
  cbn [snd obj add_event upd set_process processes]. split.
  - apply lookup_dict_set_same.
  - intros key Hk. apply lookup_dict_set_other. exact Hk.
Qed.
